(** * build.py: versioned workspace synchronisation and one-time actions

    A shallow embedding of [build.py], the script that assembles a pinned
    PX4 firmware checkout and a pymavlink checkout, patches them once,
    injects the Bell MAVLink message definition and drives the build tools.

    The script is a sequence of effects on the file system and of calls to
    external programs.  It is modelled in a state-and-exception monad over a
    world made of a directory tree and an opaque external state; each
    operation the script performs is recorded in a trace.  The external
    programs ([git], [make], [pip], [setup.py], [mavgen]) are parameters of
    the development: every statement holds for whatever they do. *)

From Stdlib Require Import List String Ascii Bool Arith Lia.
Import ListNotations.
Open Scope string_scope.

(** ** Python strings

    A Python [str] is modelled by a Rocq [string]; a character stands for the
    code point of the same number (0..255). *)

Module PyStr.

(** [a < b] and [a >= b] on [str]: code-point lexicographic order. *)
Definition str_lt (a b : string) : bool :=
  match String.compare a b with Lt => true | _ => false end.

Definition str_ge (a b : string) : bool :=
  match String.compare a b with Lt => false | _ => true end.

(** [s.split(sep)] for a one-character separator. *)
Fixpoint split (sep : ascii) (s : string) : list string :=
  match s with
  | EmptyString => [EmptyString]
  | String c s' =>
      if Ascii.eqb c sep then EmptyString :: split sep s'
      else match split sep s' with
           | h :: t => String c h :: t
           | [] => [String c EmptyString]
           end
  end.

(** Line boundaries of [str.splitlines]: \n \v \f \r \x1c \x1d \x1e \x85. *)
Definition is_linebreak (c : ascii) : bool :=
  let n := nat_of_ascii c in
  (((10 <=? n) && (n <=? 13)) || ((28 <=? n) && (n <=? 30)) || (n =? 133))%nat.

(** [s.splitlines()]: no empty last line, and \r\n is one boundary. *)
Fixpoint splitlines (s : string) : list string :=
  match s with
  | EmptyString => []
  | String c s' =>
      if is_linebreak c then
        match s' with
        | String c' s'' =>
            if Ascii.eqb c "013" && Ascii.eqb c' "010"
            then EmptyString :: splitlines s''
            else EmptyString :: splitlines s'
        | EmptyString => [EmptyString]
        end
      else match splitlines s' with
           | h :: t => String c h :: t
           | [] => [String c EmptyString]
           end
  end.

(** Whitespace of [str.strip]: \t..\r, \x1c..\x1f, space, \x85, \xa0. *)
Definition is_space (c : ascii) : bool :=
  let n := nat_of_ascii c in
  (((9 <=? n) && (n <=? 13)) || ((28 <=? n) && (n <=? 32))
   || (n =? 133) || (n =? 160))%nat.

Fixpoint lstrip (s : string) : string :=
  match s with
  | EmptyString => EmptyString
  | String c s' => if is_space c then lstrip s' else s
  end.

Fixpoint rstrip (s : string) : string :=
  match s with
  | EmptyString => EmptyString
  | String c s' =>
      match rstrip s' with
      | EmptyString => if is_space c then EmptyString else String c EmptyString
      | r => String c r
      end
  end.

Definition strip (s : string) : string := rstrip (lstrip s).

Definition startswith (s p : string) : bool := String.prefix p s.

Fixpoint endswith (s suf : string) : bool :=
  String.eqb s suf
  || match s with
     | EmptyString => false
     | String _ s' => endswith s' suf
     end.

(** [l[-1]] on a non-empty list; [split] never returns an empty one. *)
Definition last_item (l : list string) : string := List.last l EmptyString.

End PyStr.

(** ** posixpath *)

Module Path.
Import PyStr.

Definition sep : ascii := "/"%char.

(** [os.path.join(a, b)]. *)
Definition join (a b : string) : string :=
  if startswith b "/" then b
  else if String.eqb a "" || endswith a "/" then a ++ b
  else a ++ "/" ++ b.

(** [os.path.join(a, *ps)]. *)
Definition join_all (a : string) (ps : list string) : string :=
  fold_left join ps a.

(** The path read as text from the root: empty and [.] components are
    skipped, [..] drops the component before it (the parent of the root is
    the root).  This is where the operating system arrives whenever its own
    walk, [OSPath.locate_path], arrives somewhere. *)
Definition walk (acc : list string) (comp : string) : list string :=
  if String.eqb comp "" || String.eqb comp "." then acc
  else if String.eqb comp ".." then removelast acc
  else acc ++ [comp].

Definition resolve (p : string) : list string :=
  fold_left walk (split sep p) [].

(** A plain file or directory name: one component that names an entry. *)
Definition plain_name (n : string) : bool :=
  match split sep n with
  | [c] => negb (String.eqb c "" || String.eqb c "." || String.eqb c "..")
  | _ => false
  end.

End Path.

(** ** The file system

    A tree of directories and files.  Paths are resolved from the root;
    directory entries keep the order in which they were created. *)

Module FS.
Import PyStr Path.

#[warnings="-register-all"]
Inductive node : Type :=
| File (content : string)
| Dir (entries : list (string * node)).

Fixpoint find_entry (name : string) (es : list (string * node)) : option node :=
  match es with
  | [] => None
  | (n, x) :: es' => if String.eqb n name then Some x else find_entry name es'
  end.

Fixpoint remove_entry (name : string) (es : list (string * node))
  : list (string * node) :=
  match es with
  | [] => []
  | (n, x) :: es' =>
      if String.eqb n name then remove_entry name es'
      else (n, x) :: remove_entry name es'
  end.

Fixpoint set_entry (name : string) (x : node) (es : list (string * node))
  : list (string * node) :=
  match es with
  | [] => [(name, x)]
  | (n, y) :: es' =>
      if String.eqb n name then (name, x) :: es'
      else (n, y) :: set_entry name x es'
  end.

Fixpoint lookup (p : list string) (n : node) : option node :=
  match p with
  | [] => Some n
  | c :: p' =>
      match n with
      | Dir es =>
          match find_entry c es with
          | Some x => lookup p' x
          | None => None
          end
      | File _ => None
      end
  end.

(** Unlink the entry at [p], with everything below it. *)
Fixpoint remove (p : list string) (n : node) : node :=
  match p with
  | [] => n
  | c :: p' =>
      match n with
      | Dir es =>
          match p' with
          | [] => Dir (remove_entry c es)
          | _ :: _ =>
              match find_entry c es with
              | Some x => Dir (set_entry c (remove p' x) es)
              | None => n
              end
          end
      | File _ => n
      end
  end.

(** Put [x] at [p]; the parent of [p] has to be a directory. *)
Fixpoint put (p : list string) (x : node) (n : node) : option node :=
  match p with
  | [] => Some x
  | c :: p' =>
      match n with
      | Dir es =>
          match find_entry c es with
          | Some y =>
              match put p' x y with
              | Some y' => Some (Dir (set_entry c y' es))
              | None => None
              end
          | None =>
              match p' with
              | [] => Some (Dir (set_entry c x es))
              | _ :: _ => None
              end
          end
      | File _ => None
      end
  end.

(** Create the directories along [p] that are missing; fails on a file. *)
Fixpoint mkdirs (p : list string) (n : node) : option node :=
  match n with
  | File _ => None
  | Dir es =>
      match p with
      | [] => Some n
      | c :: p' =>
          let child := match find_entry c es with
                       | Some y => y
                       | None => Dir []
                       end in
          match mkdirs p' child with
          | Some y' => Some (Dir (set_entry c y' es))
          | None => None
          end
      end
  end.

(** Every entry of the tree has a plain name, as the entries of a file
    system have. *)
Fixpoint names_plain (t : node) : bool :=
  match t with
  | File _ => true
  | Dir es =>
      (fix entries (es : list (string * node)) : bool :=
         match es with
         | [] => true
         | (n, x) :: es' => plain_name n && names_plain x && entries es'
         end) es
  end.

Definition is_dir (o : option node) : bool :=
  match o with Some (Dir _) => true | _ => false end.

Definition is_file (o : option node) : bool :=
  match o with Some (File _) => true | _ => false end.

End FS.

(** ** Operations, exceptions and traces *)

(** A child process: [subprocess.check_call(argv, cwd=..., env=...)].
    [env] lists the variables set on top of the inherited environment. *)
Record Cmd : Type := mkCmd {
  argv : list string;
  cwd : option string;
  env : list (string * string)
}.

Inductive exn : Type :=
| CalledProcessError
| StopIteration
| FileNotFoundError
| FileExistsError
| NotADirectoryError
| IsADirectoryError
| SameFileError
| OSError
| RecursionError.

(** What the script does to the outside. *)
Inductive op : Type :=
| Print (msg : string)
| CheckCall (c : Cmd)
| CheckOutput (c : Cmd)
| Rmtree (path : string) (ignore_errors : bool)
| OpenW (filename : string)
| Copyfile (src dst : string)
| Copytree (src dst : string)
| Makedirs (path : string) (exist_ok : bool).

(** An operation of the trace, with whether it returned ([true]) or raised. *)
Record event : Type := Ev { ev_op : op; ev_ok : bool }.

Definition done (o : op) : event := Ev o true.
Definition failed (o : op) : event := Ev o false.

Inductive outcome (A : Type) : Type :=
| Ok (a : A)
| Raised (e : exn).
Arguments Ok {A} a.
Arguments Raised {A} e.

(** ** Paths as the operating system takes them *)

Module OSPath.
Import PyStr Path FS.

(** How the operating system walks a path: component by component, each one
    taken in a directory that is there.  The walk of the components [comps]
    from the directory [here]; the last component need not exist. *)
Fixpoint locate (comps : list string) (here : list string) (t : node)
  : outcome (list string) :=
  match comps with
  | [] => Ok here
  | c :: rest =>
      match lookup here t with
      | Some (Dir _) =>
          if String.eqb c "" || String.eqb c "." then locate rest here t
          else if String.eqb c ".." then locate rest (removelast here) t
          else locate rest (here ++ [c])%list t
      | Some (File _) => Raised NotADirectoryError
      | None => Raised FileNotFoundError
      end
  end.

(** Where a path leads; the empty path leads nowhere. *)
Definition locate_path (path : string) (t : node) : outcome (list string) :=
  if String.eqb path "" then Raised FileNotFoundError
  else locate (split sep path) [] t.

End OSPath.

Module Sys.
Import PyStr Path FS.

Section World.

(** State of the outside that is not the directory tree (the network, the
    object stores of the checkouts, installed packages). *)
Variable Ext : Type.

Record World : Type := mkWorld { fs : node; ext : Ext }.

Record Exit : Type := mkExit {
  exit_ok : bool;          (* exit status zero *)
  stdout : string;
  after : World
}.

(** The external programs. *)
Variable run_process : Cmd -> World -> Exit.

Record result (A : Type) : Type := mkResult {
  res_out : outcome A;
  res_world : World;
  res_trace : list event
}.
Arguments mkResult {A} _ _ _.
Arguments res_out {A} _.
Arguments res_world {A} _.
Arguments res_trace {A} _.

Definition M (A : Type) : Type := World -> result A.

Definition ret {A} (a : A) : M A := fun w => mkResult (Ok a) w [].

Definition raise {A} (e : exn) : M A := fun w => mkResult (Raised e) w [].

Definition bind {A B} (m : M A) (f : A -> M B) : M B :=
  fun w =>
    match m w with
    | mkResult (Ok a) w1 t1 =>
        let r := f a w1 in
        mkResult (res_out r) (res_world r) (t1 ++ res_trace r)
    | mkResult (Raised e) w1 t1 => mkResult (Raised e) w1 t1
    end.

(** One operation: its outcome and the directory tree it leaves. *)
Definition fs_op {A} (o : op) (f : node -> outcome A * node) : M A :=
  fun w =>
    let '(r, t) := f (fs w) in
    mkResult r (mkWorld t (ext w))
             [Ev o match r with Ok _ => true | Raised _ => false end].

Definition query {A} (f : node -> A) : M A :=
  fun w => mkResult (Ok (f (fs w))) w [].

(** [os.path.isdir], [os.path.isfile]. *)
Definition os_path_isdir (p : string) : M bool :=
  query (fun t => is_dir (lookup (resolve p) t)).

Definition os_path_isfile (p : string) : M bool :=
  query (fun t => is_file (lookup (resolve p) t)).

(** [os.listdir]. *)
Definition os_listdir (p : string) : M (list string) :=
  fun w =>
    match lookup (resolve p) (fs w) with
    | Some (Dir es) => mkResult (Ok (map fst es)) w []
    | Some (File _) => mkResult (Raised NotADirectoryError) w []
    | None => mkResult (Raised FileNotFoundError) w []
    end.

(** [print(msg, flush=True)]. *)
Definition print (msg : string) : M unit :=
  fun w => mkResult (Ok tt) w [done (Print msg)].

(** [subprocess.check_call]: raises on a non-zero exit status. *)
Definition check_call (c : Cmd) : M unit :=
  fun w =>
    let x := run_process c w in
    if exit_ok x then mkResult (Ok tt) (after x) [done (CheckCall c)]
    else mkResult (Raised CalledProcessError) (after x) [failed (CheckCall c)].

(** [subprocess.check_output(...).decode()]. *)
Definition check_output (c : Cmd) : M string :=
  fun w =>
    let x := run_process c w in
    if exit_ok x then mkResult (Ok (stdout x)) (after x) [done (CheckOutput c)]
    else mkResult (Raised CalledProcessError) (after x) [failed (CheckOutput c)].

(** The operations on files below take their path as text, with
    [Path.resolve].  The script's own paths are joins of its directory with
    names; wherever the walk of the operating system, [OSPath.locate_path],
    arrives, it arrives at [resolve] of the path.  On a path of any shape
    ([x/..] with no [x], a final separator after a missing name) the
    operating system raises where these go on: a statement about such a
    path is made with [locate_path]. *)

(** [shutil.rmtree(path, ignore_errors=...)].  The root cannot be removed:
    its entries go and the removal of the root itself fails. *)
Definition rmtree_fs (path : string) (ignore_errors : bool) (t : node)
  : outcome unit * node :=
  let quiet e := if ignore_errors then Ok tt else Raised e in
  match resolve path with
  | [] => match t with
          | Dir _ => (quiet OSError, Dir [])
          | File _ => (quiet NotADirectoryError, t)
          end
  | rp =>
      match lookup rp t with
      | Some (Dir _) => (Ok tt, remove rp t)
      | Some (File _) => (quiet NotADirectoryError, t)
      | None => (quiet FileNotFoundError, t)
      end
  end.

Definition shutil_rmtree (path : string) (ignore_errors : bool) : M unit :=
  fs_op (Rmtree path ignore_errors) (rmtree_fs path ignore_errors).

(** [open(filename, "w")] followed by writing [content]. *)
Definition write_fs (filename content : string) (t : node)
  : outcome unit * node :=
  let rp := resolve filename in
  match lookup rp t with
  | Some (Dir _) => (Raised IsADirectoryError, t)
  | _ =>
      match lookup (removelast rp) t with
      | Some (Dir _) =>
          match put rp (File content) t with
          | Some t' => (Ok tt, t')
          | None => (Raised OSError, t)
          end
      | Some (File _) => (Raised NotADirectoryError, t)
      | None => (Raised FileNotFoundError, t)
      end
  end.

(** [shutil.copyfile(src, dst)]: the two must not be the same existing
    entry, and [src] has to be a file. *)
Definition copyfile_fs (src dst : string) (t : node) : outcome unit * node :=
  match lookup (resolve src) t with
  | Some x =>
      if list_eq_dec string_dec (resolve src) (resolve dst)
      then (Raised SameFileError, t)
      else match x with
           | File content => write_fs dst content t
           | Dir _ => (Raised IsADirectoryError, t)
           end
  | None => (Raised FileNotFoundError, t)
  end.

Definition shutil_copyfile (src dst : string) : M unit :=
  fs_op (Copyfile src dst) (copyfile_fs src dst).

(** [shutil.copytree(src, dst)]: [dst] must not exist; its missing parents
    are created. *)
Definition copytree_fs (src dst : string) (t : node) : outcome unit * node :=
  match lookup (resolve src) t with
  | Some (Dir es) =>
      match lookup (resolve dst) t with
      | Some _ => (Raised FileExistsError, t)
      | None =>
          match mkdirs (resolve dst) t with
          | Some t1 =>
              match put (resolve dst) (Dir es) t1 with
              | Some t2 => (Ok tt, t2)
              | None => (Raised OSError, t)
              end
          | None => (Raised NotADirectoryError, t)
          end
      end
  | Some (File _) => (Raised NotADirectoryError, t)
  | None => (Raised FileNotFoundError, t)
  end.

Definition shutil_copytree (src dst : string) : M unit :=
  fs_op (Copytree src dst) (copytree_fs src dst).

(** [os.makedirs(path, exist_ok=...)]. *)
Definition makedirs_fs (path : string) (exist_ok : bool) (t : node)
  : outcome unit * node :=
  match lookup (resolve path) t with
  | Some (Dir _) => (if exist_ok then Ok tt else Raised FileExistsError, t)
  | Some (File _) => (Raised FileExistsError, t)
  | None =>
      match mkdirs (resolve path) t with
      | Some t' => (Ok tt, t')
      | None => (Raised NotADirectoryError, t)
      end
  end.

Definition os_makedirs (path : string) (exist_ok : bool) : M unit :=
  fs_op (Makedirs path exist_ok) (makedirs_fs path exist_ok).

(** [next(iter(xs))]. *)
Definition next {A} (xs : list A) : M A :=
  match xs with
  | x :: _ => ret x
  | [] => raise StopIteration
  end.

(** [for x in xs: body(x)]. *)
Fixpoint for_each {A} (xs : list A) (body : A -> M unit) : M unit :=
  match xs with
  | [] => ret tt
  | x :: xs' => bind (body x) (fun _ => for_each xs' body)
  end.

End World.

Arguments mkWorld {Ext} _ _.
Arguments fs {Ext} _.
Arguments ext {Ext} _.
Arguments mkExit {Ext} _ _ _.
Arguments exit_ok {Ext} _.
Arguments stdout {Ext} _.
Arguments after {Ext} _.
Arguments mkResult {Ext A} _ _ _.
Arguments res_out {Ext A} _.
Arguments res_world {Ext A} _.
Arguments res_trace {Ext A} _.
Arguments ret {Ext A} _ _.
Arguments raise {Ext A} _ _.
Arguments bind {Ext A B} _ _ _.
Arguments next {Ext A} _ _.
Arguments for_each {Ext A} _ _ _.
Arguments print {Ext} _ _.
Arguments os_path_isdir {Ext} _ _.
Arguments os_path_isfile {Ext} _ _.
Arguments os_listdir {Ext} _ _.
Arguments shutil_rmtree {Ext} _ _ _.
Arguments shutil_copyfile {Ext} _ _ _.
Arguments shutil_copytree {Ext} _ _ _.
Arguments os_makedirs {Ext} _ _ _.
Arguments check_call {Ext} _ _ _.
Arguments check_output {Ext} _ _ _.

Declare Scope py_scope.
Delimit Scope py_scope with py.
Notation "x <- m ;; k" := (bind m (fun x => k))
  (at level 61, m at next level, right associativity) : py_scope.
Notation "m ;; k" := (bind m (fun _ => k))
  (at level 61, right associativity) : py_scope.

End Sys.

(** ** build.py *)

Module Build.
Import PyStr Path FS Sys.
Open Scope py_scope.

Section Script.

(** Module-level values the script reads when it is loaded: the absolute
    directory of [build.py], the stripped content of [.px4-version] and
    [sys.executable]. *)
Variable THIS_DIR : string.
Variable PX4_VERSION : string.
Variable sys_executable : string.

Variable Ext : Type.
Variable run_process : Cmd -> World Ext -> Exit Ext.

Abbreviation M := (Sys.M Ext).
Abbreviation check_call := (Sys.check_call run_process).
Abbreviation check_output := (Sys.check_output run_process).

Definition DIST_DIR : string := join THIS_DIR "dist".

Definition BUILD_DIR : string := join_all THIS_DIR ["build"; PX4_VERSION].

Definition PX4_DIR : string := join BUILD_DIR "PX4-Autopilot".

Definition PYMAVLINK_DIR : string :=
  if str_lt PX4_VERSION "v1.13.0" then join BUILD_DIR "pymavlink"
  else join_all PX4_DIR ["src"; "modules"; "mavlink"; "mavlink"; "pymavlink"].

Definition print2 (msg : string) : M unit := print ("--- " ++ msg).

(** [open(filename, "w")], closed at once.  The script calls it with the
    three marker paths only. *)
Definition touch_file (filename : string) : M unit :=
  fs_op Ext (OpenW filename) (write_fs filename "").

Definition git_pull : Cmd := mkCmd ["git"; "pull"] (Some PYMAVLINK_DIR) [].

Definition git_clone_pymavlink : Cmd :=
  mkCmd ["git"; "clone"; "https://github.com/ardupilot/pymavlink"; PYMAVLINK_DIR]
        None [].

Definition clone_pymavlink : M unit :=
  if str_ge PX4_VERSION "v1.13.0" then ret tt
  else
    have <- os_path_isdir PYMAVLINK_DIR ;;
    if have then
      print2 "Updating pymavlink" ;;
      check_call git_pull
    else
      print2 "Cloning pymavlink" ;;
      check_call git_clone_pymavlink.

Definition git_remote_show : Cmd :=
  mkCmd ["git"; "remote"; "show"; "origin"; "-n"] (Some PX4_DIR) [].

Definition git_clone_px4 : Cmd :=
  mkCmd ["git"; "clone"; "https://github.com/PX4/PX4-Autopilot"; PX4_DIR;
         "--depth"; "1"; "--branch"; PX4_VERSION; "--recurse-submodules"]
        None [].

(** The generator of [clone_px4]:
    [l.split("/")[-1] for l in out.splitlines() if l.strip().startswith("refs")]. *)
Definition local_versions (out : string) : list string :=
  map (fun l => last_item (split sep l))
      (filter (fun l => startswith (strip l) "refs") (splitlines out)).

Definition px4_patch_file : string := join BUILD_DIR ".px4-patched".

Definition git_apply_px4 : Cmd :=
  mkCmd ["git"; "apply"; "--ignore-space-change"; "--ignore-whitespace";
         join_all THIS_DIR
           ["patches"; "hil_gps_heading_" ++ PX4_VERSION ++ ".patch"]]
        (Some PX4_DIR) [].

(** Lines 124-140 of [clone_px4]: the patch, guarded by its marker. *)
Definition clone_px4_patch : M unit :=
  let check_patch_file := px4_patch_file in
  patched <- os_path_isfile check_patch_file ;;
  if negb patched then
    print2 "Applying PX4 patch" ;;
    check_call git_apply_px4 ;;
    touch_file check_patch_file
  else ret tt.

(** [clone_px4] calls itself after it has removed the workspace; [depth] is
    the number of nested calls the interpreter still allows. *)
Fixpoint clone_px4_rec (depth : nat) : M unit :=
  match depth with
  | O => raise RecursionError
  | S depth' =>
      (have <- os_path_isdir PX4_DIR ;;
       if have then
         out <- check_output git_remote_show ;;
         local_version <- next (local_versions out) ;;
         if negb (String.eqb local_version PX4_VERSION) then
           print ("Existing PX4 checkout is " ++ local_version ++ ", re-cloning") ;;
           shutil_rmtree BUILD_DIR false ;;
           clone_px4_rec depth'
         else ret tt
       else
         print2 "Cloning PX4" ;;
         check_call git_clone_px4) ;;
      clone_px4_patch
  end.

(** Python's default recursion limit. *)
Definition recursion_limit : nat := 1000.

Definition clone_px4 : M unit := clone_px4_rec recursion_limit.

Definition pip_upgrade : Cmd :=
  mkCmd [sys_executable; "-m"; "pip"; "install"; "--upgrade"; "pip"; "wheel"]
        None [].

Definition pip_requirements : Cmd :=
  mkCmd [sys_executable; "-m"; "pip"; "install"; "-r";
         join PYMAVLINK_DIR "requirements.txt"]
        None [].

Definition install_dependencies : M unit :=
  print2 "Installing Python dependencies" ;;
  check_call pip_upgrade ;;
  check_call pip_requirements.

Definition pymavlink_patch_file : string := join BUILD_DIR ".pymavlink-patched".

Definition git_reset_pymavlink : Cmd :=
  mkCmd ["git"; "reset"; "--hard"] (Some PYMAVLINK_DIR) [].

Definition git_apply_pymavlink : Cmd :=
  mkCmd ["git"; "apply"; "--ignore-space-change"; "--ignore-whitespace";
         join_all THIS_DIR ["patches"; "pymavlink_" ++ PX4_VERSION ++ ".patch"]]
        (Some PYMAVLINK_DIR) [].

(** Lines 171-185 of [build_pymavlink]. *)
Definition build_pymavlink_patch : M unit :=
  let check_patch_file := pymavlink_patch_file in
  patched <- os_path_isfile check_patch_file ;;
  if negb patched then
    print2 "Applying Pymavlink patch" ;;
    check_call git_reset_pymavlink ;;
    check_call git_apply_pymavlink ;;
    touch_file check_patch_file
  else ret tt.

Definition pymavlink_definitions : string :=
  join_all PYMAVLINK_DIR ["message_definitions"; "v1.0"].

(** Lines 187-196 of [build_pymavlink]. *)
Definition build_pymavlink_copy (message_definitions_dir : string) : M unit :=
  print2 "Copying message definitions" ;;
  shutil_rmtree pymavlink_definitions true ;;
  shutil_copytree message_definitions_dir pymavlink_definitions.

Definition setup_py : Cmd :=
  mkCmd [sys_executable; "setup.py"; "sdist"; "bdist_wheel"]
        (Some PYMAVLINK_DIR) [("MAVLINK_DIALECT", "bell")].

Definition mavgen_wlua (bell_xml_def : string) : Cmd :=
  mkCmd [sys_executable; "-m"; "pymavlink.tools.mavgen"; "--lang=WLua";
         "--wire-protocol=2.0";
         "--output=" ++ join DIST_DIR "bell-avr.lua"; bell_xml_def]
        (Some (join PYMAVLINK_DIR "..")) [].

Definition build_pymavlink (message_definitions_dir bell_xml_def : string)
    (should_build_wireshark : bool) : M unit :=
  print2 "Generating pymavlink package" ;;
  build_pymavlink_patch ;;
  build_pymavlink_copy message_definitions_dir ;;
  let pymavlink_dist_dir := join PYMAVLINK_DIR "dist" in
  print2 "Building package" ;;
  check_call setup_py ;;
  filenames <- os_listdir pymavlink_dist_dir ;;
  for_each filenames (fun filename =>
    shutil_copyfile (join pymavlink_dist_dir filename)
                    (join DIST_DIR filename)) ;;
  if should_build_wireshark then
    print2 "Building wireshark plugin" ;;
    check_call (mavgen_wlua bell_xml_def)
  else ret tt.

Definition make (target : string) : Cmd :=
  mkCmd ["make"; target; "-j"] (Some PX4_DIR) [].

Definition px4_image (target : string) : string :=
  join_all (join PX4_DIR "build") [target; target ++ ".px4"].

Definition px4_artifact (target version : string) : string :=
  join DIST_DIR (target ++ "." ++ PX4_VERSION ++ "." ++ version ++ ".px4").

Definition build_px4 (targets : list string) (version : string) : M unit :=
  print2 "Building PX4 firmware" ;;
  for_each targets (fun target =>
    check_call (make target) ;;
    shutil_copyfile (px4_image target) (px4_artifact target version)).

Definition message_definitions_dir : string :=
  if str_lt PX4_VERSION "v1.13.0" then
    join_all PX4_DIR ["mavlink"; "include"; "mavlink"; "v2.0";
                      "message_definitions"]
  else
    join_all PX4_DIR ["src"; "modules"; "mavlink"; "mavlink";
                      "message_definitions"; "v1.0"].

Definition generated_message_dir : string :=
  if str_lt PX4_VERSION "v1.13.0" then join message_definitions_dir ".."
  else join_all message_definitions_dir [".."; ".."; ".."].

Definition bell_xml_def : string := join message_definitions_dir "bell.xml".

Definition mavlink_commit_file : string := join BUILD_DIR ".mavlink-commited".

Definition mavgen_c : Cmd :=
  mkCmd [sys_executable; "-m"; "pymavlink.tools.mavgen"; "--lang=C";
         "--wire-protocol=2.0"; "--output=" ++ generated_message_dir;
         bell_xml_def]
        (Some (join PYMAVLINK_DIR "..")) [].

Definition git_config_email : Cmd :=
  mkCmd ["git"; "config"; "user.email"; "github-bot@nvaughn.email"]
        (Some PX4_DIR) [].

Definition git_config_name : Cmd :=
  mkCmd ["git"; "config"; "user.name"; "Github Actions"] (Some PX4_DIR) [].

Definition git_add : Cmd := mkCmd ["git"; "add"; "."] (Some PX4_DIR) [].

Definition git_commit : Cmd :=
  mkCmd ["git"; "commit"; "--no-gpg-sign"; "-m";
         "Local commit to facilitate build"]
        (Some PX4_DIR) [].

(** Lines 306-350 of [main]. *)
Definition main_inject : M unit :=
  let check_patch_file := mavlink_commit_file in
  committed <- os_path_isfile check_patch_file ;;
  if negb committed then
    print2 "Injecting Bell MAVLink message" ;;
    shutil_copyfile (join THIS_DIR "bell.xml") bell_xml_def ;;
    (if str_lt PX4_VERSION "v1.13.0" then check_call mavgen_c else ret tt) ;;
    check_call git_config_email ;;
    check_call git_config_name ;;
    check_call git_add ;;
    check_call git_commit ;;
    touch_file check_patch_file
  else ret tt.

Definition main (should_build_pymavlink should_build_px4
                 should_build_wireshark : bool)
    (version : string) (targets : list string) : M unit :=
  os_makedirs DIST_DIR true ;;
  clone_pymavlink ;;
  clone_px4 ;;
  install_dependencies ;;
  main_inject ;;
  (if should_build_pymavlink then
     build_pymavlink message_definitions_dir bell_xml_def should_build_wireshark
   else ret tt) ;;
  if should_build_px4 then build_px4 targets version else ret tt.

End Script.
End Build.

(** ** [clone_px4] without its nested call *)

Module Straight.
Import PyStr Path FS Sys Build.
Open Scope py_scope.

Section Script.

Variable THIS_DIR : string.
Variable PX4_VERSION : string.
Variable Ext : Type.
Variable run_process : Cmd -> World Ext -> Exit Ext.

(** What [clone_px4] does when there is no checkout. *)
Definition clone_px4_fresh : M Ext unit :=
  (print2 Ext "Cloning PX4" ;;
   check_call run_process (git_clone_px4 THIS_DIR PX4_VERSION)) ;;
  clone_px4_patch THIS_DIR PX4_VERSION Ext run_process.

(** [clone_px4] with the nested call replaced by what it does once the
    workspace is gone. *)
Definition clone_px4_flat : M Ext unit :=
  (have <- os_path_isdir (PX4_DIR THIS_DIR PX4_VERSION) ;;
   if have then
     out <- check_output run_process (git_remote_show THIS_DIR PX4_VERSION) ;;
     local_version <- next (local_versions out) ;;
     if negb (String.eqb local_version PX4_VERSION) then
       print ("Existing PX4 checkout is " ++ local_version ++ ", re-cloning") ;;
       shutil_rmtree (BUILD_DIR THIS_DIR PX4_VERSION) false ;;
       clone_px4_fresh
     else ret tt
   else
     print2 Ext "Cloning PX4" ;;
     check_call run_process (git_clone_px4 THIS_DIR PX4_VERSION)) ;;
  clone_px4_patch THIS_DIR PX4_VERSION Ext run_process.

(** The operation [o] as the script performs it. *)
Definition perform (o : op) : M Ext unit :=
  match o with
  | Print msg => print msg
  | CheckCall c => check_call run_process c
  | CheckOutput c => _ <- check_output run_process c ;; ret tt
  | Rmtree path ignore_errors => shutil_rmtree path ignore_errors
  | OpenW filename => touch_file Ext filename
  | Copyfile src dst => shutil_copyfile src dst
  | Copytree src dst => shutil_copytree src dst
  | Makedirs path exist_ok => os_makedirs path exist_ok
  end.

(** A straight run of operations; it stops at the first that raises. *)
Definition perform_all (os : list op) : M Ext unit := for_each os perform.

(** An action done once: skipped when the marker file is there, and
    followed by the creation of the marker otherwise. *)
Definition guarded (marker : string) (action : M Ext unit) : M Ext unit :=
  present <- os_path_isfile marker ;;
  if negb present then action ;; touch_file Ext marker else ret tt.

Variable sys_executable : string.

(** The operations of the three guarded actions of the script. *)
Definition px4_patch_ops : list op :=
  [Print "--- Applying PX4 patch";
   CheckCall (git_apply_px4 THIS_DIR PX4_VERSION)].

Definition pymavlink_patch_ops : list op :=
  [Print "--- Applying Pymavlink patch";
   CheckCall (git_reset_pymavlink THIS_DIR PX4_VERSION);
   CheckCall (git_apply_pymavlink THIS_DIR PX4_VERSION)].

Definition inject_ops : list op :=
  [Print "--- Injecting Bell MAVLink message";
   Copyfile (join THIS_DIR "bell.xml") (bell_xml_def THIS_DIR PX4_VERSION)]
  ++ (if str_lt PX4_VERSION "v1.13.0"
      then [CheckCall (mavgen_c THIS_DIR PX4_VERSION sys_executable)]
      else [])
  ++ [CheckCall (git_config_email THIS_DIR PX4_VERSION);
      CheckCall (git_config_name THIS_DIR PX4_VERSION);
      CheckCall (git_add THIS_DIR PX4_VERSION);
      CheckCall (git_commit THIS_DIR PX4_VERSION)].

(** [main] up to the injection of the message, and from there on. *)
Definition main_before : M Ext unit :=
  os_makedirs (DIST_DIR THIS_DIR) true ;;
  clone_pymavlink THIS_DIR PX4_VERSION Ext run_process ;;
  clone_px4 THIS_DIR PX4_VERSION Ext run_process ;;
  install_dependencies THIS_DIR PX4_VERSION sys_executable Ext run_process.

Definition main_after (should_build_pymavlink should_build_px4
                       should_build_wireshark : bool)
    (version : string) (targets : list string) : M Ext unit :=
  (if should_build_pymavlink then
     build_pymavlink THIS_DIR PX4_VERSION sys_executable Ext run_process
       (message_definitions_dir THIS_DIR PX4_VERSION)
       (bell_xml_def THIS_DIR PX4_VERSION) should_build_wireshark
   else ret tt) ;;
  if should_build_px4
  then build_px4 THIS_DIR PX4_VERSION Ext run_process targets version
  else ret tt.

(** Operations of the injection that [main] performs nowhere else: the
    generation of the C bindings and the commit. *)
Definition generates_or_commits (o : op) : Prop :=
  o = CheckCall (mavgen_c THIS_DIR PX4_VERSION sys_executable)
  \/ o = CheckCall (git_commit THIS_DIR PX4_VERSION).

(** The operations [main] can perform before the injection, ... *)
Inductive before_op : op -> Prop :=
| before_print msg : before_op (Print msg)
| before_makedirs : before_op (Makedirs (DIST_DIR THIS_DIR) true)
| before_pull : before_op (CheckCall (git_pull THIS_DIR PX4_VERSION))
| before_clone_pymavlink :
    before_op (CheckCall (git_clone_pymavlink THIS_DIR PX4_VERSION))
| before_remote_show :
    before_op (CheckOutput (git_remote_show THIS_DIR PX4_VERSION))
| before_rmtree : before_op (Rmtree (BUILD_DIR THIS_DIR PX4_VERSION) false)
| before_clone_px4 : before_op (CheckCall (git_clone_px4 THIS_DIR PX4_VERSION))
| before_apply : before_op (CheckCall (git_apply_px4 THIS_DIR PX4_VERSION))
| before_marker : before_op (OpenW (px4_patch_file THIS_DIR PX4_VERSION))
| before_pip_upgrade : before_op (CheckCall (pip_upgrade sys_executable))
| before_pip_requirements :
    before_op (CheckCall (pip_requirements THIS_DIR PX4_VERSION sys_executable)).

(** ... in the injection, ... *)
Definition inject_op (o : op) : Prop :=
  In o inject_ops \/ o = OpenW (mavlink_commit_file THIS_DIR PX4_VERSION).

(** ... and after it. *)
Inductive after_op : op -> Prop :=
| after_print msg : after_op (Print msg)
| after_reset : after_op (CheckCall (git_reset_pymavlink THIS_DIR PX4_VERSION))
| after_apply : after_op (CheckCall (git_apply_pymavlink THIS_DIR PX4_VERSION))
| after_marker : after_op (OpenW (pymavlink_patch_file THIS_DIR PX4_VERSION))
| after_rmtree :
    after_op (Rmtree (pymavlink_definitions THIS_DIR PX4_VERSION) true)
| after_copytree :
    after_op (Copytree (message_definitions_dir THIS_DIR PX4_VERSION)
                       (pymavlink_definitions THIS_DIR PX4_VERSION))
| after_setup :
    after_op (CheckCall (setup_py THIS_DIR PX4_VERSION sys_executable))
| after_package filename :
    after_op (Copyfile
                (join (join (PYMAVLINK_DIR THIS_DIR PX4_VERSION) "dist") filename)
                (join (DIST_DIR THIS_DIR) filename))
| after_wireshark :
    after_op (CheckCall (mavgen_wlua THIS_DIR PX4_VERSION sys_executable
                           (bell_xml_def THIS_DIR PX4_VERSION)))
| after_make target : after_op (CheckCall (make THIS_DIR PX4_VERSION target))
| after_image target version :
    after_op (Copyfile (px4_image THIS_DIR PX4_VERSION target)
                       (px4_artifact THIS_DIR PX4_VERSION target version)).

(** What the script itself writes and removes, and where: the three marker
    files; copies into the firmware checkout and into the output directory,
    under a plain name; the codec generator's definitions; the output
    directory, which it creates; the workspace, which it removes as a whole.
    What the external programs do is theirs. *)
Definition writes_in_place (o : op) : Prop :=
  match o with
  | OpenW filename =>
      filename = join (BUILD_DIR THIS_DIR PX4_VERSION) ".px4-patched"
      \/ filename = join (BUILD_DIR THIS_DIR PX4_VERSION) ".pymavlink-patched"
      \/ filename = join (BUILD_DIR THIS_DIR PX4_VERSION) ".mavlink-commited"
  | Copyfile _ dst =>
      (exists q,
         resolve dst = (resolve (PX4_DIR THIS_DIR PX4_VERSION) ++ q)%list)
      \/ (exists name,
            plain_name name = true
            /\ resolve dst = (resolve (DIST_DIR THIS_DIR) ++ [name])%list)
  | Copytree _ dst =>
      exists q,
        resolve dst = (resolve (PYMAVLINK_DIR THIS_DIR PX4_VERSION) ++ q)%list
  | Makedirs path _ => path = DIST_DIR THIS_DIR
  | Rmtree path _ =>
      path = BUILD_DIR THIS_DIR PX4_VERSION
      \/ exists q,
           resolve path = (resolve (PYMAVLINK_DIR THIS_DIR PX4_VERSION) ++ q)%list
  | Print _ | CheckCall _ | CheckOutput _ => True
  end.

(** The operations of [build_px4], one target after the other. *)
Definition build_px4_ops (targets : list string) (version : string) : list op :=
  Print "--- Building PX4 firmware"
  :: flat_map (fun target =>
       [CheckCall (make THIS_DIR PX4_VERSION target);
        Copyfile (px4_image THIS_DIR PX4_VERSION target)
                 (join (DIST_DIR THIS_DIR)
                       (target ++ "." ++ PX4_VERSION ++ "." ++ version ++ ".px4"))])
       targets.

End Script.

(** A result with operations that came before it. *)
Definition preceded {Ext A} (t : list event) (r : result Ext A) : result Ext A :=
  mkResult (res_out r) (res_world r) (t ++ res_trace r).

(** The outcome and the trace entry of a child process. *)
Definition exit_outcome {Ext} (x : Exit Ext) : outcome unit :=
  if exit_ok x then Ok tt else Raised CalledProcessError.

Definition is_git_clone (c : Cmd) : bool :=
  match argv c with
  | a :: b :: _ => String.eqb a "git" && String.eqb b "clone"
  | _ => false
  end.

(** Operations that destroy a directory tree or create a checkout. *)
Definition destroys_or_clones (o : op) : bool :=
  match o with
  | Rmtree _ _ => true
  | CheckCall c => is_git_clone c
  | _ => false
  end.

(** Every operation of a trace satisfies [P]. *)
Definition all_ops (P : op -> Prop) (t : list event) : Prop :=
  Forall (fun e => P (ev_op e)) t.

(** Whatever the world, [m] only performs operations that satisfy [P]. *)
Definition emits {Ext A} (P : op -> Prop) (m : M Ext A) : Prop :=
  forall w, all_ops P (res_trace (m w)).

Definition is_ok {A} (r : outcome A) : bool :=
  match r with Ok _ => true | Raised _ => false end.

(** The files a trace has opened for writing. *)
Fixpoint opened (t : list event) : list string :=
  match t with
  | [] => []
  | Ev (OpenW filename) _ :: t' => filename :: opened t'
  | _ :: t' => opened t'
  end.

End Straight.

(** ** A workspace to run the script in

    A repository at [/repo] and a stand-in for the external programs: the
    external state is the tag the firmware checkout was cloned at. *)

Module Scenario.
Import PyStr Path FS Sys.

Definition repo : node :=
  Dir [("repo",
        Dir [("bell.xml", File "<mavlink/>");
             ("patches", Dir []);
             (".px4-version", File "v1.13.0")])].

Definition make_dir (dir : string) (t : node) : node :=
  match mkdirs (resolve dir) t with
  | Some t' => t'
  | None => t
  end.

(** What [git remote show origin -n] prints for a shallow clone of a tag. *)
Definition remote_show (tag : string) : string :=
  "* remote origin" ++ String "010" (
  "  Fetch URL: https://github.com/PX4/PX4-Autopilot" ++ String "010" (
  "  Push  URL: https://github.com/PX4/PX4-Autopilot" ++ String "010" (
  "  HEAD branch: (not queried)" ++ String "010" (
  "  Remote branch: (status not queried)" ++ String "010" (
  "    refs/tags/" ++ tag ++ String "010" "")))))%string.

(** [make_file dir names content]: the file [dir/names...] and the
    directories above it. *)
Definition make_file (dir : string) (names : list string) (content : string)
    (t : node) : node :=
  let t1 := make_dir (join_all dir (removelast names)) t in
  snd (write_fs (join_all dir names) content t1).

Definition px4_tree (dir : string) (t : node) : node :=
  make_dir (join_all dir ["mavlink"; "include"; "mavlink"; "v2.0";
                          "message_definitions"])
    (make_dir (join_all dir ["src"; "modules"; "mavlink"; "mavlink";
                             "message_definitions"; "v1.0"])
       (make_dir (join_all dir ["src"; "modules"; "mavlink"; "mavlink";
                                "pymavlink"]) t)).

Definition tools_with (apply_ok : bool) (c : Cmd) (w : World string)
  : Exit string :=
  match argv c with
  | [_git; verb; _url; dir; _; _; _; tag; _] =>
      if String.eqb verb "clone"
      then mkExit true "" (mkWorld (px4_tree dir (fs w)) tag)
      else mkExit true "" w
  | [_git; verb; _url; dir] =>
      if String.eqb verb "clone"
      then mkExit true "" (mkWorld (make_dir dir (fs w)) (ext w))
      else if String.eqb verb "setup.py" then
        match cwd c with
        | Some d =>
            mkExit true ""
              (mkWorld (make_file d ["dist"; "pymavlink.tar.gz"] "sdist" (fs w))
                       (ext w))
        | None => mkExit false "" w
        end
      else mkExit true "" w
  | [_git; verb; _; _; _] =>
      if String.eqb verb "remote" then mkExit true (remote_show (ext w)) w
      else if String.eqb verb "apply" then mkExit apply_ok "" w
      else mkExit true "" w
  | [tool; target; _] =>
      if String.eqb tool "make" then
        match cwd c with
        | Some d =>
            mkExit true ""
              (mkWorld (make_file d ["build"; target; target ++ ".px4"]
                          "image" (fs w))
                       (ext w))
        | None => mkExit false "" w
        end
      else mkExit true "" w
  | _ => mkExit true "" w
  end.

(** Every program succeeds. *)
Definition tools : Cmd -> World string -> Exit string := tools_with true.

(** The patch does not apply. *)
Definition tools_conflict : Cmd -> World string -> Exit string :=
  tools_with false.

(** Nothing built yet. *)
Definition fresh : World string := mkWorld repo "".

(** The world after [clone_px4] has run for a version. *)
Definition cloned (version : string) : World string :=
  res_world (Build.clone_px4 "/repo" version string tools fresh).

(** A workspace for v1.12.1 that holds a checkout of v1.12.0. *)
Definition stale : World string :=
  mkWorld (fs (cloned "v1.12.1")) "v1.12.0".

(** The world after [clone_pymavlink] has run for v1.12.1. *)
Definition with_pymavlink : World string :=
  res_world (Build.clone_pymavlink "/repo" "v1.12.1" string tools fresh).

(** [git remote show] names no reference. *)
Definition tools_no_ref (c : Cmd) (w : World string) : Exit string :=
  match argv c with
  | [_git; verb; _; _; _] =>
      if String.eqb verb "remote"
      then mkExit true ("* remote origin" ++ String "010" "") w
      else tools c w
  | _ => tools c w
  end.

(** A fresh checkout of v1.12.1, not patched yet. *)
Definition checked_out : World string :=
  after (tools (Build.git_clone_px4 "/repo" "v1.12.1") fresh).

(** The world when [main] reaches the injection, for v1.12.1 and v1.13.0. *)
Definition prepared (version : string) : World string :=
  res_world (Straight.main_before "/repo" version string tools "python3" fresh).

(** The world after the injection for v1.12.1. *)
Definition injected : World string :=
  res_world
    (Build.main_inject "/repo" "v1.12.1" "python3" string tools
       (prepared "v1.12.1")).

(** The world after a whole run of [main] that builds the codec package. *)
Definition built (version : string) : World string :=
  res_world
    (Build.main "/repo" version "python3" string tools true true false "abc"
       ["px4_fmu-v5x_default"] fresh).


End Scenario.

(** ** [clean_directory]

    The function reads and changes the directory tree only, so it is
    written as a function from tree to outcome and tree.  Its path
    arguments are arbitrary, so they are walked as the operating system
    walks them: component by component, each one taken in a directory that
    is there. *)

Module Clean.
Import PyStr Path FS OSPath.

(** [os.path.isdir(path)]. *)
Definition os_path_isdir (path : string) (t : node) : bool :=
  match locate_path path t with
  | Ok p => is_dir (lookup p t)
  | Raised _ => false
  end.

(** [os.remove(path)]: unlinks a file; a directory is refused. *)
Definition os_remove (path : string) (t : node) : outcome unit * node :=
  match locate_path path t with
  | Ok [] => (Raised IsADirectoryError, t)
  | Ok p =>
      match lookup p t with
      | Some (File _) => (Ok tt, remove p t)
      | Some (Dir _) => (Raised IsADirectoryError, t)
      | None => (Raised FileNotFoundError, t)
      end
  | Raised e => (Raised e, t)
  end.

(** [os.listdir(path)]. *)
Definition os_listdir (path : string) (t : node) : outcome (list string) :=
  match locate_path path t with
  | Ok p =>
      match lookup p t with
      | Some (Dir es) => Ok (map fst es)
      | Some (File _) => Raised NotADirectoryError
      | None => Raised FileNotFoundError
      end
  | Raised e => Raised e
  end.

(** [any(filename.endswith(e) for e in file_endings)]. *)
Definition any_endswith (filename : string) (file_endings : list string) : bool :=
  existsb (fun e => endswith filename e) file_endings.

(** The loop of [clean_directory] over the names [os.listdir] returned. *)
Fixpoint clean_each (directory : string) (file_endings filenames : list string)
    (t : node) : outcome unit * node :=
  match filenames with
  | [] => (Ok tt, t)
  | filename :: rest =>
      if any_endswith filename file_endings then
        match os_remove (join directory filename) t with
        | (Ok _, t') => clean_each directory file_endings rest t'
        | (Raised e, t') => (Raised e, t')
        end
      else clean_each directory file_endings rest t
  end.

Definition clean_directory (directory : string) (file_endings : list string)
    (t : node) : outcome unit * node :=
  if negb (os_path_isdir directory t) then (Ok tt, t)
  else
    match os_listdir directory t with
    | Ok filenames => clean_each directory file_endings filenames t
    | Raised e => (Raised e, t)
    end.

End Clean.

(** ** Ways a run can go *)

Module Behaviour.
Import PyStr Path FS Sys Build Straight.
Open Scope py_scope.

Fixpoint no_linebreak (s : string) : bool :=
  match s with
  | EmptyString => true
  | String c s' => negb (is_linebreak c) && no_linebreak s'
  end.

(** [m] raises nothing but exceptions that satisfy [P]. *)
Definition raises_only {Ext A} (P : exn -> Prop) (m : M Ext A) : Prop :=
  forall w e, res_out (m w) = Raised e -> P e.

(** From a world whose entries have plain names, [m] performs operations
    that satisfy [P] only, leaves such a world, and returns values that
    satisfy [Q] only. *)
Definition tidy {Ext A} (P : op -> Prop) (Q : A -> Prop) (m : M Ext A) : Prop :=
  forall w,
    names_plain (fs w) = true ->
    all_ops P (res_trace (m w))
    /\ names_plain (fs (res_world (m w))) = true
    /\ (forall a, res_out (m w) = Ok a -> Q a).

Definition all_returned (t : list event) : Prop :=
  Forall (fun e => ev_ok e = true) t.

(** Every operation returned, or the run raised and the operation that did
    not return is the last one. *)
Definition stops_at_failure {Ext A} (r : result Ext A) : Prop :=
  all_returned (res_trace r)
  \/ (exists pre o x,
        res_trace r = (pre ++ [failed o])%list
        /\ all_returned pre
        /\ res_out r = Raised x).

Definition orderly {Ext A} (m : M Ext A) : Prop :=
  forall w, stops_at_failure (m w).

Section Script.

Variable THIS_DIR : string.
Variable PX4_VERSION : string.
Variable sys_executable : string.
Variable Ext : Type.
Variable run_process : Cmd -> World Ext -> Exit Ext.

(** The operations of [install_dependencies]. *)
Definition install_ops : list op :=
  [Print "--- Installing Python dependencies";
   CheckCall (pip_upgrade sys_executable);
   CheckCall (pip_requirements THIS_DIR PX4_VERSION sys_executable)].

(** Lines 220-225 of [build_pymavlink]: the package files go to the output
    directory. *)
Definition build_pymavlink_collect : M Ext unit :=
  let pymavlink_dist_dir := join (PYMAVLINK_DIR THIS_DIR PX4_VERSION) "dist" in
  filenames <- os_listdir pymavlink_dist_dir ;;
  for_each filenames (fun filename =>
    shutil_copyfile (join pymavlink_dist_dir filename)
                    (join (DIST_DIR THIS_DIR) filename)).

Definition collect_ops (filenames : list string) : list op :=
  map (fun filename =>
         Copyfile (join (join (PYMAVLINK_DIR THIS_DIR PX4_VERSION) "dist")
                        filename)
                  (join (DIST_DIR THIS_DIR) filename))
      filenames.

(** A child process runs in the environment of the script, or is the
    packaging run. *)
Definition inherits_env (o : op) : Prop :=
  match o with
  | CheckCall c | CheckOutput c =>
      env c = [] \/ c = setup_py THIS_DIR PX4_VERSION sys_executable
  | _ => True
  end.

(** The builds an operation belongs to have been asked for. *)
Definition asked_for (should_build_pymavlink should_build_px4
                      should_build_wireshark : bool) (o : op) : Prop :=
  (forall target,
      o = CheckCall (make THIS_DIR PX4_VERSION target) ->
      should_build_px4 = true)
  /\ (o = CheckCall (setup_py THIS_DIR PX4_VERSION sys_executable) ->
      should_build_pymavlink = true)
  /\ (forall bell,
        o = CheckCall (mavgen_wlua THIS_DIR PX4_VERSION sys_executable bell) ->
        should_build_pymavlink = true /\ should_build_wireshark = true).

End Script.
End Behaviour.

(** ** More worlds at [/repo] *)

Module Cases.
Import PyStr Path FS Sys Scenario.

(** The marker of the firmware patch is there, the checkout is not. *)
Definition orphan_marker : World string :=
  mkWorld (make_file "/repo" ["build"; "v1.12.1"; ".px4-patched"] "" repo) "".

(** After a whole build for v1.12.1, a message definition is added to the
    firmware checkout. *)
Definition definitions_changed : World string :=
  mkWorld
    (make_file (Build.message_definitions_dir "/repo" "v1.12.1") ["new.xml"]
       "<new/>" (fs (built "v1.12.1")))
    (ext (built "v1.12.1")).

(** An output directory with two artifacts and a note. *)
Definition outputs : node :=
  Dir [("repo",
        Dir [("dist",
              Dir [("fmu.px4", File "image");
                   ("notes.txt", File "keep");
                   ("bell.whl", File "wheel")])])].

(** The same with a directory whose name ends like an artifact. *)
Definition outputs_with_dir : node :=
  Dir [("repo",
        Dir [("dist",
              Dir [("notes.txt", File "keep");
                   ("old.px4", Dir []);
                   ("fmu.px4", File "image")])])].

End Cases.


(** * Facts about strings and paths *)

Module PathFacts.
Import PyStr Path.

Lemma split_nonempty (c : ascii) (s : string) : split c s <> [].
Proof.
  destruct s as [|a s]; simpl; [discriminate|].
  destruct (Ascii.eqb a c); [discriminate|].
  destruct (split c s); discriminate.
Qed.

Lemma split_app_sep (c : ascii) (a b : string) :
  split c (a ++ String c b) = (split c a ++ split c b)%list.
Proof.
  induction a as [|x a IH]; simpl.
  - now rewrite Ascii.eqb_refl.
  - destruct (Ascii.eqb x c); [now rewrite IH|].
    rewrite IH. destruct (split c a) eqn:E; [|reflexivity].
    now apply split_nonempty in E.
Qed.

(** The pieces of a split hold no separator. *)
Lemma split_pieces (c : ascii) (s : string) :
  Forall (fun x => split c x = [x]) (split c s).
Proof.
  induction s as [|a s IH]; cbn [split].
  - repeat constructor.
  - destruct (Ascii.eqb a c) eqn:E.
    + constructor; [reflexivity|assumption].
    + destruct (split c s) as [|h t]; [repeat constructor; cbn; now rewrite E|].
      inversion IH as [|? ? Hh Ht]; subst. constructor; [|assumption].
      cbn [split]. now rewrite E, Hh.
Qed.

(** A string that splits into one piece is that piece. *)
Lemma split_single (c : ascii) (s x : string) : split c s = [x] -> x = s.
Proof.
  revert x. induction s as [|a s IH]; simpl; intros x H.
  - now inversion H.
  - destruct (Ascii.eqb a c).
    + inversion H as [[E1 E2]]. now apply split_nonempty in E2.
    + destruct (split c s) as [|h t] eqn:E; [now apply split_nonempty in E|].
      inversion H; subst. f_equal. now apply IH.
Qed.

Lemma endswith_sep (a : string) :
  endswith a "/" = true -> exists a', a = a' ++ "/".
Proof.
  induction a as [|x a IH]; [discriminate|].
  cbn [endswith]. intros H. apply orb_true_iff in H as [H|H].
  - apply String.eqb_eq in H. exists "". now rewrite H.
  - destruct (IH H) as [a' ->]. now exists (String x a').
Qed.

Lemma resolve_app_sep (a b : string) :
  resolve (a ++ String sep b) = fold_left walk (split sep b) (resolve a).
Proof. unfold resolve. now rewrite split_app_sep, fold_left_app. Qed.

Lemma startswith_sep_split (n : string) :
  startswith n "/" = true -> exists t, split sep n = EmptyString :: t.
Proof.
  destruct n as [|x n]; [discriminate|].
  unfold startswith. cbn [String.prefix].
  destruct (ascii_dec "/" x) as [<-|]; [|discriminate].
  intros _. cbn [split sep]. rewrite Ascii.eqb_refl. eauto.
Qed.

Lemma plain_name_split (n : string) :
  plain_name n = true ->
  split sep n = [n] /\ walk [] n = [n] /\ startswith n "/" = false.
Proof.
  unfold plain_name. intros H.
  destruct (split sep n) as [|c [|? ?]] eqn:E; try discriminate.
  pose proof (split_single _ _ _ E) as ->.
  apply negb_true_iff in H. repeat split.
  - unfold walk. destruct (n =? "")%string, (n =? ".")%string,
      (n =? "..")%string; cbn [orb] in *; try discriminate. reflexivity.
  - destruct (startswith n "/") eqn:Hs; [|reflexivity].
    apply startswith_sep_split in Hs as [t Ht].
    rewrite E in Ht. inversion Ht; subst. discriminate.
Qed.

Lemma walk_plain (acc : list string) (n : string) :
  plain_name n = true -> walk acc n = (acc ++ [n])%list.
Proof.
  intros H. apply plain_name_split in H as (_ & H & _).
  unfold walk in *.
  destruct ((n =? "") || (n =? "."))%string; [discriminate|].
  destruct (n =? "..")%string; [discriminate|]. reflexivity.
Qed.

(** Joining a plain name goes one level down. *)
Lemma resolve_join (a n : string) :
  plain_name n = true -> resolve (join a n) = (resolve a ++ [n])%list.
Proof.
  intros H. pose proof (plain_name_split _ H) as (Hs & Hw & Hp).
  unfold join. rewrite Hp.
  destruct (String.eqb_spec a "") as [->|Ha]; simpl orb.
  - simpl. unfold resolve. now rewrite Hs.
  - destruct (endswith a "/") eqn:He.
    + destruct (endswith_sep _ He) as [a' ->].
      replace ((a' ++ "/") ++ n) with (a' ++ String sep n).
      2:{ clear. induction a'; simpl; [reflexivity|now f_equal]. }
      rewrite !resolve_app_sep, Hs. simpl. now rewrite walk_plain.
    + change (a ++ "/" ++ n) with (a ++ String sep n).
      rewrite resolve_app_sep, Hs. simpl. now apply walk_plain.
Qed.

Lemma resolve_join_all (a : string) (ns : list string) :
  forallb plain_name ns = true ->
  resolve (join_all a ns) = (resolve a ++ ns)%list.
Proof.
  revert a. induction ns as [|n ns IH]; simpl; intros a H.
  - now rewrite app_nil_r.
  - apply andb_true_iff in H as [Hn Hns].
    unfold join_all in *. simpl. rewrite IH by assumption.
    rewrite resolve_join by assumption. now rewrite <- app_assoc.
Qed.

End PathFacts.

(** * Facts about the directory tree *)

Module FSFacts.
Import FS.

Lemma find_entry_set_same (c : string) (x : node) es :
  find_entry c (set_entry c x es) = Some x.
Proof.
  induction es as [|[n y] es IH]; simpl.
  - now rewrite String.eqb_refl.
  - destruct (String.eqb n c) eqn:E; simpl.
    + now rewrite String.eqb_refl.
    + now rewrite E.
Qed.

Lemma find_entry_set_other (c d : string) (x : node) es :
  c <> d -> find_entry d (set_entry c x es) = find_entry d es.
Proof.
  intros Hcd. induction es as [|[n y] es IH]; simpl.
  - now apply String.eqb_neq in Hcd as ->.
  - destruct (String.eqb_spec n c) as [->|Hn]; simpl.
    + now apply String.eqb_neq in Hcd as ->.
    + now rewrite IH.
Qed.

Lemma find_entry_remove_same (c : string) es :
  find_entry c (remove_entry c es) = None.
Proof.
  induction es as [|[n y] es IH]; simpl; [reflexivity|].
  destruct (String.eqb n c) eqn:E; simpl; [assumption|now rewrite E].
Qed.

Lemma lookup_app (p q : list string) (n : node) :
  lookup (p ++ q) n =
  match lookup p n with Some x => lookup q x | None => None end.
Proof.
  revert n. induction p as [|c p IH]; simpl; intros n; [reflexivity|].
  destruct n as [|es]; [reflexivity|].
  destruct (find_entry c es); [apply IH|reflexivity].
Qed.

(** Nothing is left at or below a removed path. *)
Lemma lookup_remove_under (p q : list string) (n : node) :
  p <> [] -> lookup (p ++ q) (remove p n) = None.
Proof.
  revert n. induction p as [|c p IH]; intros n Hp; [now elim Hp|].
  destruct n as [content|es]; [reflexivity|].
  destruct p as [|c' p].
  - simpl. now rewrite find_entry_remove_same.
  - cbn [remove]. destruct (find_entry c es) eqn:E.
    + change ((c :: c' :: p) ++ q)%list with (c :: ((c' :: p) ++ q))%list.
      cbn [lookup]. rewrite find_entry_set_same. now apply IH.
    + change ((c :: c' :: p) ++ q)%list with (c :: ((c' :: p) ++ q))%list.
      cbn [lookup]. now rewrite E.
Qed.

Lemma lookup_put_same (p : list string) (x n n' : node) :
  put p x n = Some n' -> lookup p n' = Some x.
Proof.
  revert n n'. induction p as [|c p IH]; simpl; intros n n' H.
  - now inversion H.
  - destruct n as [|es]; [discriminate|].
    destruct (find_entry c es) as [y|] eqn:E.
    + destruct (put p x y) as [y'|] eqn:Ey; [|discriminate].
      inversion H; subst. simpl. rewrite find_entry_set_same. eauto.
    + destruct p; [|discriminate]. inversion H; subst.
      simpl. now rewrite find_entry_set_same.
Qed.

(** What exists lies in a directory. *)
Lemma lookup_parent (p q : list string) (n x : node) :
  q <> [] -> lookup (p ++ q) n = Some x -> is_dir (lookup p n) = true.
Proof.
  intros Hq. rewrite lookup_app. destruct (lookup p n) as [[|es]|];
    try discriminate; [|reflexivity].
  destruct q; [now elim Hq|discriminate].
Qed.

Lemma find_entry_remove_other (c d : string) es :
  c <> d -> find_entry d (remove_entry c es) = find_entry d es.
Proof.
  intros Hcd. induction es as [|[n y] es IH]; simpl; [reflexivity|].
  destruct (String.eqb_spec n c) as [->|Hn]; simpl.
  - now apply String.eqb_neq in Hcd as ->.
  - now rewrite IH.
Qed.

(** Removing a path leaves what lies on another branch. *)
Lemma lookup_remove_diverge (c : list string) (a b : string)
    (p q : list string) (n : node) :
  a <> b ->
  lookup (c ++ a :: p) (remove (c ++ b :: q) n) = lookup (c ++ a :: p) n.
Proof.
  intros Hab. assert (Hba : b <> a) by congruence.
  revert n. induction c as [|d c IH]; intros n.
  - cbn [app]. destruct n as [|es]; [reflexivity|]. cbn [remove].
    destruct q as [|q0 q].
    + cbn [lookup]. now rewrite find_entry_remove_other.
    + destruct (find_entry b es) eqn:E; [|reflexivity].
      cbn [lookup]. now rewrite find_entry_set_other.
  - change ((d :: c) ++ a :: p)%list with (d :: (c ++ a :: p))%list.
    change ((d :: c) ++ b :: q)%list with (d :: (c ++ b :: q))%list.
    destruct n as [|es]; [reflexivity|]. cbn [remove].
    destruct (c ++ b :: q)%list as [|x l] eqn:El.
    { now destruct c. }
    destruct (find_entry d es) as [y|] eqn:E; [|reflexivity].
    cbn [lookup]. rewrite find_entry_set_same, E. apply IH.
Qed.

(** Removing an entry makes no file. *)
Lemma is_file_remove (p : list string) :
  forall (t : node) x,
    is_file (lookup x (remove p t)) = true -> is_file (lookup x t) = true.
Proof.
  induction p as [|c p IH]; intros t x H; [assumption|].
  destruct t as [|es]; [assumption|].
  destruct p as [|c' p].
  - cbn [remove] in H. destruct x as [|a x]; [discriminate|].
    cbn [lookup] in *. destruct (String.eqb_spec c a) as [<-|Hca].
    + now rewrite find_entry_remove_same in H.
    + now rewrite find_entry_remove_other in H.
  - cbn [remove] in H. destruct (find_entry c es) as [y|] eqn:E; [|assumption].
    destruct x as [|a x]; [discriminate|].
    cbn [lookup] in *. destruct (String.eqb_spec c a) as [<-|Hca].
    + rewrite find_entry_set_same in H. rewrite E. now apply IH.
    + now rewrite find_entry_set_other in H.
Qed.

Lemma put_below_directory (p : list string) (x t : node) :
  p <> [] -> is_dir (lookup (removelast p) t) = true ->
  exists t', put p x t = Some t'.
Proof.
  revert t. induction p as [|c p IH]; intros t Hne Hd; [easy|].
  destruct p as [|c' p].
  - cbn in Hd. destruct t as [|es]; [discriminate|]. cbn [put].
    destruct (find_entry c es); cbn [put]; eauto.
  - change (removelast (c :: c' :: p)) with (c :: removelast (c' :: p)) in Hd.
    cbn [lookup] in Hd. destruct t as [|es]; [discriminate|].
    destruct (find_entry c es) as [y|] eqn:E; [|discriminate].
    destruct (IH y) as [y' Hy]; [discriminate|assumption|].
    change (put (c :: c' :: p) x (Dir es))
      with (match find_entry c es with
            | Some y0 =>
                match put (c' :: p) x y0 with
                | Some y1 => Some (Dir (set_entry c y1 es))
                | None => None
                end
            | None => None
            end).
    rewrite E, Hy. eauto.
Qed.

(** The directories along a path can be made when no file lies on it. *)
Lemma mkdirs_some (p : list string) :
  forall t : node,
    (forall q r, p = (q ++ r)%list -> is_file (lookup q t) = false) ->
    exists t', mkdirs p t = Some t'.
Proof.
  induction p as [|c p IH]; intros t H.
  - destruct t as [|es]; [|cbn; eauto].
    now specialize (H [] [] eq_refl).
  - destruct t as [|es]; [now specialize (H [] (c :: p) eq_refl)|].
    cbn [mkdirs].
    destruct (IH (match find_entry c es with
                  | Some y => y
                  | None => Dir []
                  end)) as [y' Hy].
    + intros q r ->. specialize (H (c :: q) r eq_refl). cbn [lookup] in H.
      destruct (find_entry c es) as [y|]; [assumption|].
      now destruct q.
    + rewrite Hy. eauto.
Qed.

Lemma mkdirs_is_dir (p : list string) :
  forall t t' : node, mkdirs p t = Some t' -> is_dir (lookup p t') = true.
Proof.
  induction p as [|c p IH]; intros t t' H.
  - destruct t as [|es]; [discriminate|]. cbn in H. now inversion H.
  - destruct t as [|es]; [discriminate|]. cbn [mkdirs] in H.
    destruct (mkdirs p (match find_entry c es with
                        | Some y => y
                        | None => Dir []
                        end)) as [y'|] eqn:E; [|discriminate].
    inversion H; subst. cbn [lookup]. rewrite find_entry_set_same.
    now apply IH in E.
Qed.

End FSFacts.

(** * Trees whose entries have plain names *)

Module PlainFacts.
Import PyStr Path FS Sys PathFacts FSFacts.

Lemma names_plain_cons (n : string) (x : node) es :
  names_plain (Dir ((n, x) :: es))
  = plain_name n && names_plain x && names_plain (Dir es).
Proof. reflexivity. Qed.

Lemma names_plain_find (c : string) es (y : node) :
  names_plain (Dir es) = true -> find_entry c es = Some y ->
  plain_name c = true /\ names_plain y = true.
Proof.
  induction es as [|[n x] es IH]; [discriminate 2|].
  rewrite names_plain_cons. intros H. apply andb_true_iff in H as [H Hes].
  apply andb_true_iff in H as [Hn Hx]. cbn [find_entry].
  destruct (String.eqb_spec n c) as [<-|_]; [|now apply IH].
  intros E. inversion E; subst. now split.
Qed.

Lemma names_plain_set (c : string) (x : node) es :
  plain_name c = true -> names_plain x = true ->
  names_plain (Dir es) = true -> names_plain (Dir (set_entry c x es)) = true.
Proof.
  intros Hc Hx. induction es as [|[n y] es IH]; cbn [set_entry].
  - intros _. now rewrite names_plain_cons, Hc, Hx.
  - rewrite names_plain_cons. intros H. apply andb_true_iff in H as [H Hes].
    destruct (n =? c)%string; rewrite names_plain_cons.
    + now rewrite Hc, Hx, Hes.
    + now rewrite H, IH.
Qed.

Lemma names_plain_remove_entry (c : string) es :
  names_plain (Dir es) = true -> names_plain (Dir (remove_entry c es)) = true.
Proof.
  induction es as [|[n y] es IH]; [easy|]. cbn [remove_entry].
  rewrite names_plain_cons. intros H. apply andb_true_iff in H as [H Hes].
  destruct (n =? c)%string; [now apply IH|].
  now rewrite names_plain_cons, H, IH.
Qed.

Lemma names_plain_lookup (p : list string) :
  forall t x : node,
    names_plain t = true -> lookup p t = Some x -> names_plain x = true.
Proof.
  induction p as [|c p IH]; intros t x Ht H; cbn [lookup] in H.
  - now inversion H; subst.
  - destruct t as [|es]; [discriminate|].
    destruct (find_entry c es) as [y|] eqn:E; [|discriminate].
    apply (IH y); [|assumption]. now apply (names_plain_find c es y).
Qed.

Lemma names_plain_entries es :
  names_plain (Dir es) = true ->
  Forall (fun n => plain_name n = true) (map fst es).
Proof.
  induction es as [|[n y] es IH]; [constructor|].
  rewrite names_plain_cons. intros H. apply andb_true_iff in H as [H Hes].
  apply andb_true_iff in H as [Hn _]. constructor; [assumption|now apply IH].
Qed.

Lemma names_plain_remove (p : list string) :
  forall t : node, names_plain t = true -> names_plain (remove p t) = true.
Proof.
  induction p as [|c p IH]; intros t Ht; [assumption|].
  destruct t as [|es]; [assumption|]. destruct p as [|c' p].
  - cbn [remove]. now apply names_plain_remove_entry.
  - cbn [remove]. destruct (find_entry c es) as [y|] eqn:E; [|assumption].
    destruct (names_plain_find c es y Ht E) as [Hc Hy].
    apply names_plain_set; [assumption|now apply IH|assumption].
Qed.

Lemma names_plain_put (p : list string) :
  forall x t t' : node,
    Forall (fun c => plain_name c = true) p ->
    names_plain x = true -> names_plain t = true ->
    put p x t = Some t' -> names_plain t' = true.
Proof.
  induction p as [|c p IH]; intros x t t' Hp Hx Ht H; cbn [put] in H.
  - now inversion H; subst.
  - inversion Hp as [|? ? Hc Hp']; subst.
    destruct t as [|es]; [discriminate|].
    destruct (find_entry c es) as [y|] eqn:E.
    + destruct (put p x y) as [y'|] eqn:Ey; [|discriminate].
      inversion H; subst. apply names_plain_set; [assumption| |assumption].
      apply (IH x y y'); try assumption.
      now apply (names_plain_find c es y).
    + destruct p; [|discriminate]. inversion H; subst.
      now apply names_plain_set.
Qed.

Lemma names_plain_mkdirs (p : list string) :
  forall t t' : node,
    Forall (fun c => plain_name c = true) p ->
    names_plain t = true -> mkdirs p t = Some t' -> names_plain t' = true.
Proof.
  induction p as [|c p IH]; intros t t' Hp Ht H.
  - destruct t as [|es]; [discriminate|]. cbn in H. now inversion H; subst.
  - inversion Hp as [|? ? Hc Hp']; subst.
    destruct t as [|es]; [discriminate|]. cbn [mkdirs] in H.
    destruct (mkdirs p (match find_entry c es with
                        | Some y => y
                        | None => Dir []
                        end)) as [y'|] eqn:E; [|discriminate].
    inversion H; subst. apply names_plain_set; [assumption| |assumption].
    apply IH in E; [assumption|assumption|].
    destruct (find_entry c es) as [y|] eqn:Ef; [|reflexivity].
    now apply (names_plain_find c es y).
Qed.

Lemma Forall_removelast {A} (P : A -> Prop) (l : list A) :
  Forall P l -> Forall P (removelast l).
Proof.
  induction 1 as [|a l Ha Hl IH]; [constructor|]. cbn [removelast].
  destruct l; [constructor|]. now constructor.
Qed.

(** The components of a path read as text are plain names. *)
Lemma resolve_plain (p : string) :
  Forall (fun c => plain_name c = true) (resolve p).
Proof.
  unfold resolve. pose proof (split_pieces sep p) as H.
  assert (Hacc : Forall (fun c => plain_name c = true) (@nil string))
    by constructor.
  revert Hacc. generalize (@nil string).
  induction H as [|c comps Hc _ IH]; intros acc Hacc; [assumption|].
  cbn [fold_left]. apply IH. unfold walk.
  destruct ((c =? "") || (c =? "."))%string eqn:E1; [assumption|].
  destruct (c =? "..")%string eqn:E2; [now apply Forall_removelast|].
  apply Forall_app. split; [assumption|]. constructor; [|constructor].
  unfold plain_name. rewrite Hc, E1, E2. reflexivity.
Qed.

(** ** The operations of the script keep the names plain *)

Lemma names_plain_rmtree (path : string) (b : bool) (t : node) :
  names_plain t = true -> names_plain (snd (rmtree_fs path b t)) = true.
Proof.
  intros Ht. unfold rmtree_fs. destruct (resolve path) as [|c rp].
  - now destruct t.
  - destruct (lookup (c :: rp) t) as [[|]|]; cbn [snd]; try assumption.
    now apply names_plain_remove.
Qed.

Lemma names_plain_write (f content : string) (t : node) :
  names_plain t = true -> names_plain (snd (write_fs f content t)) = true.
Proof.
  intros Ht. unfold write_fs.
  destruct (lookup (resolve f) t) as [[|]|];
    try (destruct (lookup (removelast (resolve f)) t) as [[|]|]);
    cbn [snd]; try assumption;
    (destruct (put (resolve f) (File content) t) as [t'|] eqn:E;
     cbn [snd]; [|assumption]);
    apply (names_plain_put (resolve f) (File content) t t'
             (resolve_plain f) eq_refl Ht E).
Qed.

Lemma names_plain_copyfile (src dst : string) (t : node) :
  names_plain t = true -> names_plain (snd (copyfile_fs src dst t)) = true.
Proof.
  intros Ht. unfold copyfile_fs.
  destruct (lookup (resolve src) t) as [[content|es]|]; try assumption;
    destruct (list_eq_dec string_dec (resolve src) (resolve dst));
    try assumption.
  now apply names_plain_write.
Qed.

Lemma names_plain_copytree (src dst : string) (t : node) :
  names_plain t = true -> names_plain (snd (copytree_fs src dst t)) = true.
Proof.
  intros Ht. unfold copytree_fs.
  destruct (lookup (resolve src) t) as [[content|es]|] eqn:Es; try assumption.
  destruct (lookup (resolve dst) t); [assumption|].
  destruct (mkdirs (resolve dst) t) as [t1|] eqn:E1; [|assumption].
  destruct (put (resolve dst) (Dir es) t1) as [t2|] eqn:E2; [|assumption].
  cbn [snd]. apply (names_plain_put _ _ _ _ (resolve_plain dst)) in E2;
    [assumption| |].
  - now apply (names_plain_lookup _ _ _ Ht Es).
  - now apply (names_plain_mkdirs _ _ _ (resolve_plain dst) Ht E1).
Qed.

Lemma names_plain_makedirs (path : string) (b : bool) (t : node) :
  names_plain t = true -> names_plain (snd (makedirs_fs path b t)) = true.
Proof.
  intros Ht. unfold makedirs_fs.
  destruct (lookup (resolve path) t) as [[|]|]; try assumption.
  destruct (mkdirs (resolve path) t) as [t'|] eqn:E; [|assumption].
  now apply (names_plain_mkdirs _ _ _ (resolve_plain path) Ht E).
Qed.

End PlainFacts.

(** * Facts about the monad *)

Module SysFacts.
Import Sys.

Section Laws.
Context {Ext : Type}.

Lemma result_eta {A} (r : result Ext A) :
  mkResult (res_out r) (res_world r) (res_trace r) = r.
Proof. now destruct r. Qed.

Lemma bind_ok {A B} (m : M Ext A) (f : A -> M Ext B) w a w1 t1 :
  m w = mkResult (Ok a) w1 t1 ->
  bind m f w =
  mkResult (res_out (f a w1)) (res_world (f a w1)) (t1 ++ res_trace (f a w1)).
Proof. unfold bind. now intros ->. Qed.

Lemma bind_raised {A B} (m : M Ext A) (f : A -> M Ext B) w e w1 t1 :
  m w = mkResult (Raised e) w1 t1 -> bind m f w = mkResult (Raised e) w1 t1.
Proof. unfold bind. now intros ->. Qed.

Lemma bind_ret {A B} (a : A) (f : A -> M Ext B) w : bind (ret a) f w = f a w.
Proof. unfold bind, ret. simpl. apply result_eta. Qed.

Lemma bind_assoc {A B C} (m : M Ext A) (f : A -> M Ext B) (g : B -> M Ext C) w :
  bind (bind m f) g w = bind m (fun a => bind (f a) g) w.
Proof.
  unfold bind. destruct (m w) as [[a|e] w1 t1]; [|reflexivity].
  destruct (f a w1) as [[b|e] w2 t2]; simpl; [|reflexivity].
  now rewrite app_assoc.
Qed.

Lemma bind_ret_tt (m : M Ext unit) w : bind m (fun _ => ret tt) w = m w.
Proof.
  unfold bind. destruct (m w) as [[[]|e] w1 t1]; [|reflexivity].
  cbn [ret res_out res_world res_trace]. now rewrite app_nil_r.
Qed.

(** The trace of a sequence starts with the trace of its first part. *)
Lemma bind_trace_prefix {A B} (m : M Ext A) (f : A -> M Ext B) w :
  exists t, res_trace (bind m f w) = (res_trace (m w) ++ t)%list.
Proof.
  unfold bind. destruct (m w) as [[a|e] w1 t1]; simpl.
  - eauto.
  - exists []. now rewrite app_nil_r.
Qed.

End Laws.
End SysFacts.

(** * Properties of build.py *)

Module BuildFacts.
Import PyStr Path FS Sys Build Straight Behaviour.
Import PathFacts FSFacts PlainFacts SysFacts.
Open Scope py_scope.

Section Script.

Variable THIS_DIR : string.
Variable PX4_VERSION : string.
Variable sys_executable : string.
Variable Ext : Type.
Variable run_process : Cmd -> World Ext -> Exit Ext.

Abbreviation BUILD_DIR := (Build.BUILD_DIR THIS_DIR PX4_VERSION).
Abbreviation PX4_DIR := (Build.PX4_DIR THIS_DIR PX4_VERSION).
Abbreviation PYMAVLINK_DIR := (Build.PYMAVLINK_DIR THIS_DIR PX4_VERSION).
Abbreviation DIST_DIR := (Build.DIST_DIR THIS_DIR).
Abbreviation clone_pymavlink :=
  (Build.clone_pymavlink THIS_DIR PX4_VERSION Ext run_process).
Abbreviation clone_px4_rec :=
  (Build.clone_px4_rec THIS_DIR PX4_VERSION Ext run_process).
Abbreviation clone_px4 :=
  (Build.clone_px4 THIS_DIR PX4_VERSION Ext run_process).
Abbreviation clone_px4_patch :=
  (Build.clone_px4_patch THIS_DIR PX4_VERSION Ext run_process).
Abbreviation clone_px4_fresh :=
  (Straight.clone_px4_fresh THIS_DIR PX4_VERSION Ext run_process).
Abbreviation clone_px4_flat :=
  (Straight.clone_px4_flat THIS_DIR PX4_VERSION Ext run_process).
Abbreviation git_remote_show := (Build.git_remote_show THIS_DIR PX4_VERSION).
Abbreviation git_clone_px4 := (Build.git_clone_px4 THIS_DIR PX4_VERSION).
Abbreviation git_pull := (Build.git_pull THIS_DIR PX4_VERSION).
Abbreviation git_clone_pymavlink :=
  (Build.git_clone_pymavlink THIS_DIR PX4_VERSION).
Abbreviation git_apply_px4 := (Build.git_apply_px4 THIS_DIR PX4_VERSION).
Abbreviation px4_patch_file := (Build.px4_patch_file THIS_DIR PX4_VERSION).
Abbreviation pymavlink_patch_file :=
  (Build.pymavlink_patch_file THIS_DIR PX4_VERSION).
Abbreviation mavlink_commit_file :=
  (Build.mavlink_commit_file THIS_DIR PX4_VERSION).
Abbreviation git_reset_pymavlink :=
  (Build.git_reset_pymavlink THIS_DIR PX4_VERSION).
Abbreviation git_apply_pymavlink :=
  (Build.git_apply_pymavlink THIS_DIR PX4_VERSION).
Abbreviation build_pymavlink_patch :=
  (Build.build_pymavlink_patch THIS_DIR PX4_VERSION Ext run_process).
Abbreviation main_inject :=
  (Build.main_inject THIS_DIR PX4_VERSION sys_executable Ext run_process).
Abbreviation bell_xml_def := (Build.bell_xml_def THIS_DIR PX4_VERSION).
Abbreviation mavgen_c := (Build.mavgen_c THIS_DIR PX4_VERSION sys_executable).
Abbreviation git_config_email := (Build.git_config_email THIS_DIR PX4_VERSION).
Abbreviation git_config_name := (Build.git_config_name THIS_DIR PX4_VERSION).
Abbreviation git_add := (Build.git_add THIS_DIR PX4_VERSION).
Abbreviation git_commit := (Build.git_commit THIS_DIR PX4_VERSION).
Abbreviation px4_patch_ops := (Straight.px4_patch_ops THIS_DIR PX4_VERSION).
Abbreviation pymavlink_patch_ops :=
  (Straight.pymavlink_patch_ops THIS_DIR PX4_VERSION).
Abbreviation inject_ops :=
  (Straight.inject_ops THIS_DIR PX4_VERSION sys_executable).
Abbreviation install_dependencies :=
  (Build.install_dependencies THIS_DIR PX4_VERSION sys_executable Ext
     run_process).
Abbreviation build_pymavlink :=
  (Build.build_pymavlink THIS_DIR PX4_VERSION sys_executable Ext run_process).
Abbreviation build_pymavlink_copy :=
  (Build.build_pymavlink_copy THIS_DIR PX4_VERSION Ext).
Abbreviation build_px4 := (Build.build_px4 THIS_DIR PX4_VERSION Ext run_process).
Abbreviation main :=
  (Build.main THIS_DIR PX4_VERSION sys_executable Ext run_process).
Abbreviation main_before :=
  (Straight.main_before THIS_DIR PX4_VERSION Ext run_process sys_executable).
Abbreviation main_after :=
  (Straight.main_after THIS_DIR PX4_VERSION Ext run_process sys_executable).
Abbreviation message_definitions_dir :=
  (Build.message_definitions_dir THIS_DIR PX4_VERSION).
Abbreviation pymavlink_definitions :=
  (Build.pymavlink_definitions THIS_DIR PX4_VERSION).
Abbreviation before_op :=
  (Straight.before_op THIS_DIR PX4_VERSION sys_executable).
Abbreviation inject_op :=
  (Straight.inject_op THIS_DIR PX4_VERSION sys_executable).
Abbreviation after_op := (Straight.after_op THIS_DIR PX4_VERSION sys_executable).
Abbreviation generates_or_commits :=
  (Straight.generates_or_commits THIS_DIR PX4_VERSION sys_executable).
Abbreviation writes_in_place := (Straight.writes_in_place THIS_DIR PX4_VERSION).
Abbreviation build_px4_ops := (Straight.build_px4_ops THIS_DIR PX4_VERSION).
Abbreviation make := (Build.make THIS_DIR PX4_VERSION).
Abbreviation px4_image := (Build.px4_image THIS_DIR PX4_VERSION).
Abbreviation check_call := (Sys.check_call run_process).
Abbreviation check_output := (Sys.check_output run_process).

Implicit Types w : World Ext.

(** ** Where things are *)

Lemma resolve_PX4_DIR :
  resolve PX4_DIR = (resolve BUILD_DIR ++ ["PX4-Autopilot"])%list.
Proof. unfold Build.PX4_DIR. now apply resolve_join. Qed.

Lemma resolve_marker (name : string) :
  plain_name name = true ->
  resolve (join BUILD_DIR name) = (resolve BUILD_DIR ++ [name])%list.
Proof. apply resolve_join. Qed.

(** ** Sequencing *)

Lemma bind_cong {A B} (m : M Ext A) (f g : A -> M Ext B) w :
  (forall a w1 t1, m w = mkResult (Ok a) w1 t1 -> f a w1 = g a w1) ->
  bind m f w = bind m g w.
Proof.
  intros H. unfold bind. destruct (m w) as [[a|e] w1 t1]; [|reflexivity].
  now rewrite (H a w1 t1 eq_refl).
Qed.

Lemma bind_cong_l {A B} (m m' : M Ext A) (f : A -> M Ext B) w :
  m w = m' w -> bind m f w = bind m' f w.
Proof. unfold bind. now intros ->. Qed.

(** ** [shutil.rmtree] *)

Lemma rmtree_ok (p : string) w w1 t1 :
  shutil_rmtree p false w = mkResult (Ok tt) w1 t1 ->
  resolve p <> []
  /\ is_dir (lookup (resolve p) (fs w)) = true
  /\ w1 = mkWorld (remove (resolve p) (fs w)) (ext w)
  /\ t1 = [done (Rmtree p false)].
Proof.
  unfold shutil_rmtree, fs_op, rmtree_fs.
  destruct (resolve p) as [|c rp] eqn:E.
  - destruct (fs w); simpl; discriminate.
  - destruct (lookup (c :: rp) (fs w)) as [[|es]|] eqn:L; simpl;
      try discriminate.
    intros H. inversion H; subst. repeat split; congruence.
Qed.

Lemma rmtree_run (p : string) w :
  resolve p <> [] ->
  is_dir (lookup (resolve p) (fs w)) = true ->
  shutil_rmtree p false w =
  mkResult (Ok tt) (mkWorld (remove (resolve p) (fs w)) (ext w))
           [done (Rmtree p false)].
Proof.
  unfold shutil_rmtree, fs_op, rmtree_fs. intros Hp Hd.
  destruct (resolve p) as [|c rp]; [now elim Hp|].
  destruct (lookup (c :: rp) (fs w)) as [[|es]|]; try discriminate.
  reflexivity.
Qed.

(** Once the workspace is removed, nothing of it is left. *)
Lemma workspace_removed (q : list string) (t : node) :
  resolve BUILD_DIR <> [] ->
  lookup (resolve BUILD_DIR ++ q) (remove (resolve BUILD_DIR) t) = None.
Proof. intros H. now apply lookup_remove_under. Qed.

(** ** [clone_px4]: the nested call *)

Lemma clone_px4_rec_fresh d w :
  is_dir (lookup (resolve PX4_DIR) (fs w)) = false ->
  clone_px4_rec (S d) w = clone_px4_fresh w.
Proof.
  intros H. cbn [Build.clone_px4_rec]. unfold Straight.clone_px4_fresh.
  rewrite bind_assoc. unfold os_path_isdir, query.
  unfold bind at 1. cbn [res_out res_world res_trace fs]. rewrite H.
  cbn [app]. apply result_eta.
Qed.

Lemma clone_px4_rec_flat d w : clone_px4_rec (S (S d)) w = clone_px4_flat w.
Proof.
  change (clone_px4_rec (S (S d))) with
    ((have <- os_path_isdir PX4_DIR ;;
      if have then
        out <- check_output git_remote_show ;;
        local_version <- next (local_versions out) ;;
        if negb (String.eqb local_version PX4_VERSION) then
          print ("Existing PX4 checkout is " ++ local_version ++ ", re-cloning") ;;
          shutil_rmtree BUILD_DIR false ;;
          clone_px4_rec (S d)
        else ret tt
      else
        print2 Ext "Cloning PX4" ;;
        check_call git_clone_px4) ;;
     clone_px4_patch).
  unfold Straight.clone_px4_flat.
  rewrite !(bind_assoc (os_path_isdir PX4_DIR)).
  apply bind_cong. intros [|] w1 t1 _; [|reflexivity].
  rewrite !(bind_assoc (check_output git_remote_show)).
  apply bind_cong. intros out w2 t2 _.
  rewrite !(bind_assoc (next (local_versions out))).
  apply bind_cong. intros lv w3 t3 _.
  destruct (negb (lv =? PX4_VERSION)%string); [|reflexivity].
  rewrite !(bind_assoc (print _)).
  apply bind_cong. intros _ w4 t4 _.
  rewrite !(bind_assoc (shutil_rmtree _ _)).
  apply bind_cong. intros [] w5 t5 Hrm.
  apply rmtree_ok in Hrm as (Hroot & _ & -> & _).
  apply bind_cong_l, clone_px4_rec_fresh. cbn [fs].
  rewrite resolve_PX4_DIR. now rewrite workspace_removed.
Qed.

(** The depth of the interpreter is never reached: one nested call is all
    [clone_px4] makes. *)
Lemma clone_px4_flat_eq w : clone_px4 w = clone_px4_flat w.
Proof.
  unfold Build.clone_px4, recursion_limit.
  change 1000 with (S (S 998)). apply clone_px4_rec_flat.
Qed.

(** ** [clone_pymavlink] *)

Lemma str_ge_lt (a b : string) : str_ge a b = negb (str_lt a b).
Proof. unfold str_ge, str_lt. now destruct (String.compare a b). Qed.

Lemma check_call_run (c : Cmd) w :
  check_call c w =
  mkResult (exit_outcome (run_process c w)) (after (run_process c w))
           [Ev (CheckCall c) (exit_ok (run_process c w))].
Proof.
  unfold Sys.check_call, exit_outcome.
  now destruct (exit_ok (run_process c w)).
Qed.

Lemma print_then {A} (msg : string) (m : M Ext A) w :
  (print msg ;; m) w = preceded [done (Print msg)] (m w).
Proof. reflexivity. Qed.

Lemma clone_pymavlink_below w :
  str_lt PX4_VERSION "v1.13.0" = true ->
  clone_pymavlink w =
  if is_dir (lookup (resolve PYMAVLINK_DIR) (fs w))
  then preceded [done (Print "--- Updating pymavlink")] (check_call git_pull w)
  else preceded [done (Print "--- Cloning pymavlink")]
                (check_call git_clone_pymavlink w).
Proof.
  intros H. unfold Build.clone_pymavlink. rewrite str_ge_lt, H. cbn [negb].
  unfold os_path_isdir, query. unfold bind at 1.
  cbn [res_out res_world res_trace app].
  destruct (is_dir (lookup (resolve PYMAVLINK_DIR) (fs w)));
    unfold print2; rewrite print_then; reflexivity.
Qed.

Lemma clone_pymavlink_above w :
  str_lt PX4_VERSION "v1.13.0" = false ->
  clone_pymavlink w = mkResult (Ok tt) w [].
Proof.
  intros H. unfold Build.clone_pymavlink. now rewrite str_ge_lt, H.
Qed.

(** C4.  The layout has two branches, chosen by comparing the version with
    "v1.13.0" as strings.  Below it, the codec generator is the entry
    [pymavlink] of the workspace, next to the firmware checkout, and
    [clone_pymavlink] updates or clones it; from it on, the codec generator
    lies inside the firmware checkout and [clone_pymavlink] returns at once,
    having done nothing. *)
Theorem layout_threshold w :
  if str_lt PX4_VERSION "v1.13.0" then
    resolve PYMAVLINK_DIR = (resolve BUILD_DIR ++ ["pymavlink"])%list
    /\ resolve PX4_DIR = (resolve BUILD_DIR ++ ["PX4-Autopilot"])%list
    /\ clone_pymavlink w =
       (if is_dir (lookup (resolve PYMAVLINK_DIR) (fs w))
        then preceded [done (Print "--- Updating pymavlink")]
                      (check_call git_pull w)
        else preceded [done (Print "--- Cloning pymavlink")]
                      (check_call git_clone_pymavlink w))
  else
    resolve PYMAVLINK_DIR =
      (resolve PX4_DIR
         ++ ["src"; "modules"; "mavlink"; "mavlink"; "pymavlink"])%list
    /\ clone_pymavlink w = mkResult (Ok tt) w [].
Proof.
  destruct (str_lt PX4_VERSION "v1.13.0") eqn:H.
  - repeat split.
    + unfold Build.PYMAVLINK_DIR. rewrite H. now apply resolve_join.
    + apply resolve_PX4_DIR.
    + now apply clone_pymavlink_below.
  - split.
    + unfold Build.PYMAVLINK_DIR. rewrite H. now apply resolve_join_all.
    + now apply clone_pymavlink_above.
Qed.

(** C6.  Below the threshold, when the codec generator's directory is
    there, [clone_pymavlink] prints a line and runs [git pull] in it, and
    that is all: the version is not asked for, nothing is removed and
    nothing is cloned, whatever the checkout holds. *)
Theorem clone_pymavlink_updates_in_place w :
  str_lt PX4_VERSION "v1.13.0" = true ->
  is_dir (lookup (resolve PYMAVLINK_DIR) (fs w)) = true ->
  let x := run_process git_pull w in
  clone_pymavlink w =
    mkResult (exit_outcome x) (after x)
             [done (Print "--- Updating pymavlink");
              Ev (CheckCall git_pull) (exit_ok x)]
  /\ git_pull = mkCmd ["git"; "pull"] (Some PYMAVLINK_DIR) []
  /\ all_ops (fun o => destroys_or_clones o = false)
             (res_trace (clone_pymavlink w)).
Proof.
  intros Hlt Hdir x.
  assert (E : clone_pymavlink w =
              mkResult (exit_outcome x) (after x)
                [done (Print "--- Updating pymavlink");
                 Ev (CheckCall git_pull) (exit_ok x)]).
  { rewrite clone_pymavlink_below, Hdir, check_call_run by assumption.
    reflexivity. }
  rewrite E. repeat split. repeat constructor.
Qed.

(** ** Traces of sequences *)

Lemma emits_ret {A} (P : op -> Prop) (a : A) : emits P (ret (Ext:=Ext) a).
Proof. intros w. constructor. Qed.

Lemma emits_raise {A} (P : op -> Prop) (e : exn) :
  emits P (raise (Ext:=Ext) (A:=A) e).
Proof. intros w. constructor. Qed.

Lemma emits_bind {A B} (P : op -> Prop) (m : M Ext A) (f : A -> M Ext B) :
  emits P m -> (forall a, emits P (f a)) -> emits P (bind m f).
Proof.
  intros Hm Hf w. unfold bind. specialize (Hm w).
  destruct (m w) as [[a|e] w1 t1]; cbn [res_trace] in *; [|assumption].
  apply Forall_app. split; [assumption|apply Hf].
Qed.

Lemma emits_print (P : op -> Prop) (msg : string) :
  P (Print msg) -> emits P (print (Ext:=Ext) msg).
Proof. intros H w. now repeat constructor. Qed.

Lemma emits_check_call (P : op -> Prop) (c : Cmd) :
  P (CheckCall c) -> emits P (check_call c).
Proof.
  intros H w. unfold Sys.check_call.
  destruct (exit_ok (run_process c w)); now repeat constructor.
Qed.

Lemma emits_check_output (P : op -> Prop) (c : Cmd) :
  P (CheckOutput c) -> emits P (check_output c).
Proof.
  intros H w. unfold Sys.check_output.
  destruct (exit_ok (run_process c w)); now repeat constructor.
Qed.

Lemma emits_fs_op {A} (P : op -> Prop) (o : op) (f : node -> outcome A * node) :
  P o -> emits P (fs_op Ext o f).
Proof.
  intros H w. unfold fs_op. destruct (f (fs w)). now repeat constructor.
Qed.

Lemma emits_isdir (P : op -> Prop) (p : string) :
  emits P (os_path_isdir (Ext:=Ext) p).
Proof. intros w. constructor. Qed.

Lemma emits_isfile (P : op -> Prop) (p : string) :
  emits P (os_path_isfile (Ext:=Ext) p).
Proof. intros w. constructor. Qed.

Lemma emits_listdir (P : op -> Prop) (p : string) :
  emits P (os_listdir (Ext:=Ext) p).
Proof.
  intros w. unfold os_listdir.
  destruct (lookup (resolve p) (fs w)) as [[|es]|]; constructor.
Qed.

Lemma emits_next {A} (P : op -> Prop) (xs : list A) :
  emits P (next (Ext:=Ext) xs).
Proof. destruct xs; [apply emits_raise|apply emits_ret]. Qed.

Lemma emits_for_each {A} (P : op -> Prop) (xs : list A) (body : A -> M Ext unit) :
  (forall x, emits P (body x)) -> emits P (for_each xs body).
Proof.
  intros H. induction xs as [|x xs IH]; cbn [for_each].
  - apply emits_ret.
  - apply emits_bind; [apply H|intros _; apply IH].
Qed.

Lemma emits_touch_file (P : op -> Prop) (f : string) :
  P (OpenW f) -> emits P (touch_file Ext f).
Proof. apply emits_fs_op. Qed.

(** ** The patch of the firmware checkout *)

Lemma touch_file_run (f : string) w :
  touch_file Ext f w =
  mkResult (fst (write_fs f "" (fs w)))
           (mkWorld (snd (write_fs f "" (fs w))) (ext w))
           [Ev (OpenW f) (is_ok (fst (write_fs f "" (fs w))))].
Proof.
  unfold touch_file, fs_op. now destruct (write_fs f "" (fs w)) as [[[]|e] t].
Qed.

Lemma clone_px4_patch_run w :
  clone_px4_patch w =
  if is_file (lookup (resolve px4_patch_file) (fs w))
  then mkResult (Ok tt) w []
  else
    let x := run_process git_apply_px4 w in
    preceded [done (Print "--- Applying PX4 patch")]
      (if exit_ok x
       then preceded [done (CheckCall git_apply_px4)]
                     (touch_file Ext px4_patch_file (after x))
       else mkResult (Raised CalledProcessError) (after x)
                     [failed (CheckCall git_apply_px4)]).
Proof.
  unfold Build.clone_px4_patch, os_path_isfile, query. unfold bind at 1.
  cbn [res_out res_world res_trace app].
  destruct (is_file (lookup (resolve px4_patch_file) (fs w))); cbn [negb];
    [reflexivity|].
  unfold print2. rewrite print_then. f_equal.
  unfold bind, Sys.check_call.
  destruct (exit_ok (run_process git_apply_px4 w)); reflexivity.
Qed.

Lemma emits_clone_px4_patch (P : op -> Prop) :
  P (Print "--- Applying PX4 patch") -> P (CheckCall git_apply_px4) ->
  P (OpenW px4_patch_file) ->
  emits P clone_px4_patch.
Proof.
  intros H1 H2 H3. unfold Build.clone_px4_patch.
  apply emits_bind; [apply emits_isfile|]. intros [|]; cbn [negb].
  - apply emits_ret.
  - apply emits_bind; [now apply emits_print|intros _].
    apply emits_bind; [now apply emits_check_call|intros _].
    now apply emits_touch_file.
Qed.

(** ** [clone_px4] on an existing checkout *)

Lemma preceded_app {A} (s t : list event) (r : result Ext A) :
  preceded s (preceded t r) = preceded (s ++ t) r.
Proof. unfold preceded. cbn [res_out res_world res_trace]. now rewrite app_assoc. Qed.

Lemma preceded_trace {A} (t : list event) (r : result Ext A) :
  res_trace (preceded t r) = (t ++ res_trace r)%list.
Proof. reflexivity. Qed.

(** What [clone_px4] does with the version it has read. *)
Lemma clone_px4_probe w :
  is_dir (lookup (resolve PX4_DIR) (fs w)) = true ->
  exit_ok (run_process git_remote_show w) = true ->
  clone_px4 w =
  preceded [done (CheckOutput git_remote_show)]
    (((local_version <-
         next (local_versions (stdout (run_process git_remote_show w))) ;;
       if negb (String.eqb local_version PX4_VERSION) then
         print ("Existing PX4 checkout is " ++ local_version ++ ", re-cloning") ;;
         shutil_rmtree BUILD_DIR false ;;
         clone_px4_fresh
       else ret tt) ;;
      clone_px4_patch)
       (after (run_process git_remote_show w))).
Proof.
  intros Hdir Hok. rewrite clone_px4_flat_eq. unfold Straight.clone_px4_flat.
  rewrite bind_assoc.
  erewrite bind_ok by (unfold os_path_isdir, query; rewrite Hdir; reflexivity).
  cbn [app]. rewrite result_eta, bind_assoc.
  erewrite bind_ok by (unfold Sys.check_output; rewrite Hok; reflexivity).
  reflexivity.
Qed.

(** C9.  The version of an existing checkout is read off the output of
    [git remote show origin -n]: of the first line that starts with "refs"
    once stripped, the part after its last "/" (the whole line when it has
    none).  When no line qualifies, [next] raises [StopIteration], which
    [clone_px4] lets through: nothing is done after the query. *)
Theorem local_version_probe (out : string) :
  (forall pre l post,
      splitlines out = (pre ++ l :: post)%list ->
      Forall (fun l' => startswith (strip l') "refs" = false) pre ->
      startswith (strip l) "refs" = true ->
      hd_error (local_versions out) = Some (last_item (split sep l))
      /\ (exists before, split sep l = (before ++ [last_item (split sep l)])%list))
  /\ (Forall (fun l => startswith (strip l) "refs" = false) (splitlines out) ->
      local_versions out = []
      /\ forall w,
          is_dir (lookup (resolve PX4_DIR) (fs w)) = true ->
          exit_ok (run_process git_remote_show w) = true ->
          stdout (run_process git_remote_show w) = out ->
          clone_px4 w =
          mkResult (Raised StopIteration) (after (run_process git_remote_show w))
                   [done (CheckOutput git_remote_show)]).
Proof.
  split.
  - intros pre l post Hsplit Hpre Hl. split.
    + unfold local_versions. rewrite Hsplit. clear Hsplit.
      induction Hpre as [|l' pre Hl' _ IH]; cbn [app filter].
      * now rewrite Hl.
      * now rewrite Hl'.
    + destruct (exists_last (split_nonempty sep l)) as (before & x & E).
      exists before. unfold last_item. rewrite E at 1.
      now rewrite E, last_last.
  - intros Hnone.
    assert (E : local_versions out = []).
    { unfold local_versions. induction Hnone as [|l ls Hl _ IH]; cbn [filter].
      - reflexivity.
      - now rewrite Hl. }
    split; [exact E|].
    intros w Hdir Hok Hout. rewrite clone_px4_probe by assumption.
    rewrite Hout, E. reflexivity.
Qed.

Lemma git_apply_is_no_clone : destroys_or_clones (CheckCall git_apply_px4) = false.
Proof. reflexivity. Qed.

(** C1.  On an existing checkout whose recorded version [A] is not the
    requested one, [clone_px4] removes the whole workspace directory
    (nothing is left at or below it, the markers included) and then clones:
    shallow, at the tag of the requested version, with submodules.  When
    [A] is the requested version nothing is removed and nothing is cloned. *)
Theorem clone_px4_mismatch_reclones w (A : string) (rest : list string) :
  resolve BUILD_DIR <> [] ->
  is_dir (lookup (resolve PX4_DIR) (fs w)) = true ->
  exit_ok (run_process git_remote_show w) = true ->
  is_dir (lookup (resolve BUILD_DIR)
                 (fs (after (run_process git_remote_show w)))) = true ->
  local_versions (stdout (run_process git_remote_show w)) = A :: rest ->
  let x := run_process git_remote_show w in
  if String.eqb A PX4_VERSION then
    clone_px4 w =
      preceded [done (CheckOutput git_remote_show)] (clone_px4_patch (after x))
    /\ all_ops (fun o => destroys_or_clones o = false) (res_trace (clone_px4 w))
  else
    let w2 := mkWorld (remove (resolve BUILD_DIR) (fs (after x))) (ext (after x)) in
    (forall q, lookup (resolve BUILD_DIR ++ q) (fs w2) = None)
    /\ clone_px4 w =
       preceded [done (CheckOutput git_remote_show);
                 done (Print ("Existing PX4 checkout is " ++ A ++ ", re-cloning"));
                 done (Rmtree BUILD_DIR false)]
                ((clone_px4_fresh ;; clone_px4_patch) w2)
    /\ (exists t,
          res_trace (clone_px4 w) =
          [done (CheckOutput git_remote_show);
           done (Print ("Existing PX4 checkout is " ++ A ++ ", re-cloning"));
           done (Rmtree BUILD_DIR false);
           done (Print "--- Cloning PX4");
           Ev (CheckCall git_clone_px4)
              (exit_ok (run_process git_clone_px4 w2))] ++ t)%list
    /\ git_clone_px4 =
       mkCmd ["git"; "clone"; "https://github.com/PX4/PX4-Autopilot"; PX4_DIR;
              "--depth"; "1"; "--branch"; PX4_VERSION; "--recurse-submodules"]
             None [].
Proof.
  intros Hroot Hdir Hok Hws Hlv x.
  pose proof (clone_px4_probe w Hdir Hok) as E. fold x in E, Hws, Hlv.
  rewrite Hlv in E. cbn [next] in E.
  rewrite bind_assoc, bind_ret in E.
  destruct (String.eqb A PX4_VERSION) eqn:HA; cbn [negb] in E.
  - rewrite bind_ret in E. split; [exact E|].
    rewrite E. apply Forall_cons; [reflexivity|].
    apply (emits_clone_px4_patch (fun o => destroys_or_clones o = false));
      reflexivity.
  - intros w2.
    assert (E2 : clone_px4 w =
       preceded [done (CheckOutput git_remote_show);
                 done (Print ("Existing PX4 checkout is " ++ A ++ ", re-cloning"));
                 done (Rmtree BUILD_DIR false)]
                ((clone_px4_fresh ;; clone_px4_patch) w2)).
    { rewrite E, bind_assoc, print_then, bind_assoc, preceded_app.
      erewrite bind_ok by (apply rmtree_run; assumption).
      fold w2. unfold preceded. cbn [res_out res_world res_trace app].
      reflexivity. }
    split; [|split; [exact E2|split; [|reflexivity]]].
    + intros q. now apply workspace_removed.
    + rewrite E2, preceded_trace. unfold Straight.clone_px4_fresh.
      rewrite !bind_assoc. unfold print2. rewrite print_then, preceded_trace.
      destruct (bind_trace_prefix (check_call git_clone_px4)
                  (fun _ => clone_px4_patch ;; clone_px4_patch) w2) as [t Ht].
      rewrite Ht, check_call_run. cbn [res_trace app]. now exists t.
Qed.

(** ** Straight runs of operations *)

Abbreviation perform := (Straight.perform Ext run_process).
Abbreviation perform_all := (Straight.perform_all Ext run_process).
Abbreviation guarded := (Straight.guarded Ext).

Lemma fs_op_trace {A} (o : op) (f : node -> outcome A * node) w :
  res_trace (fs_op Ext o f w) = [Ev o (is_ok (res_out (fs_op Ext o f w)))].
Proof. unfold fs_op. now destruct (f (fs w)) as [[a|e] t]. Qed.

Lemma perform_trace (o : op) w :
  res_trace (perform o w) = [Ev o (is_ok (res_out (perform o w)))].
Proof.
  destruct o; cbn [Straight.perform]; try apply fs_op_trace.
  - reflexivity.
  - unfold Sys.check_call. now destruct (exit_ok (run_process c w)).
  - unfold bind, Sys.check_output. now destruct (exit_ok (run_process c w)).
Qed.

Lemma perform_unit (o : op) w :
  is_ok (res_out (perform o w)) = true -> res_out (perform o w) = Ok tt.
Proof. destruct (res_out (perform o w)) as [[]|e]; [reflexivity|discriminate]. Qed.

(** A straight run either performs all its operations, or all the ones
    before the first that raises, and that one. *)
Lemma perform_all_trace (os : list op) w :
  (res_out (perform_all os w) = Ok tt
   /\ res_trace (perform_all os w) = map done os)
  \/ (exists pre o post e,
        os = (pre ++ o :: post)%list
        /\ res_out (perform_all os w) = Raised e
        /\ res_trace (perform_all os w) = (map done pre ++ [failed o])%list).
Proof.
  revert w. induction os as [|o os IH]; intros w.
  - left. split; reflexivity.
  - unfold Straight.perform_all. cbn [for_each]. unfold bind.
    pose proof (perform_trace o w) as Ht.
    destruct (perform o w) as [[[]|e] w1 t1]; cbn [res_out res_trace is_ok] in *.
    + subst t1.
      destruct (IH w1) as [[Ho Htr]|(pre & o' & post & e & -> & Ho & Htr)].
      * left. unfold Straight.perform_all in *. rewrite Ho, Htr. now split.
      * right. exists (o :: pre), o', post, e.
        unfold Straight.perform_all in *. rewrite Ho, Htr. now repeat split.
    + right. exists [], o, os, e. subst t1. now repeat split.
Qed.

Lemma perform_all_bind {B} (os : list op) (k : M Ext B) w :
  (perform_all os ;; k) w = fold_right (fun o m => perform o ;; m) k os w.
Proof.
  revert w. induction os as [|o os IH]; intros w.
  - unfold Straight.perform_all. cbn [for_each fold_right]. apply bind_ret.
  - unfold Straight.perform_all in *. cbn [for_each fold_right].
    rewrite bind_assoc. apply bind_cong. intros _ w1 _ _. apply IH.
Qed.

(** ** Guarded actions *)

Lemma guarded_run (marker : string) (action : M Ext unit) w :
  guarded marker action w =
  if is_file (lookup (resolve marker) (fs w)) then mkResult (Ok tt) w []
  else match action w with
       | mkResult (Ok _) w1 t1 => preceded t1 (touch_file Ext marker w1)
       | mkResult (Raised e) w1 t1 => mkResult (Raised e) w1 t1
       end.
Proof.
  unfold Straight.guarded, os_path_isfile, query. unfold bind at 1.
  cbn [res_out res_world res_trace app].
  destruct (is_file (lookup (resolve marker) (fs w))); cbn [negb].
  - reflexivity.
  - unfold bind. now destruct (action w) as [[a|e] w1 t1].
Qed.

Lemma write_fs_ok (f content : string) (t t' : node) :
  write_fs f content t = (Ok tt, t') ->
  lookup (resolve f) t' = Some (File content).
Proof.
  unfold write_fs.
  destruct (lookup (resolve f) t) as [[|]|];
    destruct (lookup (removelast (resolve f)) t) as [[|]|];
    try discriminate;
    (destruct (put (resolve f) (File content) t) eqn:E; [|discriminate]);
    intros H; inversion H; subst; eapply lookup_put_same; eassumption.
Qed.

(** A marker that has been created is there. *)
Lemma touch_file_ok (f : string) w w1 t1 :
  touch_file Ext f w = mkResult (Ok tt) w1 t1 ->
  is_file (lookup (resolve f) (fs w1)) = true /\ t1 = [done (OpenW f)].
Proof.
  rewrite touch_file_run. destruct (write_fs f "" (fs w)) as [[[]|e] t] eqn:E;
    cbn [fst snd is_ok]; intros H; inversion H; subst.
  cbn [fs]. apply write_fs_ok in E. rewrite E. now split.
Qed.

(** After a run that returned, the guarded action is not performed again. *)
Lemma guarded_twice (marker : string) (action : M Ext unit) w w1 t1 :
  guarded marker action w = mkResult (Ok tt) w1 t1 ->
  guarded marker action w1 = mkResult (Ok tt) w1 [].
Proof.
  rewrite guarded_run.
  destruct (is_file (lookup (resolve marker) (fs w))) eqn:Hm.
  - intros H. inversion H; subst. now rewrite guarded_run, Hm.
  - destruct (action w) as [[a|e] w' t']; [|discriminate].
    unfold preceded. intros H.
    destruct (touch_file Ext marker w') as [[[]|e] w'' t''] eqn:Ht;
      cbn [res_out res_world res_trace] in H; inversion H; subst.
    apply touch_file_ok in Ht as [Hf _]. now rewrite guarded_run, Hf.
Qed.

(** The first run, when the marker is not there and the run returns. *)
Lemma guarded_first (marker : string) (os : list op) w w1 t1 :
  is_file (lookup (resolve marker) (fs w)) = false ->
  guarded marker (perform_all os) w = mkResult (Ok tt) w1 t1 ->
  t1 = map done (os ++ [OpenW marker])
  /\ is_file (lookup (resolve marker) (fs w1)) = true.
Proof.
  intros Hm. rewrite guarded_run, Hm.
  destruct (perform_all_trace os w) as [[Ho Htr]|(pre & o & post & e & _ & Ho & _)];
    destruct (perform_all os w) as [[a|e'] w' t']; cbn [res_out res_trace] in *;
    try discriminate.
  unfold preceded. intros H.
  destruct (touch_file Ext marker w') as [[[]|e] w'' t''] eqn:Ht;
    cbn [res_out res_world res_trace] in H; inversion H; subst.
  apply touch_file_ok in Ht as [Hf ->]. split; [|assumption].
  now rewrite map_app.
Qed.

(** The creation of the marker comes after every operation of the action
    has returned, and not at all when one of them raises. *)
Lemma guarded_marker_last (marker : string) (os : list op) w :
  ~ In (OpenW marker) os ->
  let t := res_trace (guarded marker (perform_all os) w) in
  (forall ok, In (Ev (OpenW marker) ok) t ->
              t = (map done os ++ [Ev (OpenW marker) ok])%list)
  /\ (forall o, In (failed o) t -> o <> OpenW marker ->
                forall ok, ~ In (Ev (OpenW marker) ok) t).
Proof.
  intros Hos.
  assert (Hdone : forall l ok, incl l os -> ~ In (Ev (OpenW marker) ok) (map done l)).
  { intros l ok Hl Hin. apply in_map_iff in Hin as (o & Ho & Hin).
    inversion Ho; subst. now apply Hos, Hl. }
  rewrite guarded_run.
  destruct (is_file (lookup (resolve marker) (fs w))).
  { split; [intros ok []|intros o []]. }
  destruct (perform_all_trace os w)
    as [[Ho Htr]|(pre & o' & post & e & Hsplit & Ho & Htr)];
    destruct (perform_all os w) as [[a|e'] w' t']; cbn [res_out res_trace] in *;
    try discriminate; subst t'.
  - rewrite preceded_trace, touch_file_run. cbn [res_trace]. split.
    + intros ok Hin. apply in_app_or in Hin as [Hin|[Hin|[]]].
      * now apply Hdone in Hin; [|apply incl_refl].
      * now inversion Hin.
    + intros o Hin Hneq ok _. apply in_app_or in Hin as [Hin|[Hin|[]]].
      * apply in_map_iff in Hin as (o2 & Ho2 & _). discriminate.
      * inversion Hin; subst. now apply Hneq.
  - assert (Hno : forall ok, ~ In (Ev (OpenW marker) ok) (map done pre ++ [failed o'])).
    { intros ok Hin. apply in_app_or in Hin as [Hin|[Hin|[]]].
      - apply Hdone in Hin; [assumption|]. subst os. now apply incl_appl, incl_refl.
      - inversion Hin; subst. apply Hos, in_elt. }
    split.
    + intros ok Hin. now apply Hno in Hin.
    + intros o _ _ ok. apply Hno.
Qed.

(** ** The three guarded actions of the script *)

Lemma clone_px4_patch_guarded w :
  clone_px4_patch w = guarded px4_patch_file (perform_all px4_patch_ops) w.
Proof.
  unfold Build.clone_px4_patch, Straight.guarded.
  apply bind_cong. intros [|] w1 _ _; cbn [negb]; [reflexivity|].
  now rewrite perform_all_bind.
Qed.

Lemma build_pymavlink_patch_guarded w :
  build_pymavlink_patch w =
  guarded pymavlink_patch_file (perform_all pymavlink_patch_ops) w.
Proof.
  unfold Build.build_pymavlink_patch, Straight.guarded.
  apply bind_cong. intros [|] w1 _ _; cbn [negb]; [reflexivity|].
  now rewrite perform_all_bind.
Qed.

Lemma main_inject_guarded w :
  main_inject w = guarded mavlink_commit_file (perform_all inject_ops) w.
Proof.
  unfold Build.main_inject, Straight.guarded.
  apply bind_cong. intros [|] w1 _ _; cbn [negb]; [reflexivity|].
  rewrite perform_all_bind. unfold Straight.inject_ops.
  destruct (str_lt PX4_VERSION "v1.13.0"); cbn [app fold_right];
    [reflexivity|].
  apply bind_cong. intros _ w2 _ _. apply bind_cong. intros _ w3 _ _.
  now rewrite bind_ret.
Qed.

Lemma px4_patch_ops_no_marker : ~ In (OpenW px4_patch_file) px4_patch_ops.
Proof. intros [H|[H|[]]]; discriminate. Qed.

Lemma pymavlink_patch_ops_no_marker :
  ~ In (OpenW pymavlink_patch_file) pymavlink_patch_ops.
Proof. intros [H|[H|[H|[]]]]; discriminate. Qed.

Lemma inject_ops_no_marker : ~ In (OpenW mavlink_commit_file) inject_ops.
Proof.
  unfold Straight.inject_ops. destruct (str_lt PX4_VERSION "v1.13.0");
    cbn [app In]; intros H;
    repeat (destruct H as [H|H]; [discriminate|]); exact H.
Qed.


(** C5.  For the firmware patch, the codec generator's patch and the
    commit of the message: when the creation of the marker is in the trace,
    every operation of the guarded action is before it and has returned;
    and when an operation of the action has raised, the creation of the
    marker is not in the trace. *)
Theorem marker_after_success w :
  let marker_last (marker : string) (os : list op) (t : list event) :=
    (forall ok, In (Ev (OpenW marker) ok) t ->
                t = (map done os ++ [Ev (OpenW marker) ok])%list)
    /\ (forall o, In (failed o) t -> o <> OpenW marker ->
                  forall ok, ~ In (Ev (OpenW marker) ok) t) in
  marker_last px4_patch_file
    [Print "--- Applying PX4 patch"; CheckCall git_apply_px4]
    (res_trace (clone_px4_patch w))
  /\ marker_last pymavlink_patch_file
       [Print "--- Applying Pymavlink patch";
        CheckCall git_reset_pymavlink; CheckCall git_apply_pymavlink]
       (res_trace (build_pymavlink_patch w))
  /\ marker_last mavlink_commit_file
       ([Print "--- Injecting Bell MAVLink message";
         Copyfile (join THIS_DIR "bell.xml") bell_xml_def]
        ++ (if str_lt PX4_VERSION "v1.13.0" then [CheckCall mavgen_c] else [])
        ++ [CheckCall git_config_email; CheckCall git_config_name;
            CheckCall git_add; CheckCall git_commit])%list
       (res_trace (main_inject w)).
Proof.
  intros marker_last. unfold marker_last. split; [|split].
  - rewrite clone_px4_patch_guarded.
    apply guarded_marker_last, px4_patch_ops_no_marker.
  - rewrite build_pymavlink_patch_guarded.
    apply guarded_marker_last, pymavlink_patch_ops_no_marker.
  - rewrite main_inject_guarded.
    apply (guarded_marker_last mavlink_commit_file inject_ops w),
      inject_ops_no_marker.
Qed.

(** ** The operations of [main] *)

Lemma emits_weaken {A} (P Q : op -> Prop) (m : M Ext A) :
  (forall o, P o -> Q o) -> emits P m -> emits Q m.
Proof.
  intros H Hm w. eapply Forall_impl; [|apply Hm]. intros e. apply H.
Qed.

Lemma emits_perform (P : op -> Prop) (o : op) : P o -> emits P (perform o).
Proof. intros H w. rewrite perform_trace. now repeat constructor. Qed.

Lemma emits_perform_all (P : op -> Prop) (os : list op) :
  Forall P os -> emits P (perform_all os).
Proof.
  induction 1 as [|o os Ho _ IH]; unfold Straight.perform_all; cbn [for_each].
  - apply emits_ret.
  - apply emits_bind; [now apply emits_perform|intros _; apply IH].
Qed.

Lemma emits_guarded (P : op -> Prop) (marker : string) (action : M Ext unit) :
  P (OpenW marker) -> emits P action -> emits P (guarded marker action).
Proof.
  intros Hm Ha. unfold Straight.guarded.
  apply emits_bind; [apply emits_isfile|]. intros [|]; cbn [negb].
  - apply emits_ret.
  - apply emits_bind; [assumption|intros _; now apply emits_touch_file].
Qed.

Lemma emits_clone_pymavlink : emits before_op clone_pymavlink.
Proof.
  unfold Build.clone_pymavlink.
  destruct (str_ge PX4_VERSION "v1.13.0"); [apply emits_ret|].
  apply emits_bind; [apply emits_isdir|]. intros [|];
    (apply emits_bind; [apply emits_print; constructor|intros _]);
    apply emits_check_call; constructor.
Qed.

Lemma emits_clone_px4_rec (depth : nat) : emits before_op (clone_px4_rec depth).
Proof.
  induction depth as [|d IH]; cbn [Build.clone_px4_rec].
  - apply emits_raise.
  - apply emits_bind.
    + apply emits_bind; [apply emits_isdir|]. intros [|].
      * apply emits_bind; [apply emits_check_output; constructor|intros out].
        apply emits_bind; [apply emits_next|intros lv].
        destruct (negb (lv =? PX4_VERSION)%string); [|apply emits_ret].
        apply emits_bind; [apply emits_print; constructor|intros _].
        apply emits_bind; [apply emits_fs_op; constructor|intros _].
        apply IH.
      * apply emits_bind; [apply emits_print; constructor|intros _].
        apply emits_check_call; constructor.
    + intros _. apply emits_clone_px4_patch; constructor.
Qed.

Lemma emits_install_dependencies : emits before_op install_dependencies.
Proof.
  unfold Build.install_dependencies.
  apply emits_bind; [apply emits_print; constructor|intros _].
  apply emits_bind; apply emits_check_call || intros _; try constructor.
  apply emits_check_call; constructor.
Qed.

Lemma emits_main_before : emits before_op main_before.
Proof.
  unfold Straight.main_before.
  apply emits_bind; [apply emits_fs_op; constructor|intros _].
  apply emits_bind; [apply emits_clone_pymavlink|intros _].
  apply emits_bind; [apply emits_clone_px4_rec|intros _].
  apply emits_install_dependencies.
Qed.

Lemma emits_main_inject : emits inject_op main_inject.
Proof.
  intros w. rewrite main_inject_guarded. revert w.
  apply emits_guarded; [now right|].
  apply emits_perform_all, Forall_forall. intros o Ho. now left.
Qed.

Lemma emits_build_px4 targets version : emits after_op (build_px4 targets version).
Proof.
  unfold Build.build_px4.
  apply emits_bind; [apply emits_print; constructor|intros _].
  apply emits_for_each. intros target.
  apply emits_bind; [apply emits_check_call; constructor|intros _].
  apply emits_fs_op; constructor.
Qed.

Lemma emits_build_pymavlink wireshark :
  emits after_op (build_pymavlink message_definitions_dir bell_xml_def wireshark).
Proof.
  unfold Build.build_pymavlink.
  apply emits_bind; [apply emits_print; constructor|intros _].
  apply emits_bind.
  { intros w. rewrite build_pymavlink_patch_guarded. revert w.
    apply emits_guarded; [constructor|].
    apply emits_perform_all. repeat constructor. }
  intros _. apply emits_bind.
  { unfold Build.build_pymavlink_copy.
    apply emits_bind; [apply emits_print; constructor|intros _].
    apply emits_bind; apply emits_fs_op || intros _; try constructor.
    apply emits_fs_op; constructor. }
  intros _. apply emits_bind; [apply emits_print; constructor|intros _].
  apply emits_bind; [apply emits_check_call; constructor|intros _].
  apply emits_bind; [apply emits_listdir|intros filenames].
  apply emits_bind.
  { apply emits_for_each. intros filename. apply emits_fs_op; constructor. }
  intros _. destruct wireshark; [|apply emits_ret].
  apply emits_bind; [apply emits_print; constructor|intros _].
  apply emits_check_call; constructor.
Qed.

Lemma emits_main_after p px ws version targets :
  emits after_op (main_after p px ws version targets).
Proof.
  unfold Straight.main_after. apply emits_bind.
  - destruct p; [apply emits_build_pymavlink|apply emits_ret].
  - intros _. destruct px; [apply emits_build_px4|apply emits_ret].
Qed.

(** [main] is what comes before the injection, the injection, and what comes
    after it. *)
Lemma main_parts p px ws version targets w :
  main p px ws version targets w =
  (main_before ;; main_inject ;; main_after p px ws version targets) w.
Proof.
  unfold Build.main, Straight.main_before, Straight.main_after.
  rewrite bind_assoc. apply bind_cong. intros _ w1 _ _.
  rewrite bind_assoc. apply bind_cong. intros _ w2 _ _.
  now rewrite bind_assoc.
Qed.

Lemma before_op_no_commit (o : op) : before_op o -> ~ generates_or_commits o.
Proof. intros Ho [H|H]; destruct Ho; inversion H. Qed.

Lemma after_op_no_commit (o : op) : after_op o -> ~ generates_or_commits o.
Proof. intros Ho [H|H]; destruct Ho; inversion H. Qed.


(** ** Where the script writes *)

Lemma resolve_message_definitions_dir :
  exists q, resolve message_definitions_dir = (resolve PX4_DIR ++ q)%list.
Proof.
  unfold Build.message_definitions_dir.
  destruct (str_lt PX4_VERSION "v1.13.0");
    rewrite resolve_join_all by reflexivity; eauto.
Qed.

Lemma in_place_bell (src : string) : writes_in_place (Copyfile src bell_xml_def).
Proof.
  left. destruct resolve_message_definitions_dir as [q Hq].
  exists (q ++ ["bell.xml"])%list. unfold Build.bell_xml_def.
  rewrite resolve_join, Hq by reflexivity. now rewrite app_assoc.
Qed.

Lemma in_place_definitions (src : string) :
  writes_in_place (Copytree src pymavlink_definitions).
Proof.
  exists ["message_definitions"; "v1.0"].
  unfold Build.pymavlink_definitions. now apply resolve_join_all.
Qed.

Lemma in_place_rmtree_definitions (b : bool) :
  writes_in_place (Rmtree pymavlink_definitions b).
Proof.
  right. exists ["message_definitions"; "v1.0"].
  unfold Build.pymavlink_definitions. now apply resolve_join_all.
Qed.

Lemma in_place_output (src name : string) :
  plain_name name = true -> writes_in_place (Copyfile src (join DIST_DIR name)).
Proof. intros H. right. exists name. split; [assumption|now apply resolve_join]. Qed.

Section Tidy.

(** The external programs leave a tree with plain names as they found
    one. *)
Hypothesis programs_tidy :
  forall c w, names_plain (fs w) = true ->
              names_plain (fs (after (run_process c w))) = true.

Lemma tidy_ret {A} (P : op -> Prop) (Q : A -> Prop) (a : A) :
  Q a -> tidy P Q (ret (Ext:=Ext) a).
Proof.
  intros Hq w Hw. split; [constructor|]. split; [assumption|].
  cbn. intros b H. now inversion H; subst.
Qed.

Lemma tidy_raise {A} (P : op -> Prop) (Q : A -> Prop) (e : exn) :
  tidy P Q (raise (Ext:=Ext) (A:=A) e).
Proof. intros w Hw. split; [constructor|]. split; [assumption|]. discriminate. Qed.

Lemma tidy_bind {A B} (P : op -> Prop) (Q : A -> Prop) (R : B -> Prop)
    (m : M Ext A) (f : A -> M Ext B) :
  tidy P Q m -> (forall a, Q a -> tidy P R (f a)) -> tidy P R (bind m f).
Proof.
  intros Hm Hf w Hw. destruct (Hm w Hw) as (Ht & Hw1 & Hq). unfold bind.
  destruct (m w) as [[a|e] w1 t1]; cbn [res_out res_world res_trace] in *.
  - destruct (Hf a (Hq a eq_refl) w1 Hw1) as (Ht2 & Hw2 & Hq2).
    split; [now apply Forall_app|now split].
  - split; [assumption|]. split; [assumption|discriminate].
Qed.

Lemma tidy_print (P : op -> Prop) (msg : string) :
  P (Print msg) -> tidy P (fun _ => True) (print (Ext:=Ext) msg).
Proof. intros Hp w Hw. split; [now repeat constructor|now split]. Qed.

Lemma tidy_query {A} (P : op -> Prop) (f : node -> A) :
  tidy P (fun _ => True) (query Ext f).
Proof. intros w Hw. split; [constructor|now split]. Qed.

Lemma tidy_check_call (P : op -> Prop) (c : Cmd) :
  P (CheckCall c) -> tidy P (fun _ => True) (check_call c).
Proof.
  intros Hp w Hw. rewrite check_call_run. cbn [res_out res_world res_trace].
  split; [now repeat constructor|]. split; [now apply programs_tidy|easy].
Qed.

Lemma tidy_check_output (P : op -> Prop) (c : Cmd) :
  P (CheckOutput c) -> tidy P (fun _ => True) (check_output c).
Proof.
  intros Hp w Hw. unfold Sys.check_output.
  destruct (exit_ok (run_process c w)); cbn [res_out res_world res_trace];
    (split; [now repeat constructor|]); (split; [now apply programs_tidy|easy]).
Qed.

Lemma tidy_fs_op {A} (P : op -> Prop) (o : op) (f : node -> outcome A * node) :
  P o ->
  (forall t, names_plain t = true -> names_plain (snd (f t)) = true) ->
  tidy P (fun _ => True) (fs_op Ext o f).
Proof.
  intros Hp Hf w Hw. unfold fs_op. specialize (Hf (fs w) Hw).
  destruct (f (fs w)) as [r t]. cbn [res_out res_world res_trace fs snd] in *.
  split; [now repeat constructor|now split].
Qed.

Lemma tidy_next {A} (P : op -> Prop) (xs : list A) :
  tidy P (fun _ => True) (next (Ext:=Ext) xs).
Proof. destruct xs; [apply tidy_raise|now apply tidy_ret]. Qed.

(** The names [os.listdir] returns are plain. *)
Lemma tidy_listdir (P : op -> Prop) (p : string) :
  tidy P (Forall (fun n => plain_name n = true)) (os_listdir (Ext:=Ext) p).
Proof.
  intros w Hw. unfold Sys.os_listdir.
  destruct (lookup (resolve p) (fs w)) as [[|es]|] eqn:E;
    cbn [res_out res_world res_trace];
    (split; [constructor|]); (split; [assumption|]); try discriminate.
  intros a H. inversion H; subst.
  apply names_plain_entries. now apply (names_plain_lookup _ _ _ Hw E).
Qed.

Lemma tidy_for_each {A} (P : op -> Prop) (R : A -> Prop) (xs : list A)
    (body : A -> M Ext unit) :
  Forall R xs ->
  (forall x, R x -> tidy P (fun _ => True) (body x)) ->
  tidy P (fun _ => True) (for_each xs body).
Proof.
  intros Hxs Hbody. induction Hxs as [|x xs Hx _ IH]; cbn [for_each].
  - now apply tidy_ret.
  - eapply tidy_bind; [now apply Hbody|]. intros _ _. exact IH.
Qed.

Lemma tidy_touch_file (P : op -> Prop) (f : string) :
  P (OpenW f) -> tidy P (fun _ => True) (touch_file Ext f).
Proof.
  intros Hp. apply tidy_fs_op; [assumption|]. intros t.
  apply names_plain_write.
Qed.

Lemma tidy_rmtree (P : op -> Prop) (p : string) (b : bool) :
  P (Rmtree p b) -> tidy P (fun _ => True) (shutil_rmtree (Ext:=Ext) p b).
Proof.
  intros Hp. apply tidy_fs_op; [assumption|]. intros t.
  apply names_plain_rmtree.
Qed.

Lemma tidy_copyfile (P : op -> Prop) (src dst : string) :
  P (Copyfile src dst) ->
  tidy P (fun _ => True) (shutil_copyfile (Ext:=Ext) src dst).
Proof.
  intros Hp. apply tidy_fs_op; [assumption|]. intros t.
  apply names_plain_copyfile.
Qed.

Lemma tidy_copytree (P : op -> Prop) (src dst : string) :
  P (Copytree src dst) ->
  tidy P (fun _ => True) (shutil_copytree (Ext:=Ext) src dst).
Proof.
  intros Hp. apply tidy_fs_op; [assumption|]. intros t.
  apply names_plain_copytree.
Qed.

Lemma tidy_makedirs (P : op -> Prop) (p : string) (b : bool) :
  P (Makedirs p b) -> tidy P (fun _ => True) (os_makedirs (Ext:=Ext) p b).
Proof.
  intros Hp. apply tidy_fs_op; [assumption|]. intros t.
  apply names_plain_makedirs.
Qed.

(** One step of a sequence whose value is not looked at. *)
Ltac tidy_step lemma :=
  apply tidy_bind with (Q := fun _ => True); [apply lemma|intros _ _].

Lemma tidy_clone_pymavlink :
  tidy writes_in_place (fun _ => True) clone_pymavlink.
Proof.
  unfold Build.clone_pymavlink.
  destruct (str_ge PX4_VERSION "v1.13.0"); [now apply tidy_ret|].
  apply tidy_bind with (Q := fun _ => True); [apply tidy_query|]. intros [|] _;
    (tidy_step tidy_print; [exact I|]); now apply tidy_check_call.
Qed.

Lemma tidy_clone_px4_patch :
  tidy writes_in_place (fun _ => True) clone_px4_patch.
Proof.
  unfold Build.clone_px4_patch. cbv zeta.
  apply tidy_bind with (Q := fun _ => True); [apply tidy_query|]. intros [|] _; cbn [negb];
    [now apply tidy_ret|].
  tidy_step tidy_print; [exact I|].
  tidy_step tidy_check_call; [exact I|].
  apply tidy_touch_file. now left.
Qed.

Lemma tidy_clone_px4_rec (depth : nat) :
  tidy writes_in_place (fun _ => True) (clone_px4_rec depth).
Proof.
  induction depth as [|d IH]; cbn [Build.clone_px4_rec]; [apply tidy_raise|].
  apply tidy_bind with (Q := fun _ => True);
    [|intros _ _; apply tidy_clone_px4_patch].
  apply tidy_bind with (Q := fun _ => True); [apply tidy_query|]. intros [|] _.
  - apply tidy_bind with (Q := fun _ => True);
      [now apply tidy_check_output|]. intros out _.
    apply tidy_bind with (Q := fun _ => True); [apply tidy_next|]. intros lv _.
    destruct (negb (lv =? PX4_VERSION)%string); [|now apply tidy_ret].
    tidy_step tidy_print; [exact I|].
    tidy_step tidy_rmtree; [now left|]. exact IH.
  - tidy_step tidy_print; [exact I|]. now apply tidy_check_call.
Qed.

Lemma tidy_install_dependencies :
  tidy writes_in_place (fun _ => True) install_dependencies.
Proof.
  unfold Build.install_dependencies.
  tidy_step tidy_print; [exact I|].
  tidy_step tidy_check_call; [exact I|]. now apply tidy_check_call.
Qed.

Lemma tidy_main_inject : tidy writes_in_place (fun _ => True) main_inject.
Proof.
  unfold Build.main_inject. cbv zeta.
  apply tidy_bind with (Q := fun _ => True); [apply tidy_query|]. intros [|] _; cbn [negb];
    [now apply tidy_ret|].
  tidy_step tidy_print; [exact I|].
  tidy_step tidy_copyfile; [apply in_place_bell|].
  apply tidy_bind with (Q := fun _ => True).
  { destruct (str_lt PX4_VERSION "v1.13.0");
      [now apply tidy_check_call|now apply tidy_ret]. }
  intros _ _.
  do 4 (tidy_step tidy_check_call; [exact I|]).
  apply tidy_touch_file. now right; right.
Qed.

Lemma tidy_build_pymavlink (wireshark : bool) :
  tidy writes_in_place (fun _ => True)
    (build_pymavlink message_definitions_dir bell_xml_def wireshark).
Proof.
  unfold Build.build_pymavlink. cbv zeta.
  tidy_step tidy_print; [exact I|].
  apply tidy_bind with (Q := fun _ => True).
  { unfold Build.build_pymavlink_patch. cbv zeta.
    apply tidy_bind with (Q := fun _ => True); [apply tidy_query|]. intros [|] _; cbn [negb];
      [now apply tidy_ret|].
    tidy_step tidy_print; [exact I|].
    do 2 (tidy_step tidy_check_call; [exact I|]).
    apply tidy_touch_file. now right; left. }
  intros _ _. apply tidy_bind with (Q := fun _ => True).
  { unfold Build.build_pymavlink_copy.
    tidy_step tidy_print; [exact I|].
    tidy_step tidy_rmtree; [apply in_place_rmtree_definitions|].
    apply tidy_copytree, in_place_definitions. }
  intros _ _. tidy_step tidy_print; [exact I|].
  tidy_step tidy_check_call; [exact I|].
  eapply tidy_bind; [apply tidy_listdir|]. intros filenames Hplain.
  apply tidy_bind with (Q := fun _ => True).
  { apply (tidy_for_each _ _ _ _ Hplain). intros filename Hf.
    now apply tidy_copyfile, in_place_output. }
  intros _ _. destruct wireshark; [|now apply tidy_ret].
  tidy_step tidy_print; [exact I|]. now apply tidy_check_call.
Qed.

Lemma tidy_build_px4 targets version :
  Forall (fun target =>
            plain_name (target ++ "." ++ PX4_VERSION ++ "." ++ version
                        ++ ".px4") = true) targets ->
  tidy writes_in_place (fun _ => True) (build_px4 targets version).
Proof.
  intros Hnames. unfold Build.build_px4.
  tidy_step tidy_print; [exact I|].
  apply (tidy_for_each _ _ _ _ Hnames). intros target Hname.
  tidy_step tidy_check_call; [exact I|].
  now apply tidy_copyfile, in_place_output.
Qed.

Lemma tidy_main p px ws version targets :
  (px = true ->
   Forall (fun target =>
             plain_name (target ++ "." ++ PX4_VERSION ++ "." ++ version
                         ++ ".px4") = true) targets) ->
  tidy writes_in_place (fun _ => True) (main p px ws version targets).
Proof.
  intros Hnames. unfold Build.main.
  tidy_step tidy_makedirs; [reflexivity|].
  tidy_step tidy_clone_pymavlink.
  tidy_step tidy_clone_px4_rec.
  tidy_step tidy_install_dependencies.
  cbv zeta. tidy_step tidy_main_inject.
  apply tidy_bind with (Q := fun _ => True).
  { destruct p; [apply tidy_build_pymavlink|now apply tidy_ret]. }
  intros _ _. destruct px; [|now apply tidy_ret].
  now apply tidy_build_px4, Hnames.
Qed.

End Tidy.

(** C7, as the script has it.  The files [main] opens for writing are the
    three markers of the workspace, [.px4-patched], [.pymavlink-patched] and
    [.mavlink-commited] (spelled so), each an entry of the workspace
    directory.  In a file system, where every entry has a plain name and
    the external programs leave it so, and when the name of each image is a
    plain file name, whatever else [main] itself writes or removes is in a
    checkout or is the workspace as a whole or is an entry of the output
    directory, which is the one directory it creates. *)
Theorem persisted_state_layout p px ws version targets w :
  names_plain (fs w) = true ->
  (forall c w', names_plain (fs w') = true ->
                names_plain (fs (after (run_process c w'))) = true) ->
  (px = true ->
   Forall (fun target =>
             plain_name (target ++ "." ++ PX4_VERSION ++ "." ++ version
                         ++ ".px4") = true) targets) ->
  all_ops writes_in_place (res_trace (main p px ws version targets w))
  /\ resolve px4_patch_file = (resolve BUILD_DIR ++ [".px4-patched"])%list
  /\ resolve pymavlink_patch_file =
     (resolve BUILD_DIR ++ [".pymavlink-patched"])%list
  /\ resolve mavlink_commit_file =
     (resolve BUILD_DIR ++ [".mavlink-commited"])%list.
Proof.
  intros Hw Hprograms Hnames.
  split; [|repeat split; now apply resolve_marker].
  now apply (tidy_main Hprograms p px ws version targets Hnames w Hw).
Qed.

(** ** [build_px4] *)

Lemma build_px4_straight targets version w :
  build_px4 targets version w = perform_all (build_px4_ops targets version) w.
Proof.
  unfold Build.build_px4, Straight.build_px4_ops, Straight.perform_all.
  cbn [for_each]. apply bind_cong. intros _ w1 _ _. clear w.
  revert w1. induction targets as [|target targets IH]; intros w.
  - reflexivity.
  - cbn [for_each flat_map app]. rewrite bind_assoc.
    apply bind_cong. intros _ w1 _ _. apply bind_cong. intros _ w2 _ _.
    apply IH.
Qed.

(** The loop taken through a list in two parts. *)
Lemma for_each_app {A} (xs ys : list A) (body : A -> M Ext unit) w :
  for_each (xs ++ ys) body w = (for_each xs body ;; for_each ys body) w.
Proof.
  revert w. induction xs as [|x xs IH]; intros w; cbn [app for_each].
  - now rewrite bind_ret.
  - rewrite bind_assoc. apply bind_cong. intros _ w1 _ _. apply IH.
Qed.

Lemma build_px4_app (xs ys : list string) version w :
  build_px4 (xs ++ ys) version w =
  (build_px4 xs version ;;
   for_each ys (fun target =>
     check_call (make target) ;;
     shutil_copyfile (px4_image target)
                     (Build.px4_artifact THIS_DIR PX4_VERSION target version))) w.
Proof.
  unfold Build.build_px4. rewrite bind_assoc.
  apply bind_cong. intros _ w1 _ _. apply for_each_app.
Qed.

(** [build_px4] with one target more: the run so far, [make], the copy. *)
Lemma build_px4_snoc (taken : list string) (target version : string) w :
  build_px4 (taken ++ [target]) version w =
  ((build_px4 taken version ;; check_call (make target)) ;;
   shutil_copyfile (px4_image target)
                   (Build.px4_artifact THIS_DIR PX4_VERSION target version)) w.
Proof.
  rewrite build_px4_app, bind_assoc. apply bind_cong. intros _ w1 _ _.
  cbn [for_each]. rewrite bind_assoc. apply bind_cong. intros _ w2 _ _.
  apply bind_ret_tt.
Qed.

(** A copy that returned has put the content of the source at the
    destination. *)
Lemma copyfile_ok (src dst : string) (t t' : node) :
  copyfile_fs src dst t = (Ok tt, t') ->
  exists content,
    lookup (resolve src) t = Some (File content)
    /\ lookup (resolve dst) t' = Some (File content).
Proof.
  unfold copyfile_fs.
  destruct (lookup (resolve src) t) as [[content|es]|]; try discriminate;
    destruct (list_eq_dec string_dec (resolve src) (resolve dst));
    try discriminate.
  intros H. apply write_fs_ok in H. now exists content.
Qed.

(** C8, as the script has it.  [build_px4] is the straight run of its
    operations, up to the first that raises: the announcement, then for each
    target, in the order of the list, [make] and the copy of the image to
    [os.path.join(DIST_DIR, name)], where [name] is made of the target, the
    firmware version and the [version] argument.  When the name of an image
    is a plain file name and the run has got past its copy, the image as
    [make] left it is the entry of that name in the output directory. *)
Theorem build_px4_in_order targets version w :
  let name target :=
    target ++ "." ++ PX4_VERSION ++ "." ++ version ++ ".px4" in
  let ops :=
    Print "--- Building PX4 firmware"
    :: flat_map (fun target =>
         [CheckCall (make target);
          Copyfile (px4_image target) (join DIST_DIR (name target))])
         targets in
  let r := build_px4 targets version w in
  r = perform_all ops w
  /\ ((res_out r = Ok tt /\ res_trace r = map done ops)
      \/ (exists pre o post e,
            ops = (pre ++ o :: post)%list
            /\ res_out r = Raised e
            /\ res_trace r = (map done pre ++ [failed o])%list))
  /\ (forall taken target rest,
        targets = (taken ++ target :: rest)%list ->
        plain_name (name target) = true ->
        let made := (build_px4 taken version ;; check_call (make target)) w in
        let copied := build_px4 (taken ++ [target]) version w in
        res_out copied = Ok tt ->
        exists image,
          lookup (resolve (px4_image target)) (fs (res_world made))
          = Some (File image)
          /\ lookup (resolve DIST_DIR ++ [name target]) (fs (res_world copied))
             = Some (File image)
          /\ ext (res_world copied) = ext (res_world made))
  /\ (forall taken rest,
        targets = (taken ++ rest)%list ->
        res_out r = Ok tt ->
        res_out (build_px4 taken version w) = Ok tt).
Proof.
  intros name ops r. split; [apply build_px4_straight|]. split.
  { unfold r. rewrite build_px4_straight. apply perform_all_trace. }
  split.
  - intros taken target rest _ Hname. cbv zeta. rewrite build_px4_snoc.
    set (made := (build_px4 taken version ;; check_call (make target))).
    unfold bind. clearbody made.
    destruct (made w) as [[[]|e] w1 t1]; cbn [res_out res_world];
      [|intros H; discriminate H].
    unfold shutil_copyfile, fs_op, Build.px4_artifact. fold (name target).
    destruct (copyfile_fs (px4_image target) (join DIST_DIR (name target))
                (fs w1)) as [[[]|e] t'] eqn:E;
      cbn [res_out res_world fs ext]; [|intros H; discriminate H].
    intros _. apply copyfile_ok in E as (image & Hsrc & Hdst).
    exists image. rewrite resolve_join in Hdst by assumption. now repeat split.
  - intros taken rest -> Hok. unfold r in Hok.
    rewrite build_px4_app in Hok. unfold bind in Hok.
    destruct (build_px4 taken version w) as [[[]|e] w1 t1];
      [reflexivity|discriminate].
Qed.

(** ** The message definitions of the codec generator *)

Lemma resolve_pymavlink_definitions :
  resolve pymavlink_definitions =
  (resolve PYMAVLINK_DIR ++ ["message_definitions"; "v1.0"])%list.
Proof. unfold Build.pymavlink_definitions. now apply resolve_join_all. Qed.

(** The firmware's definitions and the codec generator's lie on two
    branches of the workspace. *)
Lemma definitions_diverge :
  exists c a b p q,
    a <> b
    /\ resolve message_definitions_dir = (c ++ a :: p)%list
    /\ resolve pymavlink_definitions = (c ++ b :: q)%list.
Proof.
  rewrite resolve_pymavlink_definitions.
  unfold Build.message_definitions_dir, Build.PYMAVLINK_DIR.
  destruct (str_lt PX4_VERSION "v1.13.0").
  - exists (resolve BUILD_DIR), "PX4-Autopilot", "pymavlink",
      ["mavlink"; "include"; "mavlink"; "v2.0"; "message_definitions"],
      ["message_definitions"; "v1.0"].
    rewrite resolve_join_all, resolve_join, resolve_PX4_DIR by reflexivity.
    rewrite <- !app_assoc.
    split; [discriminate|split; reflexivity].
  - exists (resolve BUILD_DIR
            ++ ["PX4-Autopilot"; "src"; "modules"; "mavlink"; "mavlink"])%list,
      "message_definitions", "pymavlink", ["v1.0"],
      ["message_definitions"; "v1.0"].
    rewrite !resolve_join_all, resolve_PX4_DIR by reflexivity.
    rewrite <- !app_assoc.
    split; [discriminate|split; reflexivity].
Qed.

Lemma rmtree_quiet (p : string) w :
  shutil_rmtree p true w =
  mkResult (Ok tt) (mkWorld (snd (rmtree_fs p true (fs w))) (ext w))
           [done (Rmtree p true)].
Proof.
  unfold shutil_rmtree, fs_op, rmtree_fs.
  destruct (resolve p) as [|c rp].
  - now destruct (fs w).
  - now destruct (lookup (c :: rp) (fs w)) as [[|]|].
Qed.

(** The quiet removal of the codec generator's definitions leaves the
    firmware's definitions as they are. *)
Lemma rmtree_keeps_definitions (t : node) :
  lookup (resolve message_definitions_dir)
         (snd (rmtree_fs pymavlink_definitions true t))
  = lookup (resolve message_definitions_dir) t.
Proof.
  destruct definitions_diverge as (c & a & b & p & q & Hab & Hsrc & Hdst).
  unfold rmtree_fs. rewrite Hdst, Hsrc.
  destruct (c ++ b :: q)%list as [|x l] eqn:E; [now destruct c|].
  rewrite <- E. clear E.
  destruct (lookup (c ++ b :: q) t) as [[|]|]; cbn [snd]; try reflexivity.
  now apply lookup_remove_diverge.
Qed.

Lemma copytree_ok (src dst : string) (t t' : node) :
  copytree_fs src dst t = (Ok tt, t') ->
  exists es, lookup (resolve src) t = Some (Dir es)
             /\ lookup (resolve dst) t' = Some (Dir es).
Proof.
  unfold copytree_fs.
  destruct (lookup (resolve src) t) as [[|es]|]; try discriminate.
  destruct (lookup (resolve dst) t); [discriminate|].
  destruct (mkdirs (resolve dst) t) as [t1|]; [|discriminate].
  destruct (put (resolve dst) (Dir es) t1) as [t2|] eqn:E; [|discriminate].
  intros H. inversion H; subst. exists es. split; [reflexivity|].
  eapply lookup_put_same; eassumption.
Qed.

(** A tree can be copied to a place where nothing is, when no file lies
    on the way there. *)
Lemma copytree_returns (src dst : string) (t : node) es :
  lookup (resolve src) t = Some (Dir es) ->
  lookup (resolve dst) t = None ->
  resolve dst <> [] ->
  (forall q r, resolve dst = (q ++ r)%list -> is_file (lookup q t) = false) ->
  exists t', copytree_fs src dst t = (Ok tt, t').
Proof.
  intros Hsrc Hdst Hne Hway. unfold copytree_fs. rewrite Hsrc, Hdst.
  destruct (mkdirs_some _ _ Hway) as [t1 Ht1]. rewrite Ht1.
  destruct (put_below_directory (resolve dst) (Dir es) t1 Hne) as [t2 Ht2].
  - apply mkdirs_is_dir in Ht1.
    destruct (exists_last Hne) as (q & c & E). rewrite E in *.
    rewrite removelast_last.
    destruct (lookup (q ++ [c]) t1) as [x|] eqn:El; [|discriminate].
    now apply lookup_parent in El.
  - rewrite Ht2. eauto.
Qed.

Lemma build_pymavlink_copy_run (mdir : string) w :
  build_pymavlink_copy mdir w =
  preceded [done (Print "--- Copying message definitions");
            done (Rmtree pymavlink_definitions true)]
    (shutil_copytree mdir pymavlink_definitions
       (mkWorld (snd (rmtree_fs pymavlink_definitions true (fs w))) (ext w))).
Proof.
  unfold Build.build_pymavlink_copy, print2. rewrite print_then.
  erewrite bind_ok by apply rmtree_quiet. reflexivity.
Qed.

(** C10.  The copy of the message definitions is not guarded by a marker:
    whatever the world, [build_pymavlink] performs it once its patch step
    has returned.  The step removes the codec generator's
    [message_definitions/v1.0], quietly, and copies the firmware's
    definitions to that place.  Where the firmware's definitions are a
    directory and no file lies on the way to the codec generator's, the
    step returns, whatever the codec generator held there before, and the
    codec generator's definitions are then the firmware's as they were when
    the step started. *)
Theorem definitions_copied_every_run (mdir : string) w :
  build_pymavlink_copy mdir w =
  preceded [done (Print "--- Copying message definitions");
            done (Rmtree pymavlink_definitions true)]
    (shutil_copytree mdir pymavlink_definitions
       (mkWorld (snd (rmtree_fs pymavlink_definitions true (fs w))) (ext w)))
  /\ (forall bell wireshark,
        build_pymavlink mdir bell wireshark w =
        preceded [done (Print "--- Generating pymavlink package")]
          ((build_pymavlink_patch ;;
            build_pymavlink_copy mdir ;;
            print2 Ext "Building package" ;;
            check_call (setup_py THIS_DIR PX4_VERSION sys_executable) ;;
            filenames <- os_listdir (join PYMAVLINK_DIR "dist") ;;
            for_each filenames (fun filename =>
              shutil_copyfile (join (join PYMAVLINK_DIR "dist") filename)
                              (join DIST_DIR filename)) ;;
            if wireshark then
              print2 Ext "Building wireshark plugin" ;;
              check_call (mavgen_wlua THIS_DIR PX4_VERSION sys_executable bell)
            else ret tt) w))
  /\ (forall es,
        lookup (resolve message_definitions_dir) (fs w) = Some (Dir es) ->
        (forall q r,
           resolve pymavlink_definitions = (q ++ r)%list ->
           is_file (lookup q (fs w)) = false) ->
        let r := build_pymavlink_copy message_definitions_dir w in
        res_out r = Ok tt
        /\ res_trace r =
           [done (Print "--- Copying message definitions");
            done (Rmtree pymavlink_definitions true);
            done (Copytree message_definitions_dir pymavlink_definitions)]
        /\ lookup (resolve pymavlink_definitions) (fs (res_world r))
           = Some (Dir es)
        /\ ext (res_world r) = ext w)
  /\ (forall w1 t1,
        build_pymavlink_copy message_definitions_dir w = mkResult (Ok tt) w1 t1 ->
        exists es,
          lookup (resolve message_definitions_dir) (fs w) = Some (Dir es)
          /\ lookup (resolve pymavlink_definitions) (fs w1) = Some (Dir es)).
Proof.
  split; [apply build_pymavlink_copy_run|]. split; [reflexivity|]. split.
  - intros es Hsrc Hway r. unfold r. clear r.
    rewrite build_pymavlink_copy_run.
    set (t1 := snd (rmtree_fs pymavlink_definitions true (fs w))).
    assert (Hsrc1 : lookup (resolve message_definitions_dir) t1 = Some (Dir es)).
    { unfold t1. now rewrite rmtree_keeps_definitions. }
    assert (Hne : resolve pymavlink_definitions <> []).
    { rewrite resolve_pymavlink_definitions.
      now destruct (resolve PYMAVLINK_DIR). }
    assert (Hdst1 : lookup (resolve pymavlink_definitions) t1 = None
                    /\ forall q r,
                         resolve pymavlink_definitions = (q ++ r)%list ->
                         is_file (lookup q t1) = false).
    { unfold t1, rmtree_fs.
      pose proof (Hway (resolve pymavlink_definitions) []
                    (eq_sym (app_nil_r _))) as Hnofile.
      destruct (resolve pymavlink_definitions) as [|c rp] eqn:E; [easy|].
      rewrite <- E in *.
      destruct (lookup (resolve pymavlink_definitions) (fs w))
        as [[|es0]|] eqn:El; cbn [snd]; try discriminate.
      - split.
        + rewrite <- (app_nil_r (resolve pymavlink_definitions)) at 1.
          now apply lookup_remove_under.
        + intros q r Hq. specialize (Hway q r Hq).
          destruct (is_file (lookup q (remove (resolve pymavlink_definitions)
                                         (fs w)))) eqn:Hf; [|reflexivity].
          apply is_file_remove in Hf. congruence.
      - now split. }
    destruct Hdst1 as [Hdst1 Hway1].
    destruct (copytree_returns message_definitions_dir pymavlink_definitions
                t1 es Hsrc1 Hdst1 Hne Hway1) as (t2 & Hcopy).
    unfold preceded, shutil_copytree, fs_op. cbn [fs ext]. rewrite Hcopy.
    cbn [res_out res_world res_trace fs ext app].
    apply copytree_ok in Hcopy as (es' & Hs & Hd).
    rewrite Hsrc1 in Hs. inversion Hs; subst. now repeat split.
  - intros w1 t1. rewrite build_pymavlink_copy_run.
    unfold preceded, shutil_copytree, fs_op. cbn [fs ext].
    destruct (copytree_fs message_definitions_dir pymavlink_definitions
                (snd (rmtree_fs pymavlink_definitions true (fs w))))
      as [[[]|e] t'] eqn:E;
      cbn [res_out res_world res_trace]; intros H; inversion H; subst.
    apply copytree_ok in E as (es & Hsrc & Hdst).
    rewrite rmtree_keeps_definitions in Hsrc. now exists es.
Qed.

End Script.
End BuildFacts.


(** * The statements on the workspace at [/repo] *)

Module Runs.
Import PyStr Path FS Sys Build Straight Scenario Cases.
Import PlainFacts BuildFacts.

(** A stale checkout is removed and cloned again. *)
Lemma clone_px4_mismatch_reclones_run :
  resolve (BUILD_DIR "/repo" "v1.12.1") <> []
  /\ is_dir (lookup (resolve (PX4_DIR "/repo" "v1.12.1")) (fs stale)) = true
  /\ local_versions (stdout (tools (git_remote_show "/repo" "v1.12.1") stale))
     = ["v1.12.0"]
  /\ (forall q,
        lookup (resolve (BUILD_DIR "/repo" "v1.12.1") ++ q)
               (remove (resolve (BUILD_DIR "/repo" "v1.12.1")) (fs stale))
        = None).
Proof.
  assert (H1 : resolve (BUILD_DIR "/repo" "v1.12.1") <> [])
    by (vm_compute; discriminate).
  assert (H2 : is_dir (lookup (resolve (PX4_DIR "/repo" "v1.12.1")) (fs stale))
               = true) by (vm_compute; reflexivity).
  assert (H3 : exit_ok (tools (git_remote_show "/repo" "v1.12.1") stale) = true)
    by (vm_compute; reflexivity).
  assert (H4 : is_dir (lookup (resolve (BUILD_DIR "/repo" "v1.12.1"))
                 (fs (after (tools (git_remote_show "/repo" "v1.12.1") stale))))
               = true) by (vm_compute; reflexivity).
  assert (H5 : local_versions
                 (stdout (tools (git_remote_show "/repo" "v1.12.1") stale))
               = ["v1.12.0"]) by (vm_compute; reflexivity).
  split; [exact H1|split; [exact H2|split; [exact H5|]]].
  exact (proj1 (clone_px4_mismatch_reclones "/repo" "v1.12.1" string tools
                  stale "v1.12.0" [] H1 H2 H3 H4 H5)).
Defined.

(** An existing codec generator checkout is pulled. *)
Lemma clone_pymavlink_updates_in_place_run :
  str_lt "v1.12.1" "v1.13.0" = true
  /\ is_dir (lookup (resolve (PYMAVLINK_DIR "/repo" "v1.12.1"))
                    (fs with_pymavlink)) = true
  /\ res_trace (clone_pymavlink "/repo" "v1.12.1" string tools with_pymavlink)
     = [done (Print "--- Updating pymavlink");
        Ev (CheckCall (git_pull "/repo" "v1.12.1"))
           (exit_ok (tools (git_pull "/repo" "v1.12.1") with_pymavlink))].
Proof.
  assert (H1 : str_lt "v1.12.1" "v1.13.0" = true) by (vm_compute; reflexivity).
  assert (H2 : is_dir (lookup (resolve (PYMAVLINK_DIR "/repo" "v1.12.1"))
                              (fs with_pymavlink)) = true)
    by (vm_compute; reflexivity).
  split; [exact H1|split; [exact H2|]].
  exact (f_equal res_trace
           (proj1 (clone_pymavlink_updates_in_place "/repo" "v1.12.1" string
                     tools with_pymavlink H1 H2))).
Defined.



(** The marker of the firmware patch is created after the patch has been
    applied, and not when the patch does not apply. *)
Lemma marker_after_success_run :
  res_trace (clone_px4_patch "/repo" "v1.12.1" string tools checked_out)
  = (map done [Print "--- Applying PX4 patch";
               CheckCall (git_apply_px4 "/repo" "v1.12.1")]
     ++ [done (OpenW (px4_patch_file "/repo" "v1.12.1"))])%list
  /\ ~ In (done (OpenW (px4_patch_file "/repo" "v1.12.1")))
          (res_trace (clone_px4_patch "/repo" "v1.12.1" string tools_conflict
                        checked_out)).
Proof.
  assert (H1 : In (done (OpenW (px4_patch_file "/repo" "v1.12.1")))
                  (res_trace (clone_px4_patch "/repo" "v1.12.1" string tools
                                checked_out))).
  { vm_compute. right. right. left. reflexivity. }
  assert (H2 : In (failed (CheckCall (git_apply_px4 "/repo" "v1.12.1")))
                  (res_trace (clone_px4_patch "/repo" "v1.12.1" string
                                tools_conflict checked_out))).
  { vm_compute. right. left. reflexivity. }
  assert (H3 : CheckCall (git_apply_px4 "/repo" "v1.12.1")
               <> OpenW (px4_patch_file "/repo" "v1.12.1")) by discriminate.
  split.
  - exact (proj1 (proj1 (marker_after_success "/repo" "v1.12.1" "python3"
                           string tools checked_out)) true H1).
  - exact (proj2 (proj1 (marker_after_success "/repo" "v1.12.1" "python3"
                           string tools_conflict checked_out)) _ H2 H3 true).
Defined.

(** The version is read off the line of the reference; without such a
    line [clone_px4] stops with [StopIteration]. *)
Lemma local_version_probe_run :
  hd_error (local_versions (remote_show "v1.12.0"))
  = Some (last_item (split sep "    refs/tags/v1.12.0"))
  /\ clone_px4 "/repo" "v1.12.1" string tools_no_ref (cloned "v1.12.1")
     = mkResult (Raised StopIteration)
         (after (tools_no_ref (git_remote_show "/repo" "v1.12.1")
                   (cloned "v1.12.1")))
         [done (CheckOutput (git_remote_show "/repo" "v1.12.1"))].
Proof.
  assert (H1 : splitlines (remote_show "v1.12.0")
               = (["* remote origin";
                   "  Fetch URL: https://github.com/PX4/PX4-Autopilot";
                   "  Push  URL: https://github.com/PX4/PX4-Autopilot";
                   "  HEAD branch: (not queried)";
                   "  Remote branch: (status not queried)"]
                  ++ "    refs/tags/v1.12.0" :: [])%list)
    by (vm_compute; reflexivity).
  assert (H2 : Forall (fun l => startswith (strip l) "refs" = false)
                 ["* remote origin";
                  "  Fetch URL: https://github.com/PX4/PX4-Autopilot";
                  "  Push  URL: https://github.com/PX4/PX4-Autopilot";
                  "  HEAD branch: (not queried)";
                  "  Remote branch: (status not queried)"])
    by (repeat constructor).
  assert (H3 : startswith (strip "    refs/tags/v1.12.0") "refs" = true)
    by (vm_compute; reflexivity).
  assert (H4 : Forall (fun l => startswith (strip l) "refs" = false)
                 (splitlines ("* remote origin" ++ String "010" "")))
    by (repeat constructor).
  assert (H5 : is_dir (lookup (resolve (PX4_DIR "/repo" "v1.12.1"))
                              (fs (cloned "v1.12.1"))) = true)
    by (vm_compute; reflexivity).
  assert (H6 : exit_ok (tools_no_ref (git_remote_show "/repo" "v1.12.1")
                          (cloned "v1.12.1")) = true)
    by (vm_compute; reflexivity).
  assert (H7 : stdout (tools_no_ref (git_remote_show "/repo" "v1.12.1")
                         (cloned "v1.12.1"))
               = "* remote origin" ++ String "010" "")
    by (vm_compute; reflexivity).
  split.
  - exact (proj1 (proj1 (local_version_probe "/repo" "v1.12.1" string tools
                           (remote_show "v1.12.0")) _ _ _ H1 H2 H3)).
  - exact (proj2 (proj2 (local_version_probe "/repo" "v1.12.1" string
                           tools_no_ref ("* remote origin" ++ String "010" ""))
                    H4) (cloned "v1.12.1") H5 H6 H7).
Defined.

(** A build after the firmware's definitions have changed: the codec
    generator holds the definitions of the build before; the step returns
    and the codec generator then holds the firmware's. *)
Lemma definitions_copied_every_run_run :
  exists es,
    lookup (resolve (message_definitions_dir "/repo" "v1.12.1"))
           (fs definitions_changed) = Some (Dir es)
    /\ is_dir (lookup (resolve (pymavlink_definitions "/repo" "v1.12.1"))
                      (fs definitions_changed)) = true
    /\ lookup (resolve (pymavlink_definitions "/repo" "v1.12.1"))
              (fs definitions_changed) <> Some (Dir es)
    /\ res_out (build_pymavlink_copy "/repo" "v1.12.1" string
                  (message_definitions_dir "/repo" "v1.12.1")
                  definitions_changed) = Ok tt
    /\ res_trace (build_pymavlink_copy "/repo" "v1.12.1" string
                    (message_definitions_dir "/repo" "v1.12.1")
                    definitions_changed)
       = [done (Print "--- Copying message definitions");
          done (Rmtree (pymavlink_definitions "/repo" "v1.12.1") true);
          done (Copytree (message_definitions_dir "/repo" "v1.12.1")
                         (pymavlink_definitions "/repo" "v1.12.1"))]
    /\ lookup (resolve (pymavlink_definitions "/repo" "v1.12.1"))
              (fs (res_world
                     (build_pymavlink_copy "/repo" "v1.12.1" string
                        (message_definitions_dir "/repo" "v1.12.1")
                        definitions_changed)))
       = Some (Dir es)
    /\ ext (res_world
              (build_pymavlink_copy "/repo" "v1.12.1" string
                 (message_definitions_dir "/repo" "v1.12.1")
                 definitions_changed))
       = ext definitions_changed.
Proof.
  pose (es := match lookup (resolve (message_definitions_dir "/repo" "v1.12.1"))
                      (fs definitions_changed) with
              | Some (Dir es) => es
              | _ => []
              end).
  assert (H1 : lookup (resolve (message_definitions_dir "/repo" "v1.12.1"))
                      (fs definitions_changed) = Some (Dir es))
    by (vm_compute; reflexivity).
  assert (H2 : forall q r,
             resolve (pymavlink_definitions "/repo" "v1.12.1") = (q ++ r)%list ->
             is_file (lookup q (fs definitions_changed)) = false).
  { assert (Hr : resolve (pymavlink_definitions "/repo" "v1.12.1")
                 = ["repo"; "build"; "v1.12.1"; "pymavlink";
                    "message_definitions"; "v1.0"])
      by (vm_compute; reflexivity).
    rewrite Hr. intros q r H.
    repeat (destruct q as [|? q];
            [vm_compute; reflexivity
            |cbn [app] in H; first [discriminate H|injection H as <- H]]). }
  assert (H3 : is_dir (lookup (resolve (pymavlink_definitions "/repo" "v1.12.1"))
                              (fs definitions_changed)) = true)
    by (vm_compute; reflexivity).
  assert (H4 : lookup (resolve (pymavlink_definitions "/repo" "v1.12.1"))
                      (fs definitions_changed) <> Some (Dir es)).
  { intros H. vm_compute in H. discriminate H. }
  exists es.
  exact (conj H1 (conj H3 (conj H4
           (proj1 (proj2 (proj2
              (definitions_copied_every_run "/repo" "v1.12.1" "python3"
                 string tools (message_definitions_dir "/repo" "v1.12.1")
                 definitions_changed)))
              es H1 H2)))).
Defined.

(** The two layouts, and a tag the string order puts on the wrong side. *)
Example layout_of_versions :
  PYMAVLINK_DIR "/repo" "v1.12.0" = "/repo/build/v1.12.0/pymavlink"
  /\ PYMAVLINK_DIR "/repo" "v1.13.0"
     = "/repo/build/v1.13.0/PX4-Autopilot/src/modules/mavlink/mavlink/pymavlink"
  /\ str_lt "v1.9.0" "v1.13.0" = false.
Proof. repeat split. Qed.

(** A second run for the same version patches nothing, commits nothing,
    removes no workspace and clones nothing. *)
Example second_run_is_quiet :
  let again :=
    main "/repo" "v1.12.1" "python3" string tools true true false "abc"
         ["px4_fmu-v5x_default"] (built "v1.12.1") in
  res_out again = Ok tt
  /\ opened (res_trace again) = []
  /\ forallb (fun e => match ev_op e with
                       | Rmtree _ ignore_errors => ignore_errors
                       | CheckCall c => negb (is_git_clone c)
                       | _ => true
                       end) (res_trace again)
     = true.
Proof. vm_compute. repeat split. Qed.

(** Two targets: the image of the second, as [make] left it, is in the
    output directory under its name. *)
Lemma build_px4_in_order_run :
  exists image,
    lookup (resolve (px4_image "/repo" "v1.13.0" "px4_sitl_default"))
           (fs (res_world
                  ((build_px4 "/repo" "v1.13.0" string tools
                      ["px4_fmu-v5x_default"] "abc" ;;
                    check_call tools (make "/repo" "v1.13.0" "px4_sitl_default"))
                     (prepared "v1.13.0"))))
    = Some (File image)
    /\ lookup (resolve (DIST_DIR "/repo")
               ++ ["px4_sitl_default.v1.13.0.abc.px4"])
              (fs (res_world
                     (build_px4 "/repo" "v1.13.0" string tools
                        (["px4_fmu-v5x_default"] ++ ["px4_sitl_default"])
                        "abc" (prepared "v1.13.0"))))
       = Some (File image)
    /\ ext (res_world
              (build_px4 "/repo" "v1.13.0" string tools
                 (["px4_fmu-v5x_default"] ++ ["px4_sitl_default"])
                 "abc" (prepared "v1.13.0")))
       = ext (res_world
                ((build_px4 "/repo" "v1.13.0" string tools
                    ["px4_fmu-v5x_default"] "abc" ;;
                  check_call tools (make "/repo" "v1.13.0" "px4_sitl_default"))
                   (prepared "v1.13.0"))).
Proof.
  assert (H1 : plain_name ("px4_sitl_default" ++ "." ++ "v1.13.0" ++ "."
                           ++ "abc" ++ ".px4") = true)
    by (vm_compute; reflexivity).
  assert (H2 : res_out
                 (build_px4 "/repo" "v1.13.0" string tools
                    (["px4_fmu-v5x_default"] ++ ["px4_sitl_default"])
                    "abc" (prepared "v1.13.0")) = Ok tt)
    by (vm_compute; reflexivity).
  exact (proj1 (proj2 (proj2
                  (build_px4_in_order "/repo" "v1.13.0" string tools
                     ["px4_fmu-v5x_default"; "px4_sitl_default"] "abc"
                     (prepared "v1.13.0"))))
           ["px4_fmu-v5x_default"] "px4_sitl_default" [] eq_refl H1 H2).
Defined.

(** C8 as the specification words it does not hold for every target list.
    The image of a target that starts with a separator is copied to
    [os.path.join(DIST_DIR, name)], which is [name] itself: the run returns,
    the image is in [/etc], and the output directory is as empty as it
    was. *)
Lemma absolute_target_leaves_output_directory :
  res_out (build_px4 "/repo" "v1.13.0" string tools ["/etc/x"] "abc"
             (prepared "v1.13.0")) = Ok tt
  /\ lookup ["repo"; "dist"] (fs (prepared "v1.13.0")) = Some (Dir [])
  /\ lookup ["repo"; "dist"]
            (fs (res_world
                   (build_px4 "/repo" "v1.13.0" string tools ["/etc/x"] "abc"
                      (prepared "v1.13.0")))) = Some (Dir [])
  /\ lookup ["etc"; "x.v1.13.0.abc.px4"]
            (fs (res_world
                   (build_px4 "/repo" "v1.13.0" string tools ["/etc/x"] "abc"
                      (prepared "v1.13.0")))) = Some (File "image")
  /\ res_trace (build_px4 "/repo" "v1.13.0" string tools ["/etc/x"] "abc"
                  (prepared "v1.13.0"))
     = [done (Print "--- Building PX4 firmware");
        done (CheckCall (make "/repo" "v1.13.0" "/etc/x"));
        done (Copyfile "/etc/x.px4" "/etc/x.v1.13.0.abc.px4")].
Proof. vm_compute. repeat split. Qed.

(** The stand-in programs make directories and files at paths read as
    text: they leave the names plain. *)
Lemma names_plain_make_dir (dir : string) (t : node) :
  names_plain t = true -> names_plain (make_dir dir t) = true.
Proof.
  intros H. unfold make_dir. destruct (mkdirs (resolve dir) t) eqn:E;
    [|assumption].
  now apply (names_plain_mkdirs _ _ _ (resolve_plain dir) H E).
Qed.

Lemma names_plain_make_file (dir : string) (names : list string)
    (content : string) (t : node) :
  names_plain t = true -> names_plain (make_file dir names content t) = true.
Proof.
  intros H. unfold make_file. now apply names_plain_write, names_plain_make_dir.
Qed.

Lemma tools_tidy (apply_ok : bool) (c : Cmd) (w : World string) :
  names_plain (fs w) = true ->
  names_plain (fs (after (tools_with apply_ok c w))) = true.
Proof.
  intros H. unfold tools_with, px4_tree.
  destruct (argv c)
    as [|a1 [|a2 [|a3 [|a4 [|a5 [|a6 [|a7 [|a8 [|a9 [|a10 l]]]]]]]]]];
    cbv beta iota;
    repeat match goal with
           | |- context [if ?b then _ else _] => destruct b
           | |- context [match cwd c with Some _ => _ | None => _ end] =>
               destruct (cwd c)
           end;
    cbn [after fs ext];
    repeat first [assumption
                 |apply names_plain_make_dir
                 |apply names_plain_make_file].
Qed.

(** A whole run for v1.13.0 that builds the codec package and one image. *)
Lemma persisted_state_layout_run :
  all_ops (writes_in_place "/repo" "v1.13.0")
    (res_trace
       (main "/repo" "v1.13.0" "python3" string tools true true false "abc"
          ["px4_fmu-v5x_default"] fresh))
  /\ resolve (px4_patch_file "/repo" "v1.13.0")
     = (resolve (BUILD_DIR "/repo" "v1.13.0") ++ [".px4-patched"])%list
  /\ resolve (pymavlink_patch_file "/repo" "v1.13.0")
     = (resolve (BUILD_DIR "/repo" "v1.13.0") ++ [".pymavlink-patched"])%list
  /\ resolve (mavlink_commit_file "/repo" "v1.13.0")
     = (resolve (BUILD_DIR "/repo" "v1.13.0") ++ [".mavlink-commited"])%list.
Proof.
  assert (H1 : names_plain (fs fresh) = true) by (vm_compute; reflexivity).
  assert (H2 : true = true ->
               Forall (fun target =>
                         plain_name (target ++ "." ++ "v1.13.0" ++ "." ++ "abc"
                                     ++ ".px4") = true)
                 ["px4_fmu-v5x_default"]).
  { intros _. constructor; [vm_compute; reflexivity|constructor]. }
  exact (persisted_state_layout "/repo" "v1.13.0" "python3" string tools
           true true false "abc" ["px4_fmu-v5x_default"] fresh
           H1 (tools_tidy true) H2).
Defined.

(** C7 as the specification words it does not hold.  A whole run of [main]
    creates [.mavlink-commited], and no [.mavlink-committed]; and the image
    of a target that starts with a separator is written where its name
    says, outside the workspace and outside the output directory. *)
Lemma commit_marker_and_absolute_target :
  ~ (forall f,
        In f (opened
                (res_trace
                   (main "/repo" "v1.13.0" "python3" string tools
                      true true false "abc" ["/etc/x"] fresh)))
        <-> In f ["/repo/build/v1.13.0/.px4-patched";
                  "/repo/build/v1.13.0/.pymavlink-patched";
                  "/repo/build/v1.13.0/.mavlink-committed"])
  /\ opened
       (res_trace
          (main "/repo" "v1.13.0" "python3" string tools
             true true false "abc" ["/etc/x"] fresh))
     = ["/repo/build/v1.13.0/.px4-patched";
        "/repo/build/v1.13.0/.mavlink-commited";
        "/repo/build/v1.13.0/.pymavlink-patched"]
  /\ res_out
       (main "/repo" "v1.13.0" "python3" string tools
          true true false "abc" ["/etc/x"] fresh) = Ok tt
  /\ lookup ["etc"; "x.v1.13.0.abc.px4"] (fs fresh) = None
  /\ lookup ["etc"; "x.v1.13.0.abc.px4"]
            (fs (res_world
                   (main "/repo" "v1.13.0" "python3" string tools
                      true true false "abc" ["/etc/x"] fresh)))
     = Some (File "image")
  /\ In (done (Copyfile "/etc/x.px4" "/etc/x.v1.13.0.abc.px4"))
        (res_trace
           (main "/repo" "v1.13.0" "python3" string tools
              true true false "abc" ["/etc/x"] fresh)).
Proof.
  assert (Ho : opened
                 (res_trace
                    (main "/repo" "v1.13.0" "python3" string tools
                       true true false "abc" ["/etc/x"] fresh))
               = ["/repo/build/v1.13.0/.px4-patched";
                  "/repo/build/v1.13.0/.mavlink-commited";
                  "/repo/build/v1.13.0/.pymavlink-patched"])
    by (vm_compute; reflexivity).
  split; [|split; [exact Ho|]].
  - intros H.
    destruct (H "/repo/build/v1.13.0/.mavlink-committed") as [_ Hin].
    rewrite Ho in Hin.
    assert (Hc : In "/repo/build/v1.13.0/.mavlink-committed"
                    ["/repo/build/v1.13.0/.px4-patched";
                     "/repo/build/v1.13.0/.mavlink-commited";
                     "/repo/build/v1.13.0/.pymavlink-patched"]).
    { apply Hin. right. right. left. reflexivity. }
    cbn [In] in Hc.
    repeat (destruct Hc as [Hc|Hc]; [discriminate Hc|]). exact Hc.
  - vm_compute. repeat split. repeat (try (left; reflexivity); right).
Qed.

End Runs.

(** * The walk of the operating system *)

Module OSPathFacts.
Import PyStr Path FS OSPath PathFacts FSFacts.

(** Where the walk arrives, the path read as text arrives too. *)
Lemma locate_lexical (comps : list string) :
  forall here t p,
    locate comps here t = Ok p -> p = fold_left walk comps here.
Proof.
  induction comps as [|c comps IH]; intros here t p H; cbn [locate] in H.
  - now inversion H.
  - cbn [fold_left]. unfold walk at 2.
    destruct (lookup here t) as [[|es]|]; try discriminate.
    destruct ((c =? "") || (c =? "."))%string; [now apply IH in H|].
    destruct (c =? "..")%string; now apply IH in H.
Qed.

Lemma locate_path_resolve (path : string) (t : node) p :
  locate_path path t = Ok p -> p = resolve path.
Proof.
  unfold locate_path, resolve. destruct (path =? "")%string; [discriminate|].
  apply locate_lexical.
Qed.

Lemma locate_app (xs ys : list string) :
  forall here t,
    locate (xs ++ ys) here t =
    match locate xs here t with
    | Ok q => locate ys q t
    | Raised e => Raised e
    end.
Proof.
  induction xs as [|c xs IH]; intros here t; cbn [app locate]; [reflexivity|].
  destruct (lookup here t) as [[|es]|]; try reflexivity.
  destruct ((c =? "") || (c =? "."))%string; [apply IH|].
  destruct (c =? "..")%string; apply IH.
Qed.

Lemma locate_plain (n : string) (here : list string) (t : node) :
  plain_name n = true -> is_dir (lookup here t) = true ->
  locate [n] here t = Ok (here ++ [n])%list.
Proof.
  intros Hn Hd. pose proof (walk_plain [] n Hn) as Hw. unfold walk in Hw.
  cbn [locate]. destruct (lookup here t) as [[|es]|]; try discriminate.
  destruct ((n =? "") || (n =? "."))%string; [discriminate|].
  destruct (n =? "..")%string; [discriminate|]. reflexivity.
Qed.

Lemma locate_again (here : list string) (t : node) p :
  locate [EmptyString] here t = Ok p -> p = here.
Proof.
  cbn [locate]. destruct (lookup here t) as [[|es]|]; try discriminate.
  cbn. now inversion 1.
Qed.

Lemma append_not_empty (a b : string) : b <> "" -> a ++ b <> "".
Proof. destruct a; [easy|discriminate]. Qed.

(** A plain name joined to a directory is walked to one level below it. *)
Lemma locate_join (directory n : string) (t : node) p :
  plain_name n = true ->
  locate_path directory t = Ok p ->
  is_dir (lookup p t) = true ->
  locate_path (join directory n) t = Ok (p ++ [n])%list.
Proof.
  intros Hn Hp Hd. pose proof (plain_name_split _ Hn) as (Hs & _ & Hst).
  assert (Hne : n <> "").
  { intros ->. discriminate. }
  unfold locate_path in Hp. unfold join. rewrite Hst.
  destruct (String.eqb_spec directory "") as [|Hdir]; [discriminate|].
  cbn [orb]. destruct (endswith directory "/") eqn:He.
  - destruct (endswith_sep _ He) as [a' ->].
    replace ((a' ++ "/") ++ n) with (a' ++ String sep n).
    2:{ clear. induction a'; simpl; [reflexivity|now f_equal]. }
    replace (a' ++ "/") with (a' ++ String sep "") in Hp by reflexivity.
    rewrite split_app_sep, locate_app in Hp.
    unfold locate_path.
    destruct (String.eqb_spec (a' ++ String sep n) "") as [E|_].
    { now apply append_not_empty in E. }
    rewrite split_app_sep, locate_app, Hs.
    destruct (locate (split sep a') [] t) as [q|]; [|discriminate].
    change (split sep "") with [EmptyString] in Hp.
    apply locate_again in Hp as ->. now apply locate_plain.
  - change (directory ++ "/" ++ n) with (directory ++ String sep n).
    unfold locate_path.
    destruct (String.eqb_spec (directory ++ String sep n) "") as [E|_].
    { now apply append_not_empty in E. }
    rewrite split_app_sep, locate_app, Hp, Hs. now apply locate_plain.
Qed.

(** A walk that arrives, arrives in a directory or at an entry of one. *)
Lemma locate_parent (comps : list string) :
  forall here t p,
    locate comps here t = Ok p ->
    comps = [] \/ is_dir (lookup p t) = true
    \/ is_dir (lookup (removelast p) t) = true.
Proof.
  induction comps as [|c comps IH]; intros here t p H; [now left|].
  right. cbn [locate] in H.
  destruct (lookup here t) as [[|es]|] eqn:Eh; try discriminate.
  assert (Hup : is_dir (lookup (removelast here) t) = true).
  { destruct here as [|a l _] using rev_ind; [cbn [removelast]; now rewrite Eh|].
    rewrite removelast_last. apply lookup_parent with (q := [a]) (x := Dir es);
      [discriminate|assumption]. }
  destruct ((c =? "") || (c =? "."))%string.
  { destruct (IH _ _ _ H) as [->|Hr]; [|assumption].
    cbn in H. inversion H; subst. left. now rewrite Eh. }
  destruct (c =? "..")%string.
  { destruct (IH _ _ _ H) as [->|Hr]; [|assumption].
    cbn in H. inversion H; subst. now left. }
  destruct (IH _ _ _ H) as [->|Hr]; [|assumption].
  cbn in H. inversion H; subst. right. now rewrite removelast_last, Eh.
Qed.

Lemma locate_path_parent (path : string) (t : node) p :
  locate_path path t = Ok p ->
  is_dir (lookup p t) = true \/ is_dir (lookup (removelast p) t) = true.
Proof.
  unfold locate_path. destruct (path =? "")%string; [discriminate|].
  intros H. destruct (locate_parent _ _ _ _ H) as [E|Hr]; [|assumption].
  now apply split_nonempty in E.
Qed.

End OSPathFacts.

(** * Properties of [clean_directory] *)

Module CleanFacts.
Import PyStr Path FS OSPath Clean PathFacts FSFacts OSPathFacts.

(** ** Unlinking a file *)

(** Unlinking a file leaves every directory a directory, and makes none. *)
Lemma is_dir_remove_file (q : list string) :
  forall (t : node) c x,
    lookup q t = Some (File c) ->
    is_dir (lookup x (remove q t)) = is_dir (lookup x t).
Proof.
  induction q as [|d q IH]; intros t c x H; [reflexivity|].
  destruct t as [|es]; [discriminate|]. cbn [lookup] in H.
  destruct (find_entry d es) as [y|] eqn:E; [|discriminate].
  destruct q as [|d' q].
  - cbn [lookup] in H. inversion H; subst. cbn [remove].
    destruct x as [|a x]; [reflexivity|]. cbn [lookup].
    destruct (String.eqb_spec d a) as [<-|Hda].
    + rewrite find_entry_remove_same, E. now destruct x.
    + now rewrite find_entry_remove_other.
  - cbn [remove]. rewrite E.
    destruct x as [|a x]; [reflexivity|]. cbn [lookup].
    destruct (String.eqb_spec d a) as [<-|Hda].
    + rewrite find_entry_set_same, E. now apply IH with (c := c).
    + now rewrite find_entry_set_other.
Qed.

Lemma locate_remove_file (q : list string) (t : node) c (comps : list string) :
  lookup q t = Some (File c) ->
  forall here p,
    locate comps here t = Ok p -> locate comps here (remove q t) = Ok p.
Proof.
  intros Hq. induction comps as [|a comps IH]; intros here p H;
    cbn [locate] in *; [assumption|].
  pose proof (is_dir_remove_file q t c here Hq) as Hd.
  destruct (lookup here t) as [[|es]|]; try discriminate.
  destruct (lookup here (remove q t)) as [[|es']|]; try discriminate.
  destruct ((a =? "") || (a =? "."))%string; [now apply IH|].
  destruct (a =? "..")%string; now apply IH.
Qed.

Lemma locate_path_remove_file (q : list string) (t : node) c path p :
  lookup q t = Some (File c) ->
  locate_path path t = Ok p -> locate_path path (remove q t) = Ok p.
Proof.
  intros Hq. unfold locate_path. destruct (path =? "")%string; [easy|].
  now apply locate_remove_file with (c := c).
Qed.

Lemma find_entry_in (n : string) (x : node) es :
  NoDup (map fst es) -> In (n, x) es -> find_entry n es = Some x.
Proof.
  induction es as [|[m y] es IH]; simpl; intros Hnd Hin; [easy|].
  inversion Hnd as [|? ? Hm Hnd']; subst.
  destruct Hin as [Heq|Hin].
  - inversion Heq; subst. now rewrite String.eqb_refl.
  - destruct (String.eqb_spec m n) as [->|_]; [|now apply IH].
    elim Hm. apply in_map_iff. now exists (n, x).
Qed.

Lemma find_entry_not_in (n : string) es :
  ~ In n (map fst es) -> find_entry n es = None.
Proof.
  induction es as [|[m y] es IH]; simpl; intros H; [reflexivity|].
  destruct (String.eqb_spec m n) as [->|_]; [elim H; now left|].
  apply IH. intros Hin. apply H. now right.
Qed.

Lemma lookup_child (p : list string) (n : string) (t : node) es :
  lookup p t = Some (Dir es) -> lookup (p ++ [n]) t = find_entry n es.
Proof.
  intros H. rewrite lookup_app, H. simpl. now destruct (find_entry n es).
Qed.

Lemma remove_below (c : string) (l : list string) es :
  l <> [] ->
  remove (c :: l) (Dir es) =
  match find_entry c es with
  | Some x => Dir (set_entry c (remove l x) es)
  | None => Dir es
  end.
Proof. destruct l; [easy|reflexivity]. Qed.

(** Unlinking an entry of a directory leaves the directory without it. *)
Lemma lookup_remove_child (p : list string) (n : string) (t : node) es :
  lookup p t = Some (Dir es) ->
  lookup p (remove (p ++ [n]) t) = Some (Dir (remove_entry n es)).
Proof.
  revert t. induction p as [|c p IH]; intros t H.
  - simpl in H. inversion H; subst. reflexivity.
  - simpl in H. destruct t as [|es0]; [discriminate|].
    destruct (find_entry c es0) as [x|] eqn:E; [|discriminate].
    change ((c :: p) ++ [n])%list with (c :: (p ++ [n]))%list.
    rewrite remove_below, E by now destruct p.
    cbn [lookup]. rewrite find_entry_set_same. now apply IH.
Qed.

Lemma os_remove_file (directory n : string) (t : node) p es c :
  plain_name n = true ->
  locate_path directory t = Ok p ->
  lookup p t = Some (Dir es) ->
  find_entry n es = Some (File c) ->
  os_remove (join directory n) t = (Ok tt, remove (p ++ [n]) t)
  /\ locate_path directory (remove (p ++ [n]) t) = Ok p
  /\ lookup p (remove (p ++ [n]) t) = Some (Dir (remove_entry n es)).
Proof.
  intros Hn Hp Hd Hf.
  assert (Hc : lookup (p ++ [n]) t = Some (File c)).
  { now rewrite (lookup_child _ n _ _ Hd). }
  repeat split.
  - unfold os_remove. rewrite (locate_join directory n t p Hn Hp)
      by now rewrite Hd.
    destruct (p ++ [n])%list as [|y l] eqn:E; [now destruct p|].
    now rewrite Hc.
  - now apply locate_path_remove_file with (c := c).
  - now apply lookup_remove_child.
Qed.

Lemma clean_each_no_endings (directory : string) (filenames : list string) t :
  clean_each directory [] filenames t = (Ok tt, t).
Proof. induction filenames as [|n ns IH]; simpl; [reflexivity|exact IH]. Qed.

(** The loop removes the listed entries that match, and those only. *)
Lemma clean_each_removes (directory : string) (file_endings : list string)
    (p : list string) (filenames : list string) :
  forall t es,
    locate_path directory t = Ok p ->
    lookup p t = Some (Dir es) ->
    NoDup filenames ->
    Forall (fun n => plain_name n = true) filenames ->
    (forall n, In n filenames -> any_endswith n file_endings = true ->
               exists c, find_entry n es = Some (File c)) ->
    exists t' es',
      clean_each directory file_endings filenames t = (Ok tt, t')
      /\ lookup p t' = Some (Dir es')
      /\ (forall n,
            find_entry n es' =
            if any_endswith n file_endings && existsb (String.eqb n) filenames
            then None else find_entry n es)
      /\ (forall c a b q r,
            a <> b -> p = (c ++ b :: r)%list ->
            lookup (c ++ a :: q) t' = lookup (c ++ a :: q) t).
Proof.
  induction filenames as [|n ns IH]; intros t es Hp Hd Hnd Hplain Hfiles.
  - exists t, es. split; [reflexivity|]. split; [assumption|].
    split; [|reflexivity]. intros n. cbn [existsb]. now rewrite andb_false_r.
  - inversion Hnd as [|? ? Hn Hnd']; subst.
    inversion Hplain as [|? ? Hpn Hplain']; subst.
    cbn [clean_each]. destruct (any_endswith n file_endings) eqn:Hm.
    + destruct (Hfiles n (or_introl eq_refl) Hm) as [c Hc].
      destruct (os_remove_file directory n t p es c Hpn Hp Hd Hc)
        as (-> & Hp1 & Hd1).
      destruct (IH _ (remove_entry n es) Hp1 Hd1 Hnd' Hplain')
        as (t' & es' & Hrun & Hres & Hes & Hout).
      { intros n' Hin Hm'. destruct (Hfiles n' (or_intror Hin) Hm') as [c' Hc'].
        exists c'. rewrite find_entry_remove_other; [assumption|].
        intros ->. contradiction. }
      exists t', es'. split; [assumption|]. split; [assumption|]. split.
      * intros m. rewrite Hes. cbn [existsb].
        destruct (String.eqb_spec m n) as [->|Hmn].
        -- rewrite Hm. cbn [andb orb].
           rewrite find_entry_remove_same.
           now destruct (existsb (String.eqb n) ns).
        -- cbn [orb]. rewrite find_entry_remove_other by congruence.
           reflexivity.
      * intros c0 a b q r Hab Hr. rewrite (Hout c0 a b q r Hab Hr).
        rewrite Hr, <- app_assoc. now apply lookup_remove_diverge.
    + destruct (IH t es Hp Hd Hnd' Hplain')
        as (t' & es' & Hrun & Hres & Hes & Hout).
      { intros n' Hin Hm'. now apply Hfiles; [right|]. }
      exists t', es'. split; [assumption|]. split; [assumption|].
      split; [|assumption].
      intros m. rewrite Hes. cbn [existsb].
      destruct (String.eqb_spec m n) as [->|Hmn]; [|reflexivity].
      rewrite Hm. reflexivity.
Qed.

(** X2.  Where there is no directory, and when no ending is given,
    [clean_directory] returns and changes nothing. *)
Theorem clean_directory_nothing_to_do (directory : string)
    (file_endings : list string) (t : node) :
  is_dir (lookup (resolve directory) t) = false \/ file_endings = [] ->
  clean_directory directory file_endings t = (Ok tt, t).
Proof.
  intros [H| ->]; unfold clean_directory, os_path_isdir, os_listdir.
  - destruct (locate_path directory t) as [p|] eqn:E; [|reflexivity].
    apply locate_path_resolve in E as ->. now rewrite H.
  - destruct (locate_path directory t) as [p|]; [|reflexivity].
    destruct (lookup p t) as [[|es]|]; cbn [is_dir negb];
      try reflexivity.
    apply clean_each_no_endings.
Qed.

(** X3.  In a directory that the operating system finds at [p], with
    entries of plain, distinct names of which those that match are files,
    [clean_directory] returns; the directory then holds the entries whose
    name ends with none of the endings, each as it was, and nothing on
    another branch of the tree has changed. *)
Theorem clean_directory_removes_matching (directory : string)
    (file_endings : list string) (t : node) p es :
  locate_path directory t = Ok p ->
  lookup p t = Some (Dir es) ->
  NoDup (map fst es) ->
  Forall (fun e => plain_name (fst e) = true) es ->
  Forall (fun e => any_endswith (fst e) file_endings = true ->
                   is_file (Some (snd e)) = true) es ->
  exists t' es',
    clean_directory directory file_endings t = (Ok tt, t')
    /\ lookup p t' = Some (Dir es')
    /\ (forall n,
          find_entry n es' =
          if any_endswith n file_endings then None else find_entry n es)
    /\ (forall c a b q r,
            a <> b -> p = (c ++ b :: r)%list ->
            lookup (c ++ a :: q) t' = lookup (c ++ a :: q) t).
Proof.
  intros Hp Hd Hnd Hplain Hfiles.
  unfold clean_directory, os_path_isdir, os_listdir.
  rewrite Hp, Hd. cbn [is_dir negb].
  destruct (clean_each_removes directory file_endings p (map fst es) t es
              Hp Hd Hnd)
    as (t' & es' & Hrun & Hres & Hes & Hout).
  - apply Forall_map. exact Hplain.
  - intros n Hin Hm. apply in_map_iff in Hin as ([m x] & <- & Hin).
    rewrite Forall_forall in Hfiles. specialize (Hfiles _ Hin Hm).
    cbn [fst snd] in *. destruct x as [c|]; [|discriminate].
    exists c. now apply find_entry_in.
  - exists t', es'. split; [assumption|]. split; [assumption|].
    split; [|assumption]. intros n. rewrite Hes.
    destruct (any_endswith n file_endings); [|reflexivity]. cbn [andb].
    destruct (existsb (String.eqb n) (map fst es)) eqn:Ex; [reflexivity|].
    apply find_entry_not_in. intros Hin.
    assert (existsb (String.eqb n) (map fst es) = true); [|congruence].
    apply existsb_exists. exists n. split; [assumption|apply String.eqb_refl].
Qed.

Lemma clean_each_refuses (directory : string) (file_endings : list string)
    (t : node) p es n sub (skipped rest : list string) :
  locate_path directory t = Ok p ->
  lookup p t = Some (Dir es) ->
  find_entry n es = Some (Dir sub) ->
  Forall (fun m => any_endswith m file_endings = false) skipped ->
  any_endswith n file_endings = true ->
  plain_name n = true ->
  clean_each directory file_endings (skipped ++ n :: rest) t
  = (Raised IsADirectoryError, t).
Proof.
  intros Hp Hd Hf Hsk Hm Hn.
  induction Hsk as [|m ms Hx _ IH]; cbn [app clean_each].
  - rewrite Hm. unfold os_remove.
    rewrite (locate_join directory n t p Hn Hp) by now rewrite Hd.
    destruct (p ++ [n])%list as [|y l] eqn:E; [reflexivity|].
    rewrite <- E, (lookup_child _ n _ _ Hd), Hf. reflexivity.
  - rewrite Hx. exact IH.
Qed.

(** X4.  [os.remove] does not remove directories: in a directory that the
    operating system finds at [p], when the first name of the listing that
    matches is a directory, [clean_directory] raises and nothing is
    removed. *)
Theorem clean_directory_refuses_directory (directory : string)
    (file_endings : list string) (t : node) p pre n sub post :
  locate_path directory t = Ok p ->
  lookup p t = Some (Dir (pre ++ (n, Dir sub) :: post)) ->
  Forall (fun e => any_endswith (fst e) file_endings = false) pre ->
  any_endswith n file_endings = true ->
  plain_name n = true ->
  clean_directory directory file_endings t = (Raised IsADirectoryError, t).
Proof.
  intros Hp Hd Hpre Hm Hn. unfold clean_directory, os_path_isdir, os_listdir.
  rewrite Hp, Hd. cbn [is_dir negb]. rewrite map_app. cbn [map fst].
  eapply clean_each_refuses; try eassumption.
  - clear Hd. induction Hpre as [|[m x] pre Hx _ IH]; simpl.
    + now rewrite String.eqb_refl.
    + cbn [fst] in Hx. destruct (String.eqb_spec m n) as [->|_]; [|exact IH].
      congruence.
  - apply Forall_map. exact Hpre.
Qed.

End CleanFacts.

(** * Further properties of build.py *)

Module ProbeFacts.
Import PyStr Path FS Build Behaviour PathFacts.

Lemma last_item_piece (l : string) :
  split sep (last_item (split sep l)) = [last_item (split sep l)].
Proof.
  pose proof (split_pieces sep l) as H. unfold last_item.
  destruct (exists_last (split_nonempty sep l)) as (before & x & E).
  rewrite E in *. rewrite last_last.
  apply Forall_app in H as [_ H]. now inversion H.
Qed.

Lemma local_versions_pieces (out v : string) :
  In v (local_versions out) -> split sep v = [v].
Proof.
  unfold local_versions. intros H.
  apply in_map_iff in H as (l & <- & _). apply last_item_piece.
Qed.

Lemma splitlines_one_line (s : string) :
  s <> "" -> no_linebreak s = true -> splitlines s = [s].
Proof.
  induction s as [|a s IH]; [easy|]. intros _ H.
  cbn [no_linebreak] in H. apply andb_true_iff in H as [Ha Hs].
  apply negb_true_iff in Ha. cbn [splitlines]. rewrite Ha.
  destruct s as [|b s]; [reflexivity|]. now rewrite IH.
Qed.

Lemma append_nonempty (p : string) (c : ascii) (v : string) :
  p ++ String c v <> "".
Proof. now destruct p. Qed.

(** X9.  What [clone_px4] reads back from a one-line answer that ends with
    a reference: the text after the last "/" as it stands, surrounding
    white space included. *)
Theorem probe_reads_back (p v : string) :
  no_linebreak (p ++ "/" ++ v) = true ->
  startswith (strip (p ++ "/" ++ v)) "refs" = true ->
  split sep v = [v] ->
  local_versions (p ++ "/" ++ v) = [v].
Proof.
  intros Hnl Hrefs Hv. unfold local_versions.
  change (p ++ "/" ++ v) with (p ++ String sep v) in *.
  rewrite splitlines_one_line by (assumption || apply append_nonempty).
  cbn [filter]. rewrite Hrefs. cbn [map]. f_equal.
  unfold last_item. now rewrite split_app_sep, Hv, last_last.
Qed.

End ProbeFacts.

Module MoreFacts.
Import PyStr Path FS OSPath Sys Build Straight Behaviour.
Import PathFacts FSFacts OSPathFacts SysFacts BuildFacts ProbeFacts.
Open Scope py_scope.

Lemma resolve_join_parent (a : string) :
  resolve (join a "..") = removelast (resolve a).
Proof.
  unfold join. change (startswith ".." "/") with false. cbv iota.
  destruct (String.eqb_spec a "") as [->|Ha]; cbn [orb]; [reflexivity|].
  destruct (endswith a "/") eqn:He.
  - destruct (endswith_sep _ He) as [a' ->].
    replace ((a' ++ "/") ++ "..") with (a' ++ String sep "..").
    2:{ clear. induction a'; simpl; [reflexivity|now f_equal]. }
    now rewrite !resolve_app_sep.
  - change (a ++ "/" ++ "..") with (a ++ String sep "..").
    now rewrite resolve_app_sep.
Qed.

Section Script.

Variable THIS_DIR : string.
Variable PX4_VERSION : string.
Variable sys_executable : string.
Variable Ext : Type.
Variable run_process : Cmd -> World Ext -> Exit Ext.

Implicit Types w : World Ext.

Abbreviation BUILD_DIR := (Build.BUILD_DIR THIS_DIR PX4_VERSION).
Abbreviation PX4_DIR := (Build.PX4_DIR THIS_DIR PX4_VERSION).
Abbreviation PYMAVLINK_DIR := (Build.PYMAVLINK_DIR THIS_DIR PX4_VERSION).
Abbreviation DIST_DIR := (Build.DIST_DIR THIS_DIR).
Abbreviation clone_px4 := (Build.clone_px4 THIS_DIR PX4_VERSION Ext run_process).
Abbreviation clone_px4_rec :=
  (Build.clone_px4_rec THIS_DIR PX4_VERSION Ext run_process).
Abbreviation clone_px4_patch :=
  (Build.clone_px4_patch THIS_DIR PX4_VERSION Ext run_process).
Abbreviation clone_px4_fresh :=
  (Straight.clone_px4_fresh THIS_DIR PX4_VERSION Ext run_process).
Abbreviation git_remote_show := (Build.git_remote_show THIS_DIR PX4_VERSION).
Abbreviation git_clone_px4 := (Build.git_clone_px4 THIS_DIR PX4_VERSION).
Abbreviation git_apply_px4 := (Build.git_apply_px4 THIS_DIR PX4_VERSION).
Abbreviation px4_patch_file := (Build.px4_patch_file THIS_DIR PX4_VERSION).
Abbreviation message_definitions_dir :=
  (Build.message_definitions_dir THIS_DIR PX4_VERSION).
Abbreviation generated_message_dir :=
  (Build.generated_message_dir THIS_DIR PX4_VERSION).
Abbreviation bell_xml_def := (Build.bell_xml_def THIS_DIR PX4_VERSION).
Abbreviation mavgen_c := (Build.mavgen_c THIS_DIR PX4_VERSION sys_executable).
Abbreviation check_call := (Sys.check_call run_process).
Abbreviation check_output := (Sys.check_output run_process).

(** ** [touch_file] *)

(** X1.  When the operating system finds the place [p] of the name and no
    directory is there, [touch_file] returns; the file is then there and
    empty, whatever it held before.  When [touch_file] raises, it has
    changed nothing. *)
Theorem touch_file_creates_empty (filename : string) w :
  (forall p,
     locate_path filename (fs w) = Ok p ->
     is_dir (lookup p (fs w)) = false ->
     res_out (touch_file Ext filename w) = Ok tt
     /\ lookup p (fs (res_world (touch_file Ext filename w))) = Some (File "")
     /\ ext (res_world (touch_file Ext filename w)) = ext w)
  /\ (forall e, res_out (touch_file Ext filename w) = Raised e ->
                res_world (touch_file Ext filename w) = w).
Proof.
  rewrite touch_file_run. cbn [res_out res_world fs ext]. split.
  - intros p Hp Hfile.
    destruct (locate_path_parent _ _ _ Hp) as [Hd|Hparent]; [congruence|].
    apply locate_path_resolve in Hp. subst p.
    assert (Hne : resolve filename <> []).
    { intros E. rewrite E in *. cbn in *. congruence. }
    destruct (put_below_directory (resolve filename) (File "") (fs w) Hne Hparent)
      as [t' Ht'].
    assert (E : write_fs filename "" (fs w) = (Ok tt, t')).
    { unfold write_fs.
      destruct (lookup (resolve filename) (fs w)) as [[|]|]; try discriminate;
        destruct (lookup (removelast (resolve filename)) (fs w)) as [[|]|];
        try discriminate; now rewrite Ht'. }
    rewrite E. cbn [fst snd]. repeat split.
    now apply write_fs_ok in E.
  - intros e He. destruct w as [t x]. cbn [fs ext] in *. f_equal.
    unfold write_fs in *.
    destruct (lookup (resolve filename) t) as [[|]|]; try reflexivity;
      destruct (lookup (removelast (resolve filename)) t) as [[|]|];
      try reflexivity;
      destruct (put (resolve filename) (File "") t); try reflexivity;
      discriminate.
Qed.

(** ** Where the workspace and the generated files are *)

Lemma resolve_BUILD_DIR :
  plain_name PX4_VERSION = true ->
  resolve BUILD_DIR = (resolve THIS_DIR ++ ["build"; PX4_VERSION])%list.
Proof.
  intros H. unfold Build.BUILD_DIR. apply resolve_join_all.
  cbn [forallb]. now rewrite H.
Qed.

(** X12.  The directories of the generated C code and of the generator's
    working directory, with their [..] walked: below "v1.13.0" the code goes
    to [mavlink/include/mavlink/v2.0] of the firmware checkout and the
    generator runs in the workspace; from "v1.13.0" on they are
    [src/modules/mavlink] and [src/modules/mavlink/mavlink] of the checkout. *)
Theorem generated_paths :
  cwd mavgen_c = Some (join PYMAVLINK_DIR "..")
  /\ resolve bell_xml_def = (resolve message_definitions_dir ++ ["bell.xml"])%list
  /\ if str_lt PX4_VERSION "v1.13.0" then
       resolve generated_message_dir
       = (resolve PX4_DIR ++ ["mavlink"; "include"; "mavlink"; "v2.0"])%list
       /\ resolve (join PYMAVLINK_DIR "..") = resolve BUILD_DIR
     else
       resolve generated_message_dir
       = (resolve PX4_DIR ++ ["src"; "modules"; "mavlink"])%list
       /\ resolve (join PYMAVLINK_DIR "..")
          = (resolve PX4_DIR ++ ["src"; "modules"; "mavlink"; "mavlink"])%list.
Proof.
  split; [reflexivity|split; [now apply resolve_join|]].
  unfold Build.generated_message_dir, Build.message_definitions_dir,
    Build.PYMAVLINK_DIR.
  destruct (str_lt PX4_VERSION "v1.13.0"); split.
  - rewrite resolve_join_parent, resolve_join_all by reflexivity.
    now rewrite removelast_app by discriminate.
  - rewrite resolve_join_parent, resolve_join by reflexivity.
    rewrite removelast_app by discriminate. cbn. now rewrite app_nil_r.
  - unfold join_all. cbn [fold_left].
    rewrite !resolve_join_parent, !resolve_join by reflexivity.
    rewrite !removelast_last. now rewrite <- !app_assoc.
  - rewrite resolve_join_parent, resolve_join_all by reflexivity.
    now rewrite removelast_app by discriminate.
Qed.

(** ** Exceptions *)

Lemma raises_only_ret {A} (P : exn -> Prop) (a : A) :
  raises_only P (ret (Ext:=Ext) a).
Proof. intros w e H. discriminate. Qed.

Lemma raises_only_bind {A B} (P : exn -> Prop) (m : M Ext A) (f : A -> M Ext B) :
  raises_only P m -> (forall a, raises_only P (f a)) -> raises_only P (bind m f).
Proof.
  intros Hm Hf w e. unfold bind. specialize (Hm w).
  destruct (m w) as [[a|e'] w1 t1]; cbn [res_out] in *.
  - apply Hf.
  - intros H. inversion H; subst. now apply Hm.
Qed.

Lemma raises_only_print (P : exn -> Prop) (msg : string) :
  raises_only P (print (Ext:=Ext) msg).
Proof. intros w e H. discriminate. Qed.

Lemma raises_only_query {A} (P : exn -> Prop) (f : node -> A) :
  raises_only P (query Ext f).
Proof. intros w e H. discriminate. Qed.

Lemma raises_only_check_call (P : exn -> Prop) (c : Cmd) :
  P CalledProcessError -> raises_only P (check_call c).
Proof.
  intros HP w e. unfold Sys.check_call.
  destruct (exit_ok (run_process c w)); cbn [res_out]; intros H;
    [discriminate|now inversion H].
Qed.

Lemma raises_only_check_output (P : exn -> Prop) (c : Cmd) :
  P CalledProcessError -> raises_only P (check_output c).
Proof.
  intros HP w e. unfold Sys.check_output.
  destruct (exit_ok (run_process c w)); cbn [res_out]; intros H;
    [discriminate|now inversion H].
Qed.

Lemma raises_only_next {A} (P : exn -> Prop) (xs : list A) :
  P StopIteration -> raises_only P (next (Ext:=Ext) xs).
Proof.
  intros HP w e. destruct xs; cbn; intros H; [now inversion H|discriminate].
Qed.

Lemma raises_only_fs_op {A} (P : exn -> Prop) (o : op)
    (f : node -> outcome A * node) :
  (forall t e, fst (f t) = Raised e -> P e) -> raises_only P (fs_op Ext o f).
Proof.
  intros Hf w e. unfold fs_op. specialize (Hf (fs w)).
  destruct (f (fs w)) as [r t]. cbn [res_out fst] in *. apply Hf.
Qed.

Lemma rmtree_no_recursion_error (p : string) (b : bool) t e :
  fst (rmtree_fs p b t) = Raised e -> e <> RecursionError.
Proof.
  unfold rmtree_fs. destruct (resolve p) as [|c rp].
  - destruct t, b; cbn; intros H; inversion H; discriminate.
  - destruct (lookup (c :: rp) t) as [[|]|], b; cbn; intros H; inversion H;
      discriminate.
Qed.

Lemma write_no_recursion_error (f content : string) t e :
  fst (write_fs f content t) = Raised e -> e <> RecursionError.
Proof.
  unfold write_fs.
  destruct (lookup (resolve f) t) as [[|]|];
    destruct (lookup (removelast (resolve f)) t) as [[|]|];
    try destruct (put (resolve f) (File content) t);
    cbn; intros H; inversion H; discriminate.
Qed.

Lemma clone_px4_patch_no_recursion_error :
  raises_only (fun e => e <> RecursionError) clone_px4_patch.
Proof.
  unfold Build.clone_px4_patch.
  apply raises_only_bind; [apply raises_only_query|]. intros [|]; cbn [negb].
  - apply raises_only_ret.
  - apply raises_only_bind; [apply raises_only_print|intros _].
    apply raises_only_bind; [now apply raises_only_check_call|intros _].
    apply raises_only_fs_op, write_no_recursion_error.
Qed.

Lemma clone_px4_fresh_no_recursion_error :
  raises_only (fun e => e <> RecursionError) clone_px4_fresh.
Proof.
  unfold Straight.clone_px4_fresh.
  apply raises_only_bind; [|intros _; apply clone_px4_patch_no_recursion_error].
  apply raises_only_bind; [apply raises_only_print|intros _].
  now apply raises_only_check_call.
Qed.

(** X5.  One nested call is all [clone_px4] makes: with any recursion
    limit that allows two calls it does the same, and it does not raise
    [RecursionError]. *)
Theorem clone_px4_one_nested_call (depth : nat) w :
  clone_px4_rec (S (S depth)) w = clone_px4 w
  /\ res_out (clone_px4 w) <> Raised RecursionError.
Proof.
  split.
  - now rewrite clone_px4_rec_flat, clone_px4_flat_eq.
  - rewrite clone_px4_flat_eq. intros H. revert H.
    assert (Hflat : raises_only (fun e => e <> RecursionError)
                      (Straight.clone_px4_flat THIS_DIR PX4_VERSION Ext
                         run_process)).
    { unfold Straight.clone_px4_flat.
      apply raises_only_bind;
        [|intros _; apply clone_px4_patch_no_recursion_error].
      apply raises_only_bind; [apply raises_only_query|]. intros [|].
      - apply raises_only_bind; [now apply raises_only_check_output|intros out].
        apply raises_only_bind; [now apply raises_only_next|intros lv].
        destruct (negb (lv =? PX4_VERSION)%string); [|apply raises_only_ret].
        apply raises_only_bind; [apply raises_only_print|intros _].
        apply raises_only_bind;
          [apply raises_only_fs_op, rmtree_no_recursion_error|intros _].
        apply clone_px4_fresh_no_recursion_error.
      - apply raises_only_bind; [apply raises_only_print|intros _].
        now apply raises_only_check_call. }
    intros H. now apply (Hflat w RecursionError H).
Qed.

(** ** [clone_px4] and the workspace *)

Lemma clone_px4_no_checkout w :
  is_dir (lookup (resolve PX4_DIR) (fs w)) = false ->
  clone_px4 w = clone_px4_fresh w.
Proof.
  intros H. unfold Build.clone_px4, recursion_limit.
  change 1000 with (S 999). now apply clone_px4_rec_fresh.
Qed.

Lemma clone_px4_query_fails w :
  is_dir (lookup (resolve PX4_DIR) (fs w)) = true ->
  exit_ok (run_process git_remote_show w) = false ->
  clone_px4 w =
  mkResult (Raised CalledProcessError) (after (run_process git_remote_show w))
           [failed (CheckOutput git_remote_show)].
Proof.
  intros Hdir Hok. rewrite clone_px4_flat_eq. unfold Straight.clone_px4_flat.
  rewrite bind_assoc.
  erewrite bind_ok by (unfold os_path_isdir, query; rewrite Hdir; reflexivity).
  cbn [app]. rewrite result_eta, bind_assoc.
  erewrite bind_raised by (unfold Sys.check_output; rewrite Hok; reflexivity).
  reflexivity.
Qed.


Lemma clone_px4_fresh_no_rmtree :
  emits (fun o => forall p b, o <> Rmtree p b) clone_px4_fresh.
Proof.
  unfold Straight.clone_px4_fresh.
  apply emits_bind.
  - apply emits_bind; [apply emits_print; discriminate|intros _].
    apply emits_check_call. discriminate.
  - intros _. apply emits_clone_px4_patch; discriminate.
Qed.

Lemma before_op_rmtree (o : op) p b :
  Straight.before_op THIS_DIR PX4_VERSION sys_executable o ->
  o = Rmtree p b -> p = BUILD_DIR /\ b = false.
Proof. intros Ho ->. now inversion Ho. Qed.

(** X6.  [clone_px4] removes nothing but the workspace directory, and
    that only after the query has succeeded on an existing checkout and has
    given a version other than the requested one. *)
Theorem rmtree_only_on_mismatch w (p : string) (b ok : bool) :
  In (Ev (Rmtree p b) ok) (res_trace (clone_px4 w)) ->
  p = BUILD_DIR /\ b = false
  /\ is_dir (lookup (resolve PX4_DIR) (fs w)) = true
  /\ exit_ok (run_process git_remote_show w) = true
  /\ exists A,
       hd_error (local_versions (stdout (run_process git_remote_show w)))
       = Some A
       /\ A <> PX4_VERSION.
Proof.
  intros Hin.
  assert (Hpb : p = BUILD_DIR /\ b = false).
  { pose proof (emits_clone_px4_rec THIS_DIR PX4_VERSION sys_executable Ext
                  run_process recursion_limit w) as Hall.
    unfold all_ops in Hall. rewrite Forall_forall in Hall.
    specialize (Hall _ Hin). now apply (before_op_rmtree _ p b) in Hall. }
  destruct Hpb as [-> ->]. split; [reflexivity|split; [reflexivity|]].
  assert (Hnone : forall t : list event,
             all_ops (fun o => forall p b, o <> Rmtree p b) t ->
             ~ In (Ev (Rmtree BUILD_DIR false) ok) t).
  { intros t Ht Hi. unfold all_ops in Ht. rewrite Forall_forall in Ht.
    now apply (Ht _ Hi BUILD_DIR false). }
  destruct (is_dir (lookup (resolve PX4_DIR) (fs w))) eqn:Hdir.
  2:{ rewrite clone_px4_no_checkout in Hin by assumption.
      now apply Hnone in Hin; [|apply clone_px4_fresh_no_rmtree]. }
  destruct (exit_ok (run_process git_remote_show w)) eqn:Hok.
  2:{ rewrite clone_px4_query_fails in Hin by assumption.
      destruct Hin as [Hin|[]]. discriminate. }
  repeat split.
  rewrite clone_px4_probe in Hin by assumption.
  destruct (local_versions (stdout (run_process git_remote_show w)))
    as [|A rest].
  { destruct Hin as [Hin|[]]. discriminate. }
  exists A. split; [reflexivity|]. intros ->.
  cbn [next] in Hin. rewrite bind_assoc, bind_ret in Hin.
  rewrite String.eqb_refl in Hin. cbn [negb] in Hin. rewrite bind_ret in Hin.
  rewrite preceded_trace in Hin. destruct Hin as [Hin|Hin]; [discriminate|].
  apply Hnone in Hin; [assumption|].
  apply emits_clone_px4_patch; discriminate.
Qed.

(** X7.  The marker of the patch is kept beside the checkout, not in it:
    when the checkout is gone and the marker is still there, [clone_px4]
    clones and leaves the new checkout without the patch. *)
Theorem fresh_clone_skips_patch w :
  is_dir (lookup (resolve PX4_DIR) (fs w)) = false ->
  exit_ok (run_process git_clone_px4 w) = true ->
  is_file (lookup (resolve px4_patch_file)
                  (fs (after (run_process git_clone_px4 w)))) = true ->
  clone_px4 w =
  mkResult (Ok tt) (after (run_process git_clone_px4 w))
           [done (Print "--- Cloning PX4"); done (CheckCall git_clone_px4)].
Proof.
  intros Hdir Hok Hmark. rewrite clone_px4_no_checkout by assumption.
  unfold Straight.clone_px4_fresh. rewrite bind_assoc. unfold print2.
  rewrite print_then.
  erewrite bind_ok by (unfold Sys.check_call; rewrite Hok; reflexivity).
  rewrite clone_px4_patch_run, Hmark. reflexivity.
Qed.

(** X8.  A version with a "/" in it never equals what is read back, which
    has none: on an existing checkout whose query names a reference,
    [clone_px4] goes on to remove the workspace, every time. *)
Theorem slash_in_version_always_reclones w :
  split sep PX4_VERSION <> [PX4_VERSION] ->
  is_dir (lookup (resolve PX4_DIR) (fs w)) = true ->
  exit_ok (run_process git_remote_show w) = true ->
  local_versions (stdout (run_process git_remote_show w)) <> [] ->
  exists A ok t,
    res_trace (clone_px4 w) =
    done (CheckOutput git_remote_show)
    :: done (Print ("Existing PX4 checkout is " ++ A ++ ", re-cloning"))
    :: Ev (Rmtree BUILD_DIR false) ok :: t.
Proof.
  intros Hslash Hdir Hok Hsome. rewrite clone_px4_probe by assumption.
  destruct (local_versions (stdout (run_process git_remote_show w)))
    as [|A rest] eqn:E; [easy|].
  assert (HA : (A =? PX4_VERSION)%string = false).
  { apply String.eqb_neq. intros ->. apply Hslash.
    apply (local_versions_pieces (stdout (run_process git_remote_show w))).
    rewrite E. now left. }
  cbn [next]. rewrite bind_assoc, bind_ret, HA. cbn [negb].
  rewrite bind_assoc, print_then, preceded_app, preceded_trace, bind_assoc.
  destruct (bind_trace_prefix (shutil_rmtree BUILD_DIR false)
              (fun _ => clone_px4_fresh ;; clone_px4_patch)
              (after (run_process git_remote_show w))) as [t Ht].
  rewrite Ht. unfold shutil_rmtree at 1. rewrite fs_op_trace.
  cbn [app]. eauto.
Qed.

(** X10.  The patch step comes twice on a mismatch, in the nested call and
    in the outer one; the second adds nothing, whether the first returned or
    raised. *)
Theorem nested_patch_runs_once w :
  (clone_px4_patch ;; clone_px4_patch) w = clone_px4_patch w
  /\ (clone_px4_fresh ;; clone_px4_patch) w = clone_px4_fresh w.
Proof.
  assert (Htwice : forall w0, (clone_px4_patch ;; clone_px4_patch) w0
                              = clone_px4_patch w0).
  { intros w0. unfold bind.
    destruct (clone_px4_patch w0) as [[[]|e] w1 t1] eqn:E; [|reflexivity].
    rewrite clone_px4_patch_guarded in E. apply guarded_twice in E.
    rewrite <- clone_px4_patch_guarded in E. rewrite E.
    cbn [res_out res_world res_trace]. now rewrite app_nil_r. }
  split; [apply Htwice|].
  unfold Straight.clone_px4_fresh. rewrite bind_assoc.
  apply bind_cong. intros _ w1 _ _. apply Htwice.
Qed.

(** ** Runs stop at the first failure *)

Abbreviation main :=
  (Build.main THIS_DIR PX4_VERSION sys_executable Ext run_process).
Abbreviation main_before :=
  (Straight.main_before THIS_DIR PX4_VERSION Ext run_process sys_executable).
Abbreviation main_after :=
  (Straight.main_after THIS_DIR PX4_VERSION Ext run_process sys_executable).
Abbreviation main_inject :=
  (Build.main_inject THIS_DIR PX4_VERSION sys_executable Ext run_process).
Abbreviation install_dependencies :=
  (Build.install_dependencies THIS_DIR PX4_VERSION sys_executable Ext
     run_process).
Abbreviation build_pymavlink :=
  (Build.build_pymavlink THIS_DIR PX4_VERSION sys_executable Ext run_process).
Abbreviation build_pymavlink_patch :=
  (Build.build_pymavlink_patch THIS_DIR PX4_VERSION Ext run_process).
Abbreviation build_pymavlink_copy :=
  (Build.build_pymavlink_copy THIS_DIR PX4_VERSION Ext).
Abbreviation build_pymavlink_collect :=
  (Behaviour.build_pymavlink_collect THIS_DIR PX4_VERSION Ext).
Abbreviation build_px4 := (Build.build_px4 THIS_DIR PX4_VERSION Ext run_process).
Abbreviation clone_pymavlink :=
  (Build.clone_pymavlink THIS_DIR PX4_VERSION Ext run_process).
Abbreviation setup_py := (Build.setup_py THIS_DIR PX4_VERSION sys_executable).
Abbreviation mavgen_wlua :=
  (Build.mavgen_wlua THIS_DIR PX4_VERSION sys_executable).
Abbreviation make := (Build.make THIS_DIR PX4_VERSION).
Abbreviation pip_upgrade := (Build.pip_upgrade sys_executable).
Abbreviation pip_requirements :=
  (Build.pip_requirements THIS_DIR PX4_VERSION sys_executable).
Abbreviation before_op :=
  (Straight.before_op THIS_DIR PX4_VERSION sys_executable).
Abbreviation inject_op :=
  (Straight.inject_op THIS_DIR PX4_VERSION sys_executable).
Abbreviation after_op := (Straight.after_op THIS_DIR PX4_VERSION sys_executable).
Abbreviation inherits_env :=
  (Behaviour.inherits_env THIS_DIR PX4_VERSION sys_executable).
Abbreviation asked_for :=
  (Behaviour.asked_for THIS_DIR PX4_VERSION sys_executable).
Abbreviation perform_all := (Straight.perform_all Ext run_process).

Lemma orderly_ret {A} (a : A) : orderly (ret (Ext:=Ext) a).
Proof. intros w. left. constructor. Qed.

Lemma orderly_raise {A} (e : exn) : orderly (raise (Ext:=Ext) (A:=A) e).
Proof. intros w. left. constructor. Qed.

Lemma orderly_bind {A B} (m : M Ext A) (f : A -> M Ext B) :
  orderly m -> (forall a, orderly (f a)) -> orderly (bind m f).
Proof.
  intros Hm Hf w. unfold bind. specialize (Hm w).
  destruct (m w) as [[a|e] w1 t1].
  2:{ destruct Hm as [H|(pre & o & x & Ht & Hpre & _)]; [now left|].
      right. now exists pre, o, e. }
  assert (H1 : all_returned t1).
  { destruct Hm as [H|(pre & o & x & _ & _ & H)]; [exact H|discriminate]. }
  destruct (Hf a w1) as [H2|(pre & o & x & Ht & Hpre & Hx)].
  - left. cbn [res_trace]. now apply Forall_app.
  - right. exists (t1 ++ pre)%list, o, x. cbn [res_trace res_out].
    rewrite Ht, app_assoc. repeat split; [now apply Forall_app|assumption].
Qed.

Lemma orderly_print (msg : string) : orderly (print (Ext:=Ext) msg).
Proof. intros w. left. now repeat constructor. Qed.

Lemma orderly_query {A} (f : node -> A) : orderly (query Ext f).
Proof. intros w. left. constructor. Qed.

Lemma orderly_listdir (p : string) : orderly (os_listdir (Ext:=Ext) p).
Proof.
  intros w. left. unfold os_listdir.
  destruct (lookup (resolve p) (fs w)) as [[|]|]; constructor.
Qed.

Lemma orderly_next {A} (xs : list A) : orderly (next (Ext:=Ext) xs).
Proof. destruct xs; [apply orderly_raise|apply orderly_ret]. Qed.

Lemma orderly_check_call (c : Cmd) : orderly (check_call c).
Proof.
  intros w. unfold Sys.check_call. destruct (exit_ok (run_process c w)).
  - left. now repeat constructor.
  - right. exists [], (CheckCall c), CalledProcessError.
    repeat split. constructor.
Qed.

Lemma orderly_check_output (c : Cmd) : orderly (check_output c).
Proof.
  intros w. unfold Sys.check_output. destruct (exit_ok (run_process c w)).
  - left. now repeat constructor.
  - right. exists [], (CheckOutput c), CalledProcessError.
    repeat split. constructor.
Qed.

Lemma orderly_fs_op {A} (o : op) (f : node -> outcome A * node) :
  orderly (fs_op Ext o f).
Proof.
  intros w. unfold fs_op. destruct (f (fs w)) as [[a|e] t].
  - left. now repeat constructor.
  - right. exists [], o, e. repeat split. constructor.
Qed.

Lemma orderly_for_each {A} (xs : list A) (body : A -> M Ext unit) :
  (forall x, orderly (body x)) -> orderly (for_each xs body).
Proof.
  intros H. induction xs as [|x xs IH]; cbn [for_each].
  - apply orderly_ret.
  - apply orderly_bind; [apply H|intros _; apply IH].
Qed.

Ltac orderly_step :=
  first [ apply orderly_ret | apply orderly_print | apply orderly_query
        | apply orderly_listdir | apply orderly_next | apply orderly_check_call
        | apply orderly_check_output | apply orderly_fs_op ].

Lemma orderly_clone_px4_patch : orderly clone_px4_patch.
Proof.
  unfold Build.clone_px4_patch.
  apply orderly_bind; [apply orderly_query|]. intros [|]; cbn [negb].
  - apply orderly_ret.
  - repeat (apply orderly_bind; [orderly_step|intros _]). apply orderly_fs_op.
Qed.

Lemma orderly_clone_px4_rec (depth : nat) : orderly (clone_px4_rec depth).
Proof.
  induction depth as [|d IH]; cbn [Build.clone_px4_rec].
  - apply orderly_raise.
  - apply orderly_bind; [|intros _; apply orderly_clone_px4_patch].
    apply orderly_bind; [apply orderly_query|]. intros [|].
    + apply orderly_bind; [apply orderly_check_output|intros out].
      apply orderly_bind; [apply orderly_next|intros lv].
      destruct (negb (lv =? PX4_VERSION)%string); [|apply orderly_ret].
      apply orderly_bind; [apply orderly_print|intros _].
      apply orderly_bind; [apply orderly_fs_op|intros _]. apply IH.
    + apply orderly_bind; [apply orderly_print|intros _].
      apply orderly_check_call.
Qed.

Lemma orderly_build_pymavlink mdir bell ws : orderly (build_pymavlink mdir bell ws).
Proof.
  unfold Build.build_pymavlink.
  apply orderly_bind; [apply orderly_print|intros _].
  apply orderly_bind.
  { unfold Build.build_pymavlink_patch.
    apply orderly_bind; [apply orderly_query|]. intros [|]; cbn [negb].
    - apply orderly_ret.
    - repeat (apply orderly_bind; [orderly_step|intros _]). apply orderly_fs_op. }
  intros _. apply orderly_bind.
  { unfold Build.build_pymavlink_copy.
    repeat (apply orderly_bind; [orderly_step|intros _]). apply orderly_fs_op. }
  intros _. apply orderly_bind; [apply orderly_print|intros _].
  apply orderly_bind; [apply orderly_check_call|intros _].
  apply orderly_bind; [apply orderly_listdir|intros filenames].
  apply orderly_bind.
  { apply orderly_for_each. intros filename. apply orderly_fs_op. }
  intros _. destruct ws; [|apply orderly_ret].
  apply orderly_bind; [apply orderly_print|intros _]. apply orderly_check_call.
Qed.

(** X17.  [main] goes on only as long as its operations return: in every
    run, either each operation of the trace has returned, or [main] has
    raised and the one operation that did not return is the last. *)
Theorem main_stops_at_first_failure p px ws version targets w :
  let r := main p px ws version targets w in
  Forall (fun e => ev_ok e = true) (res_trace r)
  \/ (exists pre o x,
        res_trace r = (pre ++ [failed o])%list
        /\ Forall (fun e => ev_ok e = true) pre
        /\ res_out r = Raised x).
Proof.
  intros r. unfold r. clear r. revert w.
  change (orderly (main p px ws version targets)).
  unfold Build.main.
  apply orderly_bind; [apply orderly_fs_op|intros _].
  apply orderly_bind.
  { unfold Build.clone_pymavlink.
    destruct (str_ge PX4_VERSION "v1.13.0"); [apply orderly_ret|].
    apply orderly_bind; [apply orderly_query|]. intros [|];
      (apply orderly_bind; [apply orderly_print|intros _]);
      apply orderly_check_call. }
  intros _. apply orderly_bind; [apply orderly_clone_px4_rec|intros _].
  apply orderly_bind.
  { unfold Build.install_dependencies.
    repeat (apply orderly_bind; [orderly_step|intros _]).
    apply orderly_check_call. }
  intros _. apply orderly_bind.
  { unfold Build.main_inject.
    apply orderly_bind; [apply orderly_query|]. intros [|]; cbn [negb].
    - apply orderly_ret.
    - apply orderly_bind; [apply orderly_print|intros _].
      apply orderly_bind; [apply orderly_fs_op|intros _].
      apply orderly_bind.
      { destruct (str_lt PX4_VERSION "v1.13.0");
          [apply orderly_check_call|apply orderly_ret]. }
      intros _. repeat (apply orderly_bind; [orderly_step|intros _]).
      apply orderly_fs_op. }
  intros _. apply orderly_bind.
  { destruct p; [apply orderly_build_pymavlink|apply orderly_ret]. }
  intros _. destruct px; [|apply orderly_ret].
  unfold Build.build_px4.
  apply orderly_bind; [apply orderly_print|intros _].
  apply orderly_for_each. intros target.
  apply orderly_bind; [apply orderly_check_call|intros _]. apply orderly_fs_op.
Qed.

(** ** The child processes of [main] *)

Lemma script_op_inherits_env (o : op) :
  before_op o \/ inject_op o \/ after_op o -> inherits_env o.
Proof.
  intros [H|[[H| ->]|H]].
  - destruct H; cbn; auto.
  - unfold Straight.inject_ops in H.
    destruct (str_lt PX4_VERSION "v1.13.0"); cbn [app In] in H;
      repeat (destruct H as [<-|H]; [cbn; auto|]); destruct H.
  - exact I.
  - destruct H; cbn; auto.
Qed.

(** X15.  One child process of [main] gets a changed environment: the
    packaging run, with [MAVLINK_DIALECT=bell].  Every other one runs in the
    environment of the script. *)
Theorem children_inherit_env p px ws version targets w :
  all_ops (fun o =>
             match o with
             | CheckCall c | CheckOutput c => env c = [] \/ c = setup_py
             | _ => True
             end)
          (res_trace (main p px ws version targets w))
  /\ env setup_py = [("MAVLINK_DIALECT", "bell")].
Proof.
  split; [|reflexivity].
  change (all_ops inherits_env (res_trace (main p px ws version targets w))).
  rewrite main_parts. revert w.
  apply emits_bind; [|intros _; apply emits_bind; [|intros _]];
    (eapply emits_weaken; [apply script_op_inherits_env|]).
  - eapply emits_weaken; [|apply emits_main_before]. auto.
  - eapply emits_weaken; [|apply emits_main_inject]. auto.
  - eapply emits_weaken; [|apply emits_main_after]. auto.
Qed.

Lemma before_op_asked_for p px ws (o : op) : before_op o -> asked_for p px ws o.
Proof.
  intros Ho. destruct Ho; repeat split; intros;
    match goal with H : _ = _ |- _ => inversion H end.
Qed.

Lemma inject_op_asked_for p px ws (o : op) : inject_op o -> asked_for p px ws o.
Proof.
  intros [H| ->].
  - unfold Straight.inject_ops in H.
    destruct (str_lt PX4_VERSION "v1.13.0"); cbn [app In] in H;
      repeat (destruct H as [<-|H];
              [repeat split; intros;
               match goal with H : _ = _ |- _ => inversion H end|]);
      destruct H.
  - repeat split; intros; discriminate.
Qed.

Lemma emits_build_px4_asked p ws targets version :
  emits (asked_for p true ws) (build_px4 targets version).
Proof.
  unfold Build.build_px4.
  apply emits_bind; [apply emits_print; repeat split; intros; discriminate|].
  intros _. apply emits_for_each. intros target.
  apply emits_bind; [|intros _].
  - apply emits_check_call. repeat split; intros;
      match goal with H : _ = _ |- _ => inversion H end.
  - apply emits_fs_op. repeat split; intros; discriminate.
Qed.

Lemma emits_build_pymavlink_asked px ws mdir bell :
  emits (asked_for true px ws) (build_pymavlink mdir bell ws).
Proof.
  assert (Hother : forall o,
            (forall c, o <> CheckCall c) -> asked_for true px ws o).
  { intros o Ho. repeat split; intros; subst; now elim (Ho _ eq_refl). }
  assert (Hcall : forall c,
            (forall target, c <> make target) ->
            (forall b, c <> mavgen_wlua b) ->
            asked_for true px ws (CheckCall c)).
  { intros c H1 H2. split; [|split].
    - intros target H. inversion H; subst. now elim (H1 target).
    - reflexivity.
    - intros b H. inversion H; subst. now elim (H2 b). }
  unfold Build.build_pymavlink.
  apply emits_bind; [apply emits_print, Hother; discriminate|intros _].
  apply emits_bind.
  { unfold Build.build_pymavlink_patch.
    apply emits_bind; [apply emits_isfile|]. intros [|]; cbn [negb];
      [apply emits_ret|].
    apply emits_bind; [apply emits_print, Hother; discriminate|intros _].
    apply emits_bind;
      [apply emits_check_call, Hcall; intros; intros H; inversion H|intros _].
    apply emits_bind;
      [apply emits_check_call, Hcall; intros; intros H; inversion H|intros _].
    apply emits_touch_file, Hother. discriminate. }
  intros _. apply emits_bind.
  { unfold Build.build_pymavlink_copy.
    apply emits_bind; [apply emits_print, Hother; discriminate|intros _].
    apply emits_bind; [apply emits_fs_op, Hother; discriminate|intros _].
    apply emits_fs_op, Hother. discriminate. }
  intros _. apply emits_bind; [apply emits_print, Hother; discriminate|intros _].
  apply emits_bind;
    [apply emits_check_call, Hcall; intros; intros H; inversion H|intros _].
  apply emits_bind; [apply emits_listdir|intros filenames].
  apply emits_bind.
  { apply emits_for_each. intros filename.
    apply emits_fs_op, Hother. discriminate. }
  intros _. destruct ws; [|apply emits_ret].
  apply emits_bind; [apply emits_print, Hother; discriminate|intros _].
  apply emits_check_call. split; [|split].
  - intros target H. inversion H.
  - reflexivity.
  - intros b _. now split.
Qed.

(** X16.  What [main] builds is what was asked for: it runs [make] only
    with [should_build_px4], the packaging only with
    [should_build_pymavlink], and the generator of the Wireshark plugin only
    with both [should_build_pymavlink] and [should_build_wireshark]; alone,
    [should_build_wireshark] has no effect. *)
Theorem builds_only_when_asked p px ws version targets w :
  all_ops
    (fun o =>
       (forall target, o = CheckCall (make target) -> px = true)
       /\ (o = CheckCall setup_py -> p = true)
       /\ (forall bell, o = CheckCall (mavgen_wlua bell) ->
                        p = true /\ ws = true))
    (res_trace (main p px ws version targets w))
  /\ main false px true version targets w = main false px false version targets w.
Proof.
  split; [|reflexivity].
  change (all_ops (asked_for p px ws)
            (res_trace (main p px ws version targets w))).
  rewrite main_parts. revert w.
  apply emits_bind; [|intros _; apply emits_bind; [|intros _]].
  - eapply emits_weaken; [apply before_op_asked_for|apply emits_main_before].
  - eapply emits_weaken; [apply inject_op_asked_for|apply emits_main_inject].
  - unfold Straight.main_after. apply emits_bind.
    + destruct p; [apply emits_build_pymavlink_asked|apply emits_ret].
    + intros _. destruct px; [apply emits_build_px4_asked|apply emits_ret].
Qed.

(** ** [install_dependencies] and the package files *)

Lemma install_dependencies_straight w :
  install_dependencies w
  = perform_all (install_ops THIS_DIR PX4_VERSION sys_executable) w.
Proof.
  unfold Build.install_dependencies, Straight.perform_all, install_ops.
  cbn [for_each]. apply bind_cong. intros _ w1 _ _.
  apply bind_cong. intros _ w2 _ _. symmetry. apply bind_ret_tt.
Qed.

(** X13.  [install_dependencies] upgrades [pip] and [wheel] and then
    installs the requirements of the codec generator, from the file in its
    directory; when the upgrade fails the requirements are not installed. *)
Theorem install_dependencies_in_order w :
  let ops :=
    [Print "--- Installing Python dependencies";
     CheckCall (mkCmd [sys_executable; "-m"; "pip"; "install"; "--upgrade";
                       "pip"; "wheel"] None []);
     CheckCall (mkCmd [sys_executable; "-m"; "pip"; "install"; "-r";
                       join PYMAVLINK_DIR "requirements.txt"] None [])] in
  let r := install_dependencies w in
  ((res_out r = Ok tt /\ res_trace r = map done ops)
   \/ (exists pre o post e,
         ops = (pre ++ o :: post)%list
         /\ res_out r = Raised e
         /\ res_trace r = (map done pre ++ [failed o])%list))
  /\ resolve (join PYMAVLINK_DIR "requirements.txt")
     = (resolve PYMAVLINK_DIR ++ ["requirements.txt"])%list.
Proof.
  intros ops r. split; [|now apply resolve_join].
  unfold r. rewrite install_dependencies_straight.
  apply (perform_all_trace Ext run_process
           (install_ops THIS_DIR PX4_VERSION sys_executable) w).
Qed.

Lemma build_pymavlink_collect_run w :
  build_pymavlink_collect w =
  match lookup (resolve (join PYMAVLINK_DIR "dist")) (fs w) with
  | Some (Dir es) =>
      perform_all (collect_ops THIS_DIR PX4_VERSION (map fst es)) w
  | Some (File _) => mkResult (Raised NotADirectoryError) w []
  | None => mkResult (Raised FileNotFoundError) w []
  end.
Proof.
  unfold Behaviour.build_pymavlink_collect, bind, os_listdir.
  destruct (lookup (resolve (join PYMAVLINK_DIR "dist")) (fs w)) as [[|es]|];
    try reflexivity.
  cbn [app]. rewrite result_eta. unfold Straight.perform_all, collect_ops.
  generalize (map fst es). clear es. intros names. revert w.
  induction names as [|n ns IH]; intros w; cbn [for_each map]; [reflexivity|].
  apply bind_cong. intros _ w1 _ _. apply IH.
Qed.

(** X14.  After the packaging run [build_pymavlink] lists the [dist]
    directory of the codec generator and copies each entry, in the order of
    the listing, to the output directory under the same name, up to the
    first copy that raises.  When [dist] is not there it raises
    [FileNotFoundError] and copies nothing. *)
Theorem package_files_collected mdir bell ws w :
  build_pymavlink mdir bell ws w =
    (print2 Ext "Generating pymavlink package" ;;
     build_pymavlink_patch ;;
     build_pymavlink_copy mdir ;;
     print2 Ext "Building package" ;;
     check_call setup_py ;;
     build_pymavlink_collect ;;
     if ws then
       print2 Ext "Building wireshark plugin" ;;
       check_call (mavgen_wlua bell)
     else ret tt) w
  /\ match lookup (resolve (join PYMAVLINK_DIR "dist")) (fs w) with
     | Some (Dir es) =>
         let ops :=
           map (fun filename =>
                  Copyfile (join (join PYMAVLINK_DIR "dist") filename)
                           (join DIST_DIR filename))
               (map fst es) in
         let r := build_pymavlink_collect w in
         (res_out r = Ok tt /\ res_trace r = map done ops)
         \/ (exists pre o post e,
               ops = (pre ++ o :: post)%list
               /\ res_out r = Raised e
               /\ res_trace r = (map done pre ++ [failed o])%list)
     | Some (File _) =>
         build_pymavlink_collect w = mkResult (Raised NotADirectoryError) w []
     | None =>
         build_pymavlink_collect w = mkResult (Raised FileNotFoundError) w []
     end.
Proof.
  split.
  - unfold Build.build_pymavlink.
    apply bind_cong. intros _ w1 _ _. apply bind_cong. intros _ w2 _ _.
    apply bind_cong. intros _ w3 _ _. apply bind_cong. intros _ w4 _ _.
    apply bind_cong. intros _ w5 _ _.
    unfold Behaviour.build_pymavlink_collect. now rewrite bind_assoc.
  - rewrite build_pymavlink_collect_run.
    destruct (lookup (resolve (join PYMAVLINK_DIR "dist")) (fs w)) as [[|es]|];
      try reflexivity.
    apply (perform_all_trace Ext run_process
             (collect_ops THIS_DIR PX4_VERSION (map fst es)) w).
Qed.

End Script.

(** X11.  Two versions with plain names have workspaces next to each other
    under [build]: removing the workspace of one, as [clone_px4] does on a
    mismatch, leaves everything in the workspace of the other. *)
Theorem workspaces_apart (THIS_DIR V1 V2 : string) (Ext : Type)
    (w : World Ext) (q : list string) :
  plain_name V1 = true -> plain_name V2 = true -> V1 <> V2 ->
  resolve (BUILD_DIR THIS_DIR V1) = (resolve THIS_DIR ++ ["build"; V1])%list
  /\ lookup (resolve (BUILD_DIR THIS_DIR V2) ++ q)
            (fs (res_world (shutil_rmtree (BUILD_DIR THIS_DIR V1) false w)))
     = lookup (resolve (BUILD_DIR THIS_DIR V2) ++ q) (fs w).
Proof.
  intros H1 H2 Hne. rewrite !resolve_BUILD_DIR by assumption.
  split; [reflexivity|].
  unfold shutil_rmtree, fs_op, rmtree_fs.
  rewrite resolve_BUILD_DIR by assumption.
  destruct (resolve THIS_DIR ++ ["build"; V1])%list as [|y l] eqn:E.
  { now destruct (resolve THIS_DIR). }
  rewrite <- E. clear E.
  destruct (lookup (resolve THIS_DIR ++ ["build"; V1]) (fs w)) as [[|]|];
    cbn [res_world fs]; try reflexivity.
  replace (resolve THIS_DIR ++ ["build"; V1])%list
    with ((resolve THIS_DIR ++ ["build"]) ++ V1 :: [])%list
    by now rewrite <- app_assoc.
  replace ((resolve THIS_DIR ++ ["build"; V2]) ++ q)%list
    with ((resolve THIS_DIR ++ ["build"]) ++ V2 :: q)%list
    by now rewrite <- !app_assoc.
  apply lookup_remove_diverge. congruence.
Qed.

End MoreFacts.

(** * The further statements on the workspace at [/repo] *)

Module MoreRuns.
Import PyStr Path FS OSPath Sys Build Straight Behaviour Clean Scenario Cases.
Import CleanFacts ProbeFacts MoreFacts.

(** A marker is created in the directory of the patches. *)
Lemma touch_file_creates_empty_run :
  res_out (touch_file string "/repo/patches/.done" fresh) = Ok tt
  /\ lookup ["repo"; "patches"; ".done"]
            (fs (res_world (touch_file string "/repo/patches/.done" fresh)))
     = Some (File "")
  /\ ext (res_world (touch_file string "/repo/patches/.done" fresh)) = ext fresh.
Proof.
  assert (H1 : locate_path "/repo/patches/.done" (fs fresh)
               = Ok ["repo"; "patches"; ".done"]) by (vm_compute; reflexivity).
  assert (H2 : is_dir (lookup ["repo"; "patches"; ".done"] (fs fresh))
               = false) by (vm_compute; reflexivity).
  exact (proj1 (touch_file_creates_empty string "/repo/patches/.done" fresh)
           _ H1 H2).
Defined.

(** No output directory, nothing to clean. *)
Lemma clean_directory_nothing_to_do_run :
  clean_directory "/repo/build" [".px4"] outputs = (Ok tt, outputs).
Proof.
  assert (H : is_dir (lookup (resolve "/repo/build") outputs) = false)
    by (vm_compute; reflexivity).
  exact (clean_directory_nothing_to_do "/repo/build" [".px4"] outputs
           (or_introl H)).
Defined.

(** The images and wheels go, the note stays. *)
Lemma clean_directory_removes_matching_run :
  exists t' es',
    clean_directory "/repo/dist/" [".px4"; ".whl"] outputs = (Ok tt, t')
    /\ lookup ["repo"; "dist"] t' = Some (Dir es')
    /\ (forall n,
          find_entry n es' =
          if any_endswith n [".px4"; ".whl"] then None
          else find_entry n [("fmu.px4", File "image");
                             ("notes.txt", File "keep");
                             ("bell.whl", File "wheel")])
    /\ (forall c a b q r,
          a <> b -> ["repo"; "dist"] = (c ++ b :: r)%list ->
          lookup (c ++ a :: q) t' = lookup (c ++ a :: q) outputs).
Proof.
  assert (H0 : locate_path "/repo/dist/" outputs = Ok ["repo"; "dist"])
    by (vm_compute; reflexivity).
  assert (H1 : lookup ["repo"; "dist"] outputs
               = Some (Dir [("fmu.px4", File "image");
                            ("notes.txt", File "keep");
                            ("bell.whl", File "wheel")]))
    by (vm_compute; reflexivity).
  assert (H2 : NoDup (map fst [("fmu.px4", File "image");
                               ("notes.txt", File "keep");
                               ("bell.whl", File "wheel")])).
  { cbn [map fst]. repeat constructor; cbn [In]; intuition discriminate. }
  assert (H3 : Forall (fun e : string * node => plain_name (fst e) = true)
                 [("fmu.px4", File "image"); ("notes.txt", File "keep");
                  ("bell.whl", File "wheel")])
    by (repeat constructor).
  assert (H4 : Forall (fun e : string * node =>
                         any_endswith (fst e) [".px4"; ".whl"] = true ->
                         is_file (Some (snd e)) = true)
                 [("fmu.px4", File "image"); ("notes.txt", File "keep");
                  ("bell.whl", File "wheel")])
    by (repeat constructor).
  exact (clean_directory_removes_matching "/repo/dist/" [".px4"; ".whl"] outputs
           _ _ H0 H1 H2 H3 H4).
Defined.

(** A directory named like an image stops the cleaning. *)
Lemma clean_directory_refuses_directory_run :
  clean_directory "/repo/dist" [".px4"] outputs_with_dir
  = (Raised IsADirectoryError, outputs_with_dir).
Proof.
  assert (H0 : locate_path "/repo/dist" outputs_with_dir = Ok ["repo"; "dist"])
    by (vm_compute; reflexivity).
  assert (H1 : lookup ["repo"; "dist"] outputs_with_dir
               = Some (Dir ([("notes.txt", File "keep")]
                            ++ ("old.px4", Dir [])
                            :: [("fmu.px4", File "image")])))
    by (vm_compute; reflexivity).
  assert (H2 : Forall (fun e : string * node =>
                         any_endswith (fst e) [".px4"] = false)
                 [("notes.txt", File "keep")])
    by (repeat constructor).
  assert (H3 : any_endswith "old.px4" [".px4"] = true)
    by (vm_compute; reflexivity).
  assert (H4 : plain_name "old.px4" = true) by (vm_compute; reflexivity).
  exact (clean_directory_refuses_directory "/repo/dist" [".px4"]
           outputs_with_dir _ _ _ _ _ H0 H1 H2 H3 H4).
Defined.

(** The workspace is removed because the checkout is stale. *)
Lemma rmtree_only_on_mismatch_run :
  hd_error (local_versions
              (stdout (tools (git_remote_show "/repo" "v1.12.1") stale)))
  <> Some "v1.12.1".
Proof.
  assert (H : In (Ev (Rmtree (BUILD_DIR "/repo" "v1.12.1") false) true)
                 (res_trace (clone_px4 "/repo" "v1.12.1" string tools stale))).
  { vm_compute. right. right. left. reflexivity. }
  destruct (rmtree_only_on_mismatch "/repo" "v1.12.1" "python3" string tools
              stale _ _ _ H) as (_ & _ & _ & _ & A & HA & Hne).
  rewrite HA. intros E. inversion E. contradiction.
Defined.

(** A marker without a checkout: the new checkout is not patched. *)
Lemma fresh_clone_skips_patch_run :
  res_trace (clone_px4 "/repo" "v1.12.1" string tools orphan_marker)
  = [done (Print "--- Cloning PX4");
     done (CheckCall (git_clone_px4 "/repo" "v1.12.1"))].
Proof.
  assert (H1 : is_dir (lookup (resolve (PX4_DIR "/repo" "v1.12.1"))
                              (fs orphan_marker)) = false)
    by (vm_compute; reflexivity).
  assert (H2 : exit_ok (tools (git_clone_px4 "/repo" "v1.12.1") orphan_marker)
               = true) by (vm_compute; reflexivity).
  assert (H3 : is_file (lookup (resolve (px4_patch_file "/repo" "v1.12.1"))
                          (fs (after (tools (git_clone_px4 "/repo" "v1.12.1")
                                        orphan_marker)))) = true)
    by (vm_compute; reflexivity).
  exact (f_equal res_trace
           (fresh_clone_skips_patch "/repo" "v1.12.1" string tools
              orphan_marker H1 H2 H3)).
Defined.

(** A tag with a "/" is cloned again on the next run. *)
Lemma slash_in_version_always_reclones_run :
  exists A ok t,
    res_trace (clone_px4 "/repo" "release/1.0" string tools
                 (cloned "release/1.0"))
    = done (CheckOutput (git_remote_show "/repo" "release/1.0"))
      :: done (Print ("Existing PX4 checkout is " ++ A ++ ", re-cloning"))
      :: Ev (Rmtree (BUILD_DIR "/repo" "release/1.0") false) ok :: t.
Proof.
  assert (H1 : split sep "release/1.0" <> ["release/1.0"])
    by (vm_compute; discriminate).
  assert (H2 : is_dir (lookup (resolve (PX4_DIR "/repo" "release/1.0"))
                              (fs (cloned "release/1.0"))) = true)
    by (vm_compute; reflexivity).
  assert (H3 : exit_ok (tools (git_remote_show "/repo" "release/1.0")
                          (cloned "release/1.0")) = true)
    by (vm_compute; reflexivity).
  assert (H4 : local_versions
                 (stdout (tools (git_remote_show "/repo" "release/1.0")
                            (cloned "release/1.0"))) <> [])
    by (vm_compute; discriminate).
  exact (slash_in_version_always_reclones "/repo" "release/1.0" string tools
           (cloned "release/1.0") H1 H2 H3 H4).
Defined.

(** The line of a tag is read back as the tag. *)
Lemma probe_reads_back_run :
  local_versions ("    refs/tags" ++ "/" ++ "v1.12.1") = ["v1.12.1"].
Proof.
  assert (H1 : no_linebreak ("    refs/tags" ++ "/" ++ "v1.12.1") = true)
    by (vm_compute; reflexivity).
  assert (H2 : startswith (strip ("    refs/tags" ++ "/" ++ "v1.12.1")) "refs"
               = true) by (vm_compute; reflexivity).
  assert (H3 : split sep "v1.12.1" = ["v1.12.1"]) by (vm_compute; reflexivity).
  exact (probe_reads_back "    refs/tags" "v1.12.1" H1 H2 H3).
Defined.

(** Removing the workspace of v1.12.1 leaves the markers of v1.13.0. *)
Lemma workspaces_apart_run :
  lookup (resolve (BUILD_DIR "/repo" "v1.13.0") ++ [".px4-patched"])
         (fs (res_world (shutil_rmtree (BUILD_DIR "/repo" "v1.12.1") false
                           (built "v1.13.0"))))
  = lookup (resolve (BUILD_DIR "/repo" "v1.13.0") ++ [".px4-patched"])
           (fs (built "v1.13.0")).
Proof.
  assert (H1 : plain_name "v1.12.1" = true) by (vm_compute; reflexivity).
  assert (H2 : plain_name "v1.13.0" = true) by (vm_compute; reflexivity).
  assert (H3 : "v1.12.1" <> "v1.13.0") by discriminate.
  exact (proj2 (workspaces_apart "/repo" "v1.12.1" "v1.13.0" string
                  (built "v1.13.0") [".px4-patched"] H1 H2 H3)).
Defined.

End MoreRuns.
